(** * Delay-discounting task with staircase designs: session controller

    A shallow embedding of [dd_psychopy_non-ado.py]: the trial function
    [run_trial], the practice loop and the staircase main loop, together
    with the pandas data frame the script appends to and writes out after
    every trial.

    Numbers.  The script mixes Python ints and floats.  Every number the
    staircase computes is 400 plus or minus a sum of 200, 100, 50, 25 and
    12.5, a multiple of 6.25 below 1024, so it is a binary64 value and the
    float operations of the script are exact on it
    ([binary64_staircase_exact] checks this on primitive floats); the
    embedding uses rationals ([Q]).  Equalities between computed rationals
    are stated with [==] ([Qeq]).

    Collaborators.  PsychoPy (window, keyboard, clock, random side) and the
    ADOpy engine are outside the script.  They are the classes [Presenter]
    and [Estimator]: a script of what happens on each call of [run_trial],
    an oracle for the random practice designs, and an abstract engine state
    with its update and posterior summaries.  A collaborator that raises is
    a [None].

    Screens.  [convert_delay_to_str], [draw_option] and the window calls of
    [run_trial] are pure functions here: [run_trial_screen] lists what a
    trial draws, flips and waits for, given what the participant does.  The
    text of a reward follows the format [{:,.0f}] of Python.  The label of
    a delay is computed in binary64, as [np.square] and [>] compute it: the
    delay enters as the float Python holds for it ([Q2float]).  The grid
    of designs the engine is made with is [on_grid]. *)

From Stdlib Require Import PrimFloat FloatOps SpecFloat.
From Stdlib Require Import ZArith QArith Qround Qabs List String Ascii Bool Arith Lia Lqa.
From Stdlib Require Import DecimalString.
Import ListNotations.

Close Scope Q_scope.
Local Open Scope string_scope.
Local Open Scope list_scope.
Set Warnings "-inexact-float".

(** ** Values, series and data frames *)

(** A value stored in a cell of the data frame. *)
Inductive pyval : Type :=
| VStr (s : string)
| VInt (z : Z)
| VNum (q : Q)
| NaN.

(** [pd.Series] built from a dict literal: keys in insertion order. *)
Definition Series : Type := list (string * pyval).

Fixpoint lookup (k : string) (s : Series) : option pyval :=
  match s with
  | [] => None
  | (k', v) :: s' => if String.eqb k k' then Some v else lookup k s'
  end.

Definition keys (s : Series) : list string := map fst s.

Definition mem (k : string) (l : list string) : bool :=
  existsb (String.eqb k) l.

Record DataFrame : Type := mkDataFrame {
  df_columns : list string;
  df_rows : list Series
}.

(** Insertion sort on labels; [Index.difference] returns its result sorted. *)
Fixpoint insert_sorted (k : string) (l : list string) : list string :=
  match l with
  | [] => [k]
  | k' :: l' => if String.leb k k' then k :: l else k' :: insert_sorted k l'
  end.

Definition sort_labels (l : list string) : list string :=
  fold_right insert_sorted [] l.

(** [other.index.difference(self.columns)] *)
Definition index_difference (idx cols : list string) : list string :=
  sort_labels (filter (fun k => negb (mem k cols)) idx).

(** [reindex]: one cell per label, [NaN] where the label is missing. *)
Definition reindex (cols : list string) (s : Series) : Series :=
  map (fun c => (c, match lookup c s with Some v => v | None => NaN end)) cols.

(** [df.append(series, ignore_index=True)]: the columns become the old
    columns followed by the labels of the series that are new; old rows get
    [NaN] in the new columns, the series gets [NaN] in the columns it does
    not mention, and becomes the last row. *)
Definition df_append (df : DataFrame) (other : Series) : DataFrame :=
  let combined := df_columns df ++ index_difference (keys other) (df_columns df) in
  {| df_columns := combined;
     df_rows := map (reindex combined) (df_rows df) ++ [reindex combined other] |}.

(** The file written by [df.to_csv(path, index=False)]: a header line and
    one line per row, one field per column, a missing value ([NaN]) written
    as an empty field ([None]). *)
Record Csv : Type := mkCsv {
  csv_header : list string;
  csv_lines : list (list (option pyval))
}.

Definition csv_field (s : Series) (c : string) : option pyval :=
  match lookup c s with
  | Some NaN => None
  | Some v => Some v
  | None => None
  end.

Definition to_csv (df : DataFrame) : Csv :=
  {| csv_header := df_columns df;
     csv_lines := map (fun r => map (csv_field r) (df_columns df)) (df_rows df) |}.

(** ** Designs and the trial function *)

(** The design dict of one trial. *)
Record Design : Type := mkDesign {
  t_ss : Q;
  t_ll : Q;
  r_ss : Q;
  r_ll : Q
}.

(** [design['r_ss'] = v] *)
Definition set_r_ss (d : Design) (v : Q) : Design :=
  {| t_ss := t_ss d; t_ll := t_ll d; r_ss := v; r_ll := r_ll d |}.

Definition KEYS_LEFT : list string := ["left"; "z"; "f"].
Definition KEYS_RIGHT : list string := ["right"; "slash"; "j"].

(** Python truth of an int, and [and], [or], [not] on ints. *)
Definition truthy (a : Z) : bool := negb (a =? 0)%Z.
Definition py_and (a b : Z) : Z := if truthy a then b else a.
Definition py_or (a b : Z) : Z := if truthy a then a else b.
Definition py_not (a : Z) : Z := Z.b2z (negb (truthy a)).

(** What the outside world supplies during one call of [run_trial]: the
    draw of [np.random.randint(0, 2)], the first key returned by
    [event.waitKeys] and the time read from the clock. *)
Record TrialInput : Type := mkTrialInput {
  in_randint : Z;
  in_key : string;
  in_rt : Q
}.

(** What [run_trial] returns: [(is_ll_on_left, key_left, response, rt)]. *)
Record TrialOutcome : Type := mkTrialOutcome {
  is_ll_on_left : Z;
  key_left : Z;
  out_response : Z;
  rt : Q
}.

(** The computation of [run_trial] between its draws and its return. *)
Definition trial_outcome (inp : TrialInput) : TrialOutcome :=
  let direction := (in_randint inp * 2 - 1)%Z in
  let is_ll_on_left := Z.b2z (direction =? -1)%Z in
  let key_left := Z.b2z (mem (in_key inp) KEYS_LEFT) in
  let response :=
    py_or (py_and key_left is_ll_on_left)
          (py_and (py_not key_left) (py_not is_ll_on_left)) in
  {| is_ll_on_left := is_ll_on_left;
     key_left := key_left;
     out_response := response;
     rt := in_rt inp |}.

(** ** Globals of the script *)

Definition delays : list Q := [1; 2; 4.3; 26; 52; 156; 520]%Q.

Definition columns : list string :=
  ["block"; "trial";
   "t_ss"; "t_ll"; "r_ss"; "r_ll";
   "is_ll_on_left"; "key_left"; "response"; "rt";
   "mean_k"; "mean_tau"].

(** The fourteen columns of the output format. *)
Definition columns_full : list string := columns ++ ["sd_k"; "sd_tau"].

(** ** Errors, calls and the state of a session *)

Inductive error : Type :=
| IndexError
| NameError (name : string)
| PresenterError
| EstimatorError.

(** Calls that leave the script, in the order they are made. *)
Inductive call : Type :=
| CallGetDesign
| CallRunTrial (d : Design)
| CallUpdate (d : Design) (response : Z)
| CallPostMean
| CallPostSd
| CallToCsv (f : Csv).

Definition is_update (c : call) : bool :=
  match c with CallUpdate _ _ => true | _ => false end.

Definition flushed (c : call) : option Csv :=
  match c with CallToCsv f => Some f | _ => None end.

Definition presented (c : call) : option Design :=
  match c with CallRunTrial d => Some d | _ => None end.

Fixpoint filter_map {A B : Type} (f : A -> option B) (l : list A) : list B :=
  match l with
  | [] => []
  | a :: l' =>
      match f a with
      | Some b => b :: filter_map f l'
      | None => filter_map f l'
      end
  end.

(** The files written, oldest first. *)
Definition flushes (l : list call) : list Csv := filter_map flushed l.

(** The designs shown to the participant, oldest first. *)
Definition designs_presented (l : list call) : list Design :=
  filter_map presented l.

(** How a loop ended: it ran to its end, or the body raised in iteration
    [trial] (counted from 0). *)
Inductive outcome : Type :=
| Done
| Failed (trial : nat) (e : error).

(** How the session ended. *)
Inductive session_outcome : Type :=
| Completed
| FailedPractice (trial : nat) (e : error)
| FailedMain (trial : nat) (e : error).

(** The ADOpy engine as the script uses it: its state, the design drawn by
    the call [engine.get_design('random')] of practice trial [trial], the
    update with a design and a response, and the two posterior summaries,
    each a pair (for [k] and for [tau]). *)
Class Estimator : Type := {
  Engine : Type;
  engine_get_design : nat -> option Design;
  engine_update : Engine -> Design -> Z -> option Engine;
  post_mean : Engine -> Q * Q;
  post_sd : Engine -> Q * Q
}.

(** The participant and the screen: what the [k]-th call of [run_trial] of
    the session receives, [None] when PsychoPy raises or quits. *)
Class Presenter : Type := {
  participant : nat -> option TrialInput
}.

Section Session.

Context {estimator : Estimator} {presenter : Presenter}.

(** The variables of the script that the loops read and write, the output
    file ([None] until it is first written), the calls made so far and the
    number of trials shown so far. *)
Record State : Type := mkState {
  engine : Engine;
  design : option Design;
  delta : Q;
  response : option Z;
  df_data : DataFrame;
  file : option Csv;
  calls : list call;
  shown : nat
}.

Definition set_engine (e : Engine) (s : State) : State :=
  mkState e (design s) (delta s) (response s) (df_data s) (file s) (calls s) (shown s).
Definition set_design (d : option Design) (s : State) : State :=
  mkState (engine s) d (delta s) (response s) (df_data s) (file s) (calls s) (shown s).
Definition set_delta (q : Q) (s : State) : State :=
  mkState (engine s) (design s) q (response s) (df_data s) (file s) (calls s) (shown s).
Definition set_response (r : option Z) (s : State) : State :=
  mkState (engine s) (design s) (delta s) r (df_data s) (file s) (calls s) (shown s).
Definition set_df_data (df : DataFrame) (s : State) : State :=
  mkState (engine s) (design s) (delta s) (response s) df (file s) (calls s) (shown s).
Definition set_file (f : option Csv) (s : State) : State :=
  mkState (engine s) (design s) (delta s) (response s) (df_data s) f (calls s) (shown s).
Definition set_calls (l : list call) (s : State) : State :=
  mkState (engine s) (design s) (delta s) (response s) (df_data s) (file s) l (shown s).
Definition set_shown (n : nat) (s : State) : State :=
  mkState (engine s) (design s) (delta s) (response s) (df_data s) (file s) (calls s) n.

(** *** State and error monad *)

Definition M (A : Type) : Type := State -> State * (error + A).

Definition ret {A : Type} (a : A) : M A := fun s => (s, inr a).

Definition bind {A B : Type} (m : M A) (k : A -> M B) : M B :=
  fun s =>
    match m s with
    | (s', inl e) => (s', inl e)
    | (s', inr a) => k a s'
    end.

Definition raise {A : Type} (e : error) : M A := fun s => (s, inl e).

Definition gets {A : Type} (f : State -> A) : M A := fun s => (s, inr (f s)).

Definition modify (f : State -> State) : M unit := fun s => (f s, inr tt).

Notation "x <- c1 ;; c2" := (bind c1 (fun x => c2))
  (at level 61, c1 at next level, right associativity).
Notation "c1 ;; c2" := (bind c1 (fun _ => c2))
  (at level 61, right associativity).

Definition lift_opt {A : Type} (e : error) (o : option A) : M A :=
  match o with
  | Some a => ret a
  | None => raise e
  end.

(** Reading a global that may not be bound yet. *)
Definition var {A : Type} (name : string) (f : State -> option A) : M A :=
  o <- gets f ;; lift_opt (NameError name) o.

Definition log_call (c : call) : M unit :=
  modify (fun s => set_calls (calls s ++ [c]) s).

(** *** Calls to the collaborators *)

(** [run_trial(design)] *)
Definition run_trial (d : Design) : M TrialOutcome :=
  log_call (CallRunTrial d) ;;
  k <- gets shown ;;
  inp <- lift_opt PresenterError (participant k) ;;
  modify (set_shown (S k)) ;;
  ret (trial_outcome inp).

(** [engine.get_design('random')] *)
Definition get_design_random (trial : nat) : M Design :=
  log_call CallGetDesign ;;
  lift_opt EstimatorError (engine_get_design trial).

(** [engine.update(design, response)] *)
Definition update (d : Design) (r : Z) : M unit :=
  log_call (CallUpdate d r) ;;
  e <- gets engine ;;
  e' <- lift_opt EstimatorError (engine_update e d r) ;;
  modify (set_engine e').

(** [engine.post_mean] and [engine.post_sd] *)
Definition read_post_mean : M (Q * Q) :=
  log_call CallPostMean ;; e <- gets engine ;; ret (post_mean e).

Definition read_post_sd : M (Q * Q) :=
  log_call CallPostSd ;; e <- gets engine ;; ret (post_sd e).

(** [df_data = df_data.append(pd.Series({...}), ignore_index=True)] *)
Definition append_row (r : Series) : M unit :=
  modify (fun s => set_df_data (df_append (df_data s) r) s).

(** [df_data.to_csv(path_output, index=False)] *)
Definition save : M unit :=
  df <- gets df_data ;;
  log_call (CallToCsv (to_csv df)) ;;
  modify (set_file (Some (to_csv df))).

(** *** Practice block *)

Definition practice_record (trial : nat) (d : Design) (o : TrialOutcome)
  : Series :=
  [("block", VStr "prac");
   ("trial", VInt (Z.of_nat trial + 1));
   ("t_ss", VNum (t_ss d));
   ("t_ll", VNum (t_ll d));
   ("r_ss", VNum (r_ss d));
   ("r_ll", VNum (r_ll d));
   ("is_ll_on_left", VInt (is_ll_on_left o));
   ("key_left", VInt (key_left o));
   ("response", VInt (out_response o));
   ("rt", VNum (rt o))].

(** Body of [for trial in range(n_prac)]. *)
Definition practice_trial (trial : nat) : M unit :=
  d <- get_design_random trial ;;
  modify (set_design (Some d)) ;;
  o <- run_trial d ;;
  modify (set_response (Some (out_response o))) ;;
  append_row (practice_record trial d o) ;;
  save.

(** *** Main block *)

(** The staircase: the [if trial % 6 == 0: ... else: ...] at the head of
    the main loop. *)
Definition next_design (trial : nat) : M unit :=
  if (trial mod 6 =? 0)%nat then
    t <- lift_opt IndexError (nth_error delays (trial / 6)) ;;
    modify (set_design
              (Some {| t_ss := 0; t_ll := t; r_ss := 400; r_ll := 800 |})) ;;
    modify (set_delta 200)
  else
    r <- var "response" response ;;
    d <- var "design" design ;;
    dl <- gets delta ;;
    (if (r =? 1)%Z
     then modify (set_design (Some (set_r_ss d (r_ss d + dl))))
     else modify (set_design (Some (set_r_ss d (r_ss d - dl))))) ;;
    dl <- gets delta ;;
    modify (set_delta (dl / 2)).

Definition main_record (trial : nat) (d : Design) (o : TrialOutcome)
  (mean_k mean_tau sd_k sd_tau : Q) : Series :=
  [("block", VStr "main");
   ("trial", VInt (Z.of_nat trial + 1));
   ("t_ss", VNum (t_ss d));
   ("t_ll", VNum (t_ll d));
   ("r_ss", VNum (r_ss d));
   ("r_ll", VNum (r_ll d));
   ("is_ll_on_left", VInt (is_ll_on_left o));
   ("key_left", VInt (key_left o));
   ("response", VInt (out_response o));
   ("rt", VNum (rt o));
   ("mean_k", VNum mean_k);
   ("mean_tau", VNum mean_tau);
   ("sd_k", VNum sd_k);
   ("sd_tau", VNum sd_tau)].

(** Body of [for trial in range(n_trial)]. *)
Definition main_trial (trial : nat) : M unit :=
  next_design trial ;;
  d <- var "design" design ;;
  o <- run_trial d ;;
  modify (set_response (Some (out_response o))) ;;
  update d (out_response o) ;;
  mean0 <- read_post_mean ;;
  mean1 <- read_post_mean ;;
  sd0 <- read_post_sd ;;
  sd1 <- read_post_sd ;;
  append_row (main_record trial d o
                (fst mean0) (snd mean1) (fst sd0) (snd sd1)) ;;
  save.

(** *** Loops and the session *)

(** [for trial in range(i, i + n): body(trial)], stopping at the first
    iteration that raises. *)
Fixpoint for_range (body : nat -> M unit) (i n : nat) (s : State)
  : State * outcome :=
  match n with
  | O => (s, Done)
  | S n' =>
      match body i s with
      | (s', inl e) => (s', Failed i e)
      | (s', inr _) => for_range body (S i) n' s'
      end
  end.

Definition practice_block (n_prac : nat) : State -> State * outcome :=
  for_range practice_trial 0 n_prac.

Definition main_block (n_trial : nat) : State -> State * outcome :=
  for_range main_trial 0 n_trial.

(** The globals when the practice loop is entered. *)
Definition initial (e : Engine) : State :=
  {| engine := e;
     design := None;
     delta := 200;
     response := None;
     df_data := {| df_columns := columns; df_rows := [] |};
     file := None;
     calls := [];
     shown := 0 |}.

(** The two loops one after the other. *)
Definition session (n_prac n_trial : nat) (s : State)
  : State * session_outcome :=
  match practice_block n_prac s with
  | (s1, Failed i e) => (s1, FailedPractice i e)
  | (s1, Done) =>
      match main_block n_trial s1 with
      | (s2, Failed i e) => (s2, FailedMain i e)
      | (s2, Done) => (s2, Completed)
      end
  end.

End Session.

Section Outcomes.

Context {estimator : Estimator}.

(** *** States the branches of a trial lead to *)

(** State after the block-start branch. *)
Definition block_start_state (t : Q) (s : State) : State :=
  set_delta 200
    (set_design (Some {| t_ss := 0; t_ll := t; r_ss := 400; r_ll := 800 |}) s).

(** State after the within-block branch. *)
Definition within_block_state (d : Design) (r : Z) (s : State) : State :=
  set_delta (delta s / 2)
    (set_design
       (Some (set_r_ss d (if (r =? 1)%Z then r_ss d + delta s
                          else r_ss d - delta s))) s).

(** State when a practice trial ends. *)
Definition practice_done (trial : nat) (d : Design) (o : TrialOutcome)
  (s : State) : State :=
  let df := df_append (df_data s) (practice_record trial d o) in
  {| engine := engine s;
     design := Some d;
     delta := delta s;
     response := Some (out_response o);
     df_data := df;
     file := Some (to_csv df);
     calls := calls s ++ [CallGetDesign; CallRunTrial d; CallToCsv (to_csv df)];
     shown := S (shown s) |}.

(** State when a main trial ends: [s] is the state after the staircase
    step, [e'] the engine after the update. *)
Definition main_done (trial : nat) (d : Design) (o : TrialOutcome)
  (e' : Engine) (s : State) : State :=
  let df := df_append (df_data s)
              (main_record trial d o
                 (fst (post_mean e')) (snd (post_mean e'))
                 (fst (post_sd e')) (snd (post_sd e'))) in
  {| engine := e';
     design := Some d;
     delta := delta s;
     response := Some (out_response o);
     df_data := df;
     file := Some (to_csv df);
     calls := calls s ++
              [CallRunTrial d; CallUpdate d (out_response o);
               CallPostMean; CallPostMean; CallPostSd; CallPostSd;
               CallToCsv (to_csv df)];
     shown := S (shown s) |}.

(** State when the update of a main trial raises. *)
Definition update_failed (d : Design) (o : TrialOutcome) (s : State) : State :=
  set_calls (calls s ++ [CallRunTrial d; CallUpdate d (out_response o)])
    (set_response (Some (out_response o)) (set_shown (S (shown s)) s)).

End Outcomes.

(** ** Histories: the completed trials of a session *)

(** One completed trial: its block, its index in the loop, the design
    shown, what [run_trial] returned and, in the main block, the four
    posterior numbers written in its row. *)
Inductive entry : Type :=
| EPrac (trial : nat) (d : Design) (o : TrialOutcome)
| EMain (trial : nat) (d : Design) (o : TrialOutcome)
        (mean_k mean_tau sd_k sd_tau : Q).

Definition record_of (e : entry) : Series :=
  match e with
  | EPrac t d o => practice_record t d o
  | EMain t d o mk mt sk st => main_record t d o mk mt sk st
  end.

Definition entry_is_main (e : entry) : bool :=
  match e with EPrac _ _ _ => false | EMain _ _ _ _ _ _ _ => true end.

Definition entry_trial (e : entry) : nat :=
  match e with EPrac t _ _ => t | EMain t _ _ _ _ _ _ => t end.

Definition entry_outcome (e : entry) : TrialOutcome :=
  match e with EPrac _ _ o => o | EMain _ _ o _ _ _ _ => o end.

(** The frame after the rows of a history were appended one by one to the
    empty frame [pd.DataFrame(None, columns=columns)]. *)
Definition empty_frame : DataFrame :=
  {| df_columns := columns; df_rows := [] |}.

Definition frame_of (hist : list entry) : DataFrame :=
  fold_left df_append (map record_of hist) empty_frame.

(** The output file after the trials of a history: none before the first
    trial ends, then the frame written in full. *)
Definition saved (hist : list entry) : option Csv :=
  match hist with
  | [] => None
  | _ => Some (to_csv (frame_of hist))
  end.

(** The line of the output file for a completed trial, under the fourteen
    columns. *)
Definition line_of (e : entry) : list (option pyval) :=
  map (csv_field (record_of e)) columns_full.

(** The line of a practice trial under the twelve declared columns. *)
Definition short_line_of (e : entry) : list (option pyval) :=
  map (csv_field (record_of e)) columns.

(** The fields of a line under the four posterior columns of the
    fourteen-column format. *)
Definition posterior_fields (line : list (option pyval)) : list (option pyval) :=
  skipn 10 line.

Definition is_number (c : option pyval) : bool :=
  match c with Some (VNum _) => true | _ => false end.

Definition is_blank (c : option pyval) : bool :=
  match c with None => true | _ => false end.

(** The block label of a line. *)
Definition line_block (line : list (option pyval)) : option pyval :=
  nth 0 line None.

(** The fields [block] and [trial] of the row of trial [t] (counted from 0)
    of the practice block ([false]) or the main block ([true]). *)
Definition key_label (k : bool * nat) : option pyval * option pyval :=
  (Some (VStr (if fst k then "main" else "prac")),
   Some (VInt (Z.of_nat (snd k) + 1))).

Definition line_label (line : list (option pyval)) : option pyval * option pyval :=
  (nth 0 line None, nth 1 line None).

(** The lines of the output file, none when it was never written. *)
Definition persisted_lines (f : option Csv) : list (list (option pyval)) :=
  match f with
  | None => []
  | Some c => csv_lines c
  end.

(** Step size of the staircase in trial [trial] of the main block. *)
Definition delta_at (trial : nat) : Q :=
  Nat.iter (trial mod 6) (fun q : Q => q / 2)%Q 200%Q.

(** The columns of the frame of a history: the declared twelve, and the two
    labels a main-block row brings once there is one. *)
Definition columns_of (hist : list entry) : list string :=
  if existsb entry_is_main hist then columns_full else columns.

(** The lines of the file of a history, whichever header it has. *)
Definition file_line (hist : list entry) : entry -> list (option pyval) :=
  if existsb entry_is_main hist then line_of else short_line_of.

(** The files written while the trials of a history ran: after the [n]-th
    trial, the frame of the first [n] trials. *)
Definition flushes_of (hist : list entry) : list Csv :=
  map (fun n => to_csv (frame_of (firstn n hist))) (seq 1 (List.length hist)).

(** Block and index of the trials of a history. *)
Definition entry_key (e : entry) : bool * nat :=
  (entry_is_main e, entry_trial e).

(** The keys of [p] practice trials followed by [m] main trials. *)
Definition session_keys (p m : nat) : list (bool * nat) :=
  map (pair false) (seq 0 p) ++ map (pair true) (seq 0 m).

(** Fields [block] and [trial] of the rows a session of [n_prac] practice
    and [n_trial] main trials records, in order. *)
Definition session_labels (n_prac n_trial : nat)
  : list (option pyval * option pyval) :=
  map key_label (session_keys n_prac n_trial).

(** The posterior fields of a line agree with its block: numbers in a
    line of the main block, empty in a line of the practice block. *)
Definition posterior_matches_block (line : list (option pyval)) : bool :=
  match line_block line with
  | Some (VStr b) =>
      if String.eqb b "main" then forallb is_number (posterior_fields line)
      else if String.eqb b "prac" then forallb is_blank (posterior_fields line)
      else false
  | _ => false
  end.


(** The outcome of an entry is what [run_trial] computes from some input. *)
Definition observed (e : entry) : Prop :=
  exists inp, entry_outcome e = trial_outcome inp.

(** Practice and main trials completed when a session stopped. *)
Definition practice_completed (n_prac : nat) (o : session_outcome) : nat :=
  match o with
  | FailedPractice i _ => i
  | _ => n_prac
  end.

Definition main_completed (n_trial : nat) (o : session_outcome) : nat :=
  match o with
  | Completed => n_trial
  | FailedPractice _ _ => 0
  | FailedMain i _ => i
  end.

(** Number of trials completed when a session stopped. *)
Definition completed_trials (n_prac n_trial : nat) (o : session_outcome) : nat :=
  practice_completed n_prac o + main_completed n_trial o.

(** What the trial index fixes of the design shown in trial [i] of the main
    block: the delays, the larger reward, and how far from 400 the smaller
    reward can be. *)
Definition stair_design (i : nat) (d : Design) : Prop :=
  t_ss d = 0%Q /\
  t_ll d = nth (i / 6) delays 0%Q /\
  r_ll d = 800%Q /\
  (2 * delta_at i <= r_ss d <= 800 - 2 * delta_at i)%Q.

Section Invariants.

Context {estimator : Estimator}.

(** The globals when iteration [j] of the main loop starts. *)
Definition stair_state (j : nat) (s : State) : Prop :=
  j <> 0 ->
  exists d r,
    design s = Some d /\ response s = Some r /\
    stair_design (j - 1) d /\ delta s = delta_at (j - 1).

(** The main loop is about to run iteration [j], having started in [s0]. *)
Definition Stair (s0 : State) (j : nat) (s : State) : Prop :=
  j <= 42 /\
  exists new,
    calls s = calls s0 ++ new /\
    Forall2 stair_design (seq 0 j) (designs_presented new) /\
    stair_state j s.

(** The frame in memory, the file and the files written so far are those
    of the completed trials [hist]. *)
Definition Recorded (hist : list entry) (s : State) : Prop :=
  df_data s = frame_of hist /\
  file s = saved hist /\
  flushes (calls s) = flushes_of hist.

(** [hist] is the history of [p] practice trials and [m] main trials. *)
Definition History (p m : nat) (hist : list entry) (s : State) : Prop :=
  Recorded hist s /\
  map entry_key hist = session_keys p m /\
  Forall observed hist.

End Invariants.

Section Failures.

Context {estimator : Estimator} {presenter : Presenter}.

(** How iteration [j] of the main loop can raise, with the designs [ds]
    shown since the loop started: the delays are used up, or a
    collaborator raised after the design of the iteration was shown. *)
Definition stair_failure (j : nat) (e : error) (ds : list Design) : Prop :=
  match e with
  | IndexError => j = 42 /\ Forall2 stair_design (seq 0 j) ds
  | PresenterError =>
      j < 42 /\ Forall2 stair_design (seq 0 (S j)) ds /\
      exists k, participant k = None
  | EstimatorError =>
      j < 42 /\ Forall2 stair_design (seq 0 (S j)) ds /\
      exists en d r, engine_update en d r = None
  | NameError _ => False
  end.

(** The main loop stopped in iteration [j], having started in [s0]. *)
Definition StairFailed (s0 : State) (j : nat) (e : error) (s : State) : Prop :=
  exists new,
    calls s = calls s0 ++ new /\
    stair_failure j e (designs_presented new).

End Failures.

(** ** The staircase in binary64 *)

(** The within-block update of [r_ss] and [delta] ([r_ss] plus or minus
    [delta] by the response, then [delta / 2]), on rationals as in
    [next_design] and on floats as Python computes it. *)
Definition q_step (rd : Q * Q) (response : Z) : Q * Q :=
  ((if (response =? 1)%Z then fst rd + snd rd else fst rd - snd rd)%Q,
   (snd rd / 2)%Q).

Definition float_step (rd : float * float) (response : Z) : float * float :=
  ((if (response =? 1)%Z then fst rd + snd rd else fst rd - snd rd)%float,
   (snd rd / 2)%float).

(** The values of [r_ss] shown in a block that starts with [rd] and gets
    the given responses. *)
Fixpoint q_block (rd : Q * Q) (responses : list Z) : list Q :=
  match responses with
  | [] => [fst rd]
  | r :: rs => fst rd :: q_block (q_step rd r) rs
  end.

Fixpoint float_block (rd : float * float) (responses : list Z) : list float :=
  match responses with
  | [] => [fst rd]
  | r :: rs => fst rd :: float_block (float_step rd r) rs
  end.

(** The rational a finite float stands for. *)
Definition float_to_Q (f : float) : option Q :=
  match Prim2SF f with
  | S754_zero _ => Some 0%Q
  | S754_finite sign m e =>
      Some (inject_Z (if sign then Z.neg m else Z.pos m) * 2 ^ e)%Q
  | _ => None
  end.

Definition same_value (f : float) (q : Q) : bool :=
  match float_to_Q f with
  | Some q' => Qeq_bool q' q
  | None => false
  end.

Fixpoint same_values (fs : list float) (qs : list Q) : bool :=
  match fs, qs with
  | [], [] => true
  | f :: fs', q :: qs' => same_value f q && same_values fs' qs'
  | _, _ => false
  end.

(** All sequences of [n] responses. *)
Fixpoint all_responses (n : nat) : list (list Z) :=
  match n with
  | O => [[]]
  | S n' =>
      map (cons 0%Z) (all_responses n') ++ map (cons 1%Z) (all_responses n')
  end.

(** ** Labels of delays *)

(** [tbl_conv] of [convert_delay_to_str] as it is written, in the order in
    which the loop visits the dict: the order of insertion (Python 3.7 and
    later). *)
Definition tbl_conv : list (Q * string) :=
  [(0, "Now");
   (0.43, "In 3 days");
   (0.714, "In 5 days");
   (1, "In 1 week");
   (2, "In 2 weeks");
   (3, "In 3 weeks");
   (4.3, "In 1 month");
   (6.44, "In 6 weeks");
   (8.6, "In 2 months");
   (10.8, "In 10 weeks");
   (12.9, "In 3 months");
   (17.2, "In 4 months");
   (21.5, "In 5 months");
   (26, "In 6 months");
   (52, "In 1 year");
   (104, "In 2 years");
   (156, "In 3 years");
   (260, "In 5 years");
   (520, "In 10 years")]%Q.

(** The binary64 number nearest to an integer. *)
Definition Z2float (z : Z) : float :=
  SF2Prim (binary_normalize prec emax z 0 false).

(** The binary64 number Python holds for a number that is the rational
    [q]: with [q] in lowest terms [n / d], the float of [n] divided by the
    float of [d].  This is [q] rounded to the nearest binary64 number when
    [n] and [d] are below 2^53, as for a literal like [4.3], and [q] itself
    when [q] is a binary64 number whose [d] is one (below 2^1024). *)
Definition Q2float (q : Q) : float :=
  let r := Qred q in
  (Z2float (Qnum r) / Z2float (Zpos (Qden r)))%float.

(** [tbl_conv] as Python holds it: the keys are binary64 numbers. *)
Definition float_tbl_conv : list (float * string) :=
  [(0, "Now");
   (0.43, "In 3 days");
   (0.714, "In 5 days");
   (1, "In 1 week");
   (2, "In 2 weeks");
   (3, "In 3 weeks");
   (4.3, "In 1 month");
   (6.44, "In 6 weeks");
   (8.6, "In 2 months");
   (10.8, "In 10 weeks");
   (12.9, "In 3 months");
   (17.2, "In 4 months");
   (21.5, "In 5 months");
   (26, "In 6 months");
   (52, "In 1 year");
   (104, "In 2 years");
   (156, "In 3 years");
   (260, "In 5 years");
   (520, "In 10 years")]%float.

(** [np.square] of a float. *)
Definition float_square (x : float) : float := (x * x)%float.

(** One iteration of the loop over the table: [(mv, ms)] becomes [(v, s)]
    when nothing was kept yet or [np.square(delay - mv) >
    np.square(delay - v)]. *)
Definition float_closer (delay : float) (best : option (float * string))
  (vs : float * string) : option (float * string) :=
  match best with
  | None => Some vs
  | Some (mv, ms) =>
      if PrimFloat.ltb (float_square (delay - fst vs))
           (float_square (delay - mv))
      then Some vs
      else Some (mv, ms)
  end.

(** [convert_delay_to_str(delay)] for a float: [ms] after the loop, which
    is [None] when the loop kept nothing. *)
Definition float_convert_delay_to_str (delay : float) : option string :=
  option_map snd (fold_left (float_closer delay) float_tbl_conv None).

(** [convert_delay_to_str] at a number of a design: the number enters as
    the float Python holds for it, and the subtraction, the square and the
    comparison are those of binary64.  (For a Python int, [np.square] works
    in int64 on the integer keys; it gives the same squares while they fit,
    and wraps from 3037000500 on, where the function is another one.  The
    delays of the script are floats, or ints up to 520.) *)
Definition convert_delay_to_str (delay : Q) : option string :=
  float_convert_delay_to_str (Q2float delay).

(** [s] is the label of a value of the table that no other value of the
    table is nearer to [delay] than, in exact arithmetic. *)
Definition nearest_label (delay : Q) (s : string) : Prop :=
  exists v,
    In (v, s) tbl_conv /\
    forall v' s', In (v', s') tbl_conv ->
                  (Qabs (delay - v) <= Qabs (delay - v'))%Q.

(** The table with its values in thousandths, which are whole numbers. *)
Definition thousandths : list (Z * string) :=
  map (fun vs => (Qfloor (fst vs * 1000), snd vs)) tbl_conv.

(** The label of [k / 1000] is that of a nearest value: a check that
    computes. *)
Definition nearest_ok (k : Z) : bool :=
  match convert_delay_to_str (inject_Z k / 1000) with
  | Some s =>
      match find (fun vs => String.eqb (snd vs) s) thousandths with
      | Some (v, _) =>
          forallb (fun vs' => (Z.abs (k - v) <=? Z.abs (k - fst vs'))%Z)
            thousandths
      | None => false
      end
  | None => false
  end.

Definition label_is (q : Q) (s : string) : bool :=
  match convert_delay_to_str q with
  | Some s' => String.eqb s' s
  | None => false
  end.

(** [p] holds of the [n] numbers from [lo] on. *)
Definition all_from (lo n : Z) (p : Z -> bool) : bool :=
  snd (Z.iter n (fun st => (fst st + 1, snd st && p (fst st))%Z) (lo, true)).

(** ** The design grid of the engine *)

(** [np.arange(start, stop, step)]: [ceil((stop - start) / step)] values,
    the [i]-th being [start + i * step]. *)
Definition arange (start stop step : Q) : list Q :=
  map (fun i => start + inject_Z (Z.of_nat i) * step)%Q
    (seq 0 (Z.to_nat (Qceiling ((stop - start) / step)))).

Definition grid_t_ss : list Q := [0]%Q.

Definition grid_t_ll : list Q :=
  [0.43; 0.714; 1; 2; 3; 4.3; 6.44; 8.6; 10.8; 12.9;
   17.2; 21.5; 26; 52; 104; 156; 260; 520]%Q.

Definition grid_r_ss : list Q := arange 12.5 800 12.5.

Definition grid_r_ll : list Q := [800]%Q.

(** A number is a value of a grid axis. *)
Definition on_axis (q : Q) (axis : list Q) : bool := existsb (Qeq_bool q) axis.

(** A design is a point of [grid_design]. *)
Definition on_grid (d : Design) : bool :=
  on_axis (t_ss d) grid_t_ss && on_axis (t_ll d) grid_t_ll &&
  on_axis (r_ss d) grid_r_ss && on_axis (r_ll d) grid_r_ll.

(** ** What a trial draws *)

Definition BOX_W : Q := 6.
Definition BOX_H : Q := 6.
Definition DIST_BTWN : Q := 8.

(** The text of a reward, [{:,.0f}] of [format]: the number rounded to
    a whole number, a tie to the even neighbour; the sign of a negative
    number, also before a zero; a comma before every group of three digits
    counted from the right. *)
Definition round_half_even (q : Q) : Z :=
  let f := Qfloor q in
  match (q - inject_Z f ?= 1 # 2)%Q with
  | Lt => f
  | Gt => (f + 1)%Z
  | Eq => if Z.even f then f else (f + 1)%Z
  end.

(** The decimal digits of a number that is not negative. *)
Definition digits (n : Z) : string :=
  NilZero.string_of_uint (N.to_uint (Z.to_N n)).

(** Commas into digits given last digit first. *)
Fixpoint group_thousands_rev (l : list ascii) : list ascii :=
  match l with
  | a :: b :: c :: (_ :: _) as rest =>
      a :: b :: c :: ","%char :: group_thousands_rev rest
  | _ => l
  end.

Definition group_thousands (s : string) : string :=
  string_of_list_ascii
    (rev (group_thousands_rev (rev (list_ascii_of_string s)))).

Definition format_reward (q : Q) : string :=
  "$" ++ (match (q ?= 0)%Q with Lt => "-" | _ => "" end)
      ++ group_thousands (digits (Z.abs (round_half_even q))).

(** What [draw_option] puts on the screen: the four corners of the box,
    its fill colour, and the two texts with their positions. *)
Record OptionBox : Type := mkOptionBox {
  box_vertices : list (Q * Q);
  box_fill : option string;
  reward_pos : Q * Q;
  reward_shown : string;
  delay_pos : Q * Q;
  delay_shown : option string
}.

(** [draw_option(delay, reward, direction, chosen)] *)
Definition draw_option (delay reward : Q) (direction : Z) (chosen : bool)
  : OptionBox :=
  let pos_x_center := (inject_Z direction * DIST_BTWN)%Q in
  let pos_x_left := (pos_x_center - BOX_W)%Q in
  let pos_x_right := (pos_x_center + BOX_W)%Q in
  let pos_y_top := (BOX_H / 2)%Q in
  let pos_y_bottom := (- BOX_H / 2)%Q in
  let fill_color := if chosen then Some "darkgreen" else None in
  {| box_vertices := [(pos_x_left, pos_y_top); (pos_x_right, pos_y_top);
                      (pos_x_right, pos_y_bottom); (pos_x_left, pos_y_bottom)];
     box_fill := fill_color;
     reward_pos := (pos_x_center, 1%Q);
     reward_shown := format_reward reward;
     delay_pos := (pos_x_center, (-1)%Q);
     delay_shown := convert_delay_to_str delay |}.

(** What [run_trial] does to the window, in order. *)
Inductive screen_event : Type :=
| ScreenDraw (b : OptionBox)
| ScreenFlip
| ScreenWaitKeys
| ScreenWait (seconds : Q).

(** The window calls of [run_trial(design)] when the outside world
    supplies [inp]: the two options, the wait for a key, the two options
    again with the chosen one filled, and an empty screen. *)
Definition run_trial_screen (design : Design) (inp : TrialInput)
  : list screen_event :=
  let direction := (in_randint inp * 2 - 1)%Z in
  let response := out_response (trial_outcome inp) in
  [ScreenDraw (draw_option (t_ss design) (r_ss design) (-1 * direction) false);
   ScreenDraw (draw_option (t_ll design) (r_ll design) (1 * direction) false);
   ScreenFlip;
   ScreenWaitKeys;
   ScreenDraw (draw_option (t_ss design) (r_ss design) (-1 * direction)
                 (response =? 0)%Z);
   ScreenDraw (draw_option (t_ll design) (r_ll design) (1 * direction)
                 (response =? 1)%Z);
   ScreenFlip;
   ScreenWait 1;
   ScreenFlip;
   ScreenWait 1].

(** Box [a] lies wholly to the left of box [b]. *)
Definition left_of (a b : OptionBox) : Prop :=
  forall p p', In p (box_vertices a) -> In p' (box_vertices b) ->
               (fst p < fst p')%Q.

(** The boxes drawn, in order. *)
Definition boxes_drawn (l : list screen_event) : list OptionBox :=
  filter_map (fun e => match e with ScreenDraw b => Some b | _ => None end) l.

(** ** What the calls and the rows say of each other *)

Definition entry_design (e : entry) : Design :=
  match e with EPrac _ d _ => d | EMain _ d _ _ _ _ _ => d end.

(** The design and the response of a call of [engine.update]. *)
Definition updated (c : call) : option (Design * Z) :=
  match c with CallUpdate d r => Some (d, r) | _ => None end.

(** The updates of the engine, oldest first. *)
Definition updates (l : list call) : list (Design * Z) := filter_map updated l.

(** The update a completed trial made: none in the practice block. *)
Definition entry_update (e : entry) : option (Design * Z) :=
  match e with
  | EPrac _ _ _ => None
  | EMain _ d o _ _ _ _ => Some (d, out_response o)
  end.

Definition updates_of (hist : list entry) : list (Design * Z) :=
  filter_map entry_update hist.

(** The posterior numbers in the row of a completed main trial. *)
Definition entry_posterior (e : entry) : option (list (option pyval)) :=
  match e with
  | EPrac _ _ _ => None
  | EMain _ _ _ mk mt sk st =>
      Some [Some (VNum mk); Some (VNum mt); Some (VNum sk); Some (VNum st)]
  end.

Definition posteriors_of (hist : list entry) : list (list (option pyval)) :=
  filter_map entry_posterior hist.

(** The fields of a line that hold the design, the outcome of
    [run_trial], and the response. *)
Definition line_design (line : list (option pyval)) : list (option pyval) :=
  firstn 4 (skipn 2 line).

Definition line_outcome (line : list (option pyval)) : list (option pyval) :=
  firstn 4 (skipn 6 line).

Definition line_response (line : list (option pyval)) : option pyval :=
  nth 8 line None.

Definition design_cells (d : Design) : list (option pyval) :=
  [Some (VNum (t_ss d)); Some (VNum (t_ll d));
   Some (VNum (r_ss d)); Some (VNum (r_ll d))].

Definition outcome_cells (o : TrialOutcome) : list (option pyval) :=
  [Some (VInt (is_ll_on_left o)); Some (VInt (key_left o));
   Some (VInt (out_response o)); Some (VNum (rt o))].

Section Replay.

Context {estimator : Estimator} {presenter : Presenter}.

(** The engine after a list of updates, [None] if one of them raises. *)
Fixpoint replay (e : Engine) (ups : list (Design * Z)) : option Engine :=
  match ups with
  | [] => Some e
  | (d, r) :: ups' =>
      match engine_update e d r with
      | Some e' => replay e' ups'
      | None => None
      end
  end.

(** The posterior numbers read after each of a list of updates, as the
    fields of a row. *)
Fixpoint posterior_rows (e : Engine) (ups : list (Design * Z))
  : list (list (option pyval)) :=
  match ups with
  | [] => []
  | (d, r) :: ups' =>
      match engine_update e d r with
      | Some e' =>
          [Some (VNum (fst (post_mean e'))); Some (VNum (snd (post_mean e')));
           Some (VNum (fst (post_sd e'))); Some (VNum (snd (post_sd e')))]
          :: posterior_rows e' ups'
      | None => []
      end
  end.

(** The outcome of the [i]-th entry is what [run_trial] made of the [i]-th
    answer of the participant. *)
Definition answered (hist : list entry) : Prop :=
  Forall2 (fun i e => exists inp,
             participant i = Some inp /\ entry_outcome e = trial_outcome inp)
    (seq 0 (List.length hist)) hist.

(** The calls, the engine and the rows agree on the completed trials
    [hist] of a session that started with the engine [e0]. *)
Definition Traced (e0 : Engine) (hist : list entry) (s : State) : Prop :=
  Recorded hist s /\
  designs_presented (calls s) = map entry_design hist /\
  updates (calls s) = updates_of hist /\
  replay e0 (updates_of hist) = Some (engine s) /\
  posteriors_of hist = posterior_rows e0 (updates_of hist) /\
  answered hist /\
  shown s = List.length hist.

(** The same when a trial raised: the calls may hold the design and the
    update of the trial that did not end. *)
Definition TracedFailed (e0 : Engine) (hist : list entry) (s : State) : Prop :=
  Recorded hist s /\
  (exists rest, designs_presented (calls s) = map entry_design hist ++ rest /\
                List.length rest <= 1) /\
  (exists rest, updates (calls s) = updates_of hist ++ rest /\
                List.length rest <= 1) /\
  replay e0 (updates_of hist) = Some (engine s) /\
  posteriors_of hist = posterior_rows e0 (updates_of hist) /\
  answered hist.

(** How far a session got, as a predicate on its end. *)
Definition traced_end (e0 : Engine) (out : session_outcome)
  (hist : list entry) (s : State) : Prop :=
  match out with
  | Completed => Traced e0 hist s
  | _ => TracedFailed e0 hist s
  end.

End Replay.

(** ** The staircase on the design grid *)

(** The smaller reward of the design of trial [i] is an odd multiple of
    twice the step of the trial. *)
Definition lattice_design (i : nat) (d : Design) : Prop :=
  exists k : Z, (r_ss d == inject_Z (2 * k + 1) * (2 * delta_at i))%Q.

(** What the staircase keeps of the design of trial [i]. *)
Definition staircase_point (i : nat) (d : Design) : Prop :=
  i < 42 /\ stair_design i d /\ lattice_design i d.

(** The designs shown are those of the staircase, trial by trial, and the
    engine is updated with designs shown only. *)
Definition calls_on_staircase (new : list call) : Prop :=
  Forall2 staircase_point
    (seq 0 (List.length (designs_presented new))) (designs_presented new) /\
  Forall (fun u => In (fst u) (designs_presented new)) (updates new).

Section Lattice.

Context {estimator : Estimator}.

Definition lattice_state (j : nat) (s : State) : Prop :=
  j <> 0 -> exists d, design s = Some d /\ lattice_design (j - 1) d.

(** The main loop is about to run iteration [j], having started in [s0]
    and shown [j] designs of the staircase. *)
Definition Lattice (s0 : State) (j : nat) (s : State) : Prop :=
  Stair s0 j s /\
  (exists new,
     calls s = calls s0 ++ new /\
     List.length (designs_presented new) = j /\
     calls_on_staircase new) /\
  lattice_state j s.

Definition LatticeStopped (s0 : State) (j : nat) (e : error) (s : State)
  : Prop :=
  exists new, calls s = calls s0 ++ new /\ calls_on_staircase new.

End Lattice.

(** The number whose binary digits are [rs], first digit first. *)
Definition binary (rs : list Z) : Z :=
  fold_left (fun acc r => 2 * acc + r)%Z rs 0%Z.

(** ** The staircase as a function of the responses *)

(** The [if trial % 6 == 0: ... else: ...] of the main loop on its own:
    from the design and the response of the trial before, if any, and the
    step, the design of trial [trial] and the step after it.  [None] when the
    delays are used up or there is no trial before. *)
Definition stair_next (trial : nat) (prev : option (Design * Z)) (dl : Q)
  : option (Design * Q) :=
  if (trial mod 6 =? 0)%nat then
    match nth_error delays (trial / 6) with
    | Some t =>
        Some ({| t_ss := 0; t_ll := t; r_ss := 400; r_ll := 800 |}, 200%Q)
    | None => None
    end
  else
    match prev with
    | Some (d, r) =>
        Some (set_r_ss d (if (r =? 1)%Z then r_ss d + dl else r_ss d - dl)%Q,
              (dl / 2)%Q)
    | None => None
    end.

(** The designs of the trials [trial], [trial + 1], ... that get the
    responses [rs], one design per response. *)
Fixpoint stair_run (trial : nat) (prev : option (Design * Z)) (dl : Q)
  (rs : list Z) : list Design :=
  match rs with
  | [] => []
  | r :: rs' =>
      match stair_next trial prev dl with
      | None => []
      | Some (d, dl') => d :: stair_run (S trial) (Some (d, r)) dl' rs'
      end
  end.

(** Where the staircase is after these trials. *)
Fixpoint stair_final (trial : nat) (prev : option (Design * Z)) (dl : Q)
  (rs : list Z) : option (nat * option (Design * Z) * Q) :=
  match rs with
  | [] => Some (trial, prev, dl)
  | r :: rs' =>
      match stair_next trial prev dl with
      | None => None
      | Some (d, dl') => stair_final (S trial) (Some (d, r)) dl' rs'
      end
  end.

(** The response in a line, as a number. *)
Definition line_response_int (line : list (option pyval)) : Z :=
  match line_response line with
  | Some (VInt r) => r
  | _ => 0%Z
  end.

(** The designs of the updates in [new] are those of the staircase run on
    their responses. *)
Definition replayed (new : list call) : Prop :=
  map fst (updates new) = stair_run 0 None 200 (map snd (updates new)).

Section Replayed.

Context {estimator : Estimator}.

(** The main loop is about to run iteration [j], having started in [s0]:
    its updates so far replay, and the globals are where the replay ends. *)
Definition Replayed (s0 : State) (j : nat) (s : State) : Prop :=
  j <= 42 /\
  exists new,
    calls s = calls s0 ++ new /\
    List.length (updates new) = j /\
    replayed new /\
    (j <> 0 ->
     exists d r,
       design s = Some d /\ response s = Some r /\
       stair_final 0 None 200 (map snd (updates new)) =
         Some (j, Some (d, r), delta s)).

Definition ReplayStopped (s0 : State) (j : nat) (e : error) (s : State)
  : Prop :=
  exists new, calls s = calls s0 ++ new /\ replayed new.

End Replayed.

(** ** Test doubles *)

(** An engine that counts its updates: the random design of practice trial
    [i] has [r_ss = 12.5 * (i + 1)], the posterior mean of [k] is the number
    of updates so far. *)
Definition counting_estimator : Estimator :=
  {| Engine := nat;
     engine_get_design := fun i =>
       Some {| t_ss := 0; t_ll := 1;
               r_ss := 12.5 * inject_Z (Z.of_nat (S i)); r_ll := 800 |};
     engine_update := fun e _ _ => Some (S e);
     post_mean := fun e => (inject_Z (Z.of_nat e), 1%Q);
     post_sd := fun _ => (2%Q, 3%Q) |}.

(** A participant who sees the larger-later option on the right and
    chooses it exactly in the trials whose scripted response is 1, pressing
    [j] for it and [f] for the other; nothing fails. *)
Definition scripted_presenter (responses : list Z) : Presenter :=
  {| participant := fun k =>
       Some {| in_randint := 1;
               in_key := if (nth k responses 0 =? 1)%Z then "j" else "f";
               in_rt := 1.5 |} |}.

(** The same participant, but PsychoPy raises in the call number [k]. *)
Definition failing_presenter (responses : list Z) (k : nat) : Presenter :=
  {| participant := fun i =>
       if (i =? k)%nat then None
       else @participant (scripted_presenter responses) i |}.

(** The globals after a trial that showed 700 against 800 in two weeks and
    got the response 1, the step being 200. *)
Definition answered_state : @State counting_estimator :=
  @set_response counting_estimator (Some 1%Z)
    (@set_design counting_estimator
       (Some {| t_ss := 0; t_ll := 2; r_ss := 700; r_ll := 800 |})
       (@initial counting_estimator 0%nat)).

(** ** Updates that raise *)

(** The update that stopped a session, if the session stopped there: one
    more update than main trials completed. *)
Definition raised_update (out : session_outcome) : nat :=
  match out with
  | FailedMain _ EstimatorError => 1
  | _ => 0
  end.

Section Counted.

Context {estimator : Estimator}.

(** Iteration [j] of the main loop raised [e]: the engine was updated
    once more, in vain, exactly when [e] comes from [engine.update]. *)
Definition UpdateRaised (j : nat) (e : error) (s : State) : Prop :=
  match e with
  | EstimatorError =>
      exists ups d r,
        updates (calls s) = ups ++ [(d, r)] /\
        List.length ups = j /\
        engine_update (engine s) d r = None
  | _ => List.length (updates (calls s)) = j
  end.

End Counted.

(** An engine like [counting_estimator] whose update raises when [k]
    updates were made. *)
Definition refusing_estimator (k : nat) : Estimator :=
  {| Engine := nat;
     engine_get_design := fun i =>
       Some {| t_ss := 0; t_ll := 1;
               r_ss := 12.5 * inject_Z (Z.of_nat (S i)); r_ll := 800 |};
     engine_update := fun e _ _ => if (e =? k)%nat then None else Some (S e);
     post_mean := fun e => (inject_Z (Z.of_nat e), 1%Q);
     post_sd := fun _ => (2%Q, 3%Q) |}.

(** * Properties *)

Arguments trial_outcome : simpl never.
Arguments df_append : simpl never.
Arguments to_csv : simpl never.
Arguments practice_record : simpl never.
Arguments main_record : simpl never.

(** ** Frames and files of a history *)

Lemma frame_of_snoc (hist : list entry) (e : entry) :
  frame_of (hist ++ [e]) = df_append (frame_of hist) (record_of e).
Proof.
  unfold frame_of. now rewrite map_app, fold_left_app.
Qed.

Lemma reindex_widen (e : entry) :
  entry_is_main e = false ->
  reindex columns_full (reindex columns (record_of e)) =
  reindex columns_full (record_of e).
Proof. destruct e; [reflexivity | discriminate]. Qed.

Lemma frame_of_shape (hist : list entry) :
  frame_of hist =
  {| df_columns := columns_of hist;
     df_rows := map (fun e => reindex (columns_of hist) (record_of e)) hist |}.
Proof.
  induction hist as [| e hist IH] using rev_ind; [reflexivity |].
  rewrite frame_of_snoc, IH. unfold columns_of.
  rewrite existsb_app. cbn [existsb]. rewrite orb_false_r.
  destruct (existsb entry_is_main hist) eqn:Eh.
  - cbn [orb]. unfold df_append. cbn [df_columns df_rows].
    replace (index_difference (keys (record_of e)) columns_full) with (@nil string)
      by (destruct e; reflexivity).
    rewrite app_nil_r, map_map, map_app. cbn [map]. reflexivity.
  - cbn [orb]. destruct e as [t d o | t d o mk mt sk st]; cbn [entry_is_main].
    + unfold df_append. cbn [df_columns df_rows].
      replace (index_difference (keys (record_of (EPrac t d o))) columns)
        with (@nil string) by reflexivity.
      rewrite app_nil_r, map_map, map_app. cbn [map]. reflexivity.
    + unfold df_append. cbn [df_columns df_rows].
      replace (columns ++ index_difference
                 (keys (record_of (EMain t d o mk mt sk st))) columns)
        with columns_full by reflexivity.
      rewrite map_map, map_app. cbn [map].
      apply (f_equal (mkDataFrame columns_full)).
      apply (f_equal (fun l => l ++ [reindex columns_full (record_of (EMain t d o mk mt sk st))])).
      apply map_ext_in. intros a Ha. apply reindex_widen.
      destruct (entry_is_main a) eqn:Ea; [| reflexivity].
      assert (existsb entry_is_main hist = true)
        by (apply existsb_exists; exists a; split; assumption).
      congruence.
Qed.

Lemma line_of_reindex (e : entry) :
  map (csv_field (reindex columns_full (record_of e))) columns_full = line_of e.
Proof. destruct e; reflexivity. Qed.

Lemma short_line_of_reindex (e : entry) :
  map (csv_field (reindex columns (record_of e))) columns = short_line_of e.
Proof. destruct e; reflexivity. Qed.

Lemma to_csv_frame_full (hist : list entry) :
  existsb entry_is_main hist = true ->
  to_csv (frame_of hist) =
  {| csv_header := columns_full; csv_lines := map line_of hist |}.
Proof.
  intros H. rewrite frame_of_shape. unfold columns_of. rewrite H.
  unfold to_csv. cbn [df_columns df_rows]. rewrite map_map.
  f_equal. apply map_ext. intros e. apply line_of_reindex.
Qed.

Lemma to_csv_frame_short (hist : list entry) :
  existsb entry_is_main hist = false ->
  to_csv (frame_of hist) =
  {| csv_header := columns; csv_lines := map short_line_of hist |}.
Proof.
  intros H. rewrite frame_of_shape. unfold columns_of. rewrite H.
  unfold to_csv. cbn [df_columns df_rows]. rewrite map_map.
  f_equal. apply map_ext. intros e. apply short_line_of_reindex.
Qed.

Lemma filter_map_app {A B : Type} (f : A -> option B) (l1 l2 : list A) :
  filter_map f (l1 ++ l2) = filter_map f l1 ++ filter_map f l2.
Proof.
  induction l1 as [| a l1 IH]; [reflexivity |].
  simpl. destruct (f a); simpl; now rewrite IH.
Qed.

Lemma flushes_of_snoc (hist : list entry) (e : entry) :
  flushes_of (hist ++ [e]) = flushes_of hist ++ [to_csv (frame_of (hist ++ [e]))].
Proof.
  unfold flushes_of. rewrite length_app. cbn [List.length].
  rewrite Nat.add_1_r, seq_S, map_app. cbn [map].
  f_equal.
  - apply map_ext_in. intros n Hn. apply in_seq in Hn.
    rewrite firstn_app.
    replace (n - List.length hist) with 0 by lia.
    now rewrite firstn_O, app_nil_r.
  - rewrite firstn_all2; [reflexivity |].
    rewrite length_app. cbn [List.length]. lia.
Qed.

Lemma saved_snoc (hist : list entry) (e : entry) :
  saved (hist ++ [e]) = Some (to_csv (frame_of (hist ++ [e]))).
Proof. destruct hist; reflexivity. Qed.

(** ** Lines of the file of a history *)

Lemma trial_outcome_response (inp : TrialInput) :
  out_response (trial_outcome inp) =
  (if (key_left (trial_outcome inp) =? is_ll_on_left (trial_outcome inp))%Z
   then 1 else 0)%Z.
Proof.
  unfold trial_outcome. cbn [out_response key_left is_ll_on_left].
  destruct (mem (in_key inp) KEYS_LEFT);
    destruct (in_randint inp * 2 - 1 =? -1)%Z; reflexivity.
Qed.

(** The keys of [KEYS_LEFT] count as left, those of [KEYS_RIGHT] do not. *)
Lemma key_left_by_key (inp : TrialInput) :
  (In (in_key inp) KEYS_LEFT -> key_left (trial_outcome inp) = 1%Z) /\
  (In (in_key inp) KEYS_RIGHT -> key_left (trial_outcome inp) = 0%Z).
Proof.
  unfold trial_outcome. cbn [key_left]. split; intros H; cbn [In KEYS_LEFT KEYS_RIGHT] in H;
    repeat (destruct H as [<- | H]; [reflexivity |]); destruct H.
Qed.

Lemma line_label_full (e : entry) :
  line_label (line_of e) = key_label (entry_key e).
Proof. destruct e; reflexivity. Qed.

Lemma line_label_short (e : entry) :
  line_label (short_line_of e) = key_label (entry_key e).
Proof. destruct e; reflexivity. Qed.

Lemma posterior_full (e : entry) : posterior_matches_block (line_of e) = true.
Proof. destruct e; reflexivity. Qed.

Lemma posterior_short (e : entry) :
  posterior_matches_block (short_line_of e) = true.
Proof. destruct e; reflexivity. Qed.



Lemma to_csv_frame (hist : list entry) :
  to_csv (frame_of hist) =
  {| csv_header := columns_of hist; csv_lines := map (file_line hist) hist |}.
Proof.
  unfold file_line, columns_of.
  destruct (existsb entry_is_main hist) eqn:E.
  - now apply to_csv_frame_full.
  - now apply to_csv_frame_short.
Qed.

Lemma saved_lines (hist : list entry) :
  persisted_lines (saved hist) = map (file_line hist) hist.
Proof.
  destruct hist as [| e hist]; [reflexivity |].
  unfold saved, persisted_lines. now rewrite to_csv_frame.
Qed.

Lemma file_line_label (hist : list entry) (e : entry) :
  line_label (file_line hist e) = key_label (entry_key e).
Proof.
  unfold file_line. destruct (existsb entry_is_main hist);
    [apply line_label_full | apply line_label_short].
Qed.

Lemma frame_labels (hist : list entry) :
  map line_label (csv_lines (to_csv (frame_of hist))) =
  map key_label (map entry_key hist).
Proof.
  rewrite to_csv_frame. cbn [csv_lines]. rewrite !map_map.
  apply map_ext. intros e. apply file_line_label.
Qed.

(** ** Keys of a session *)

Lemma session_keys_length (p m : nat) : List.length (session_keys p m) = p + m.
Proof.
  unfold session_keys. now rewrite length_app, !length_map, !length_seq.
Qed.

Lemma firstn_map_seq {A : Type} (f : nat -> A) (k n : nat) :
  k <= n -> firstn k (map f (seq 0 n)) = map f (seq 0 k).
Proof.
  intros H. rewrite firstn_map. f_equal.
  replace n with (k + (n - k)) by lia.
  rewrite seq_app, firstn_app, length_seq, Nat.sub_diag, firstn_O, app_nil_r.
  apply firstn_all2. rewrite length_seq. lia.
Qed.

(** The trials completed are the first ones of the session. *)
Lemma session_keys_prefix (n_prac n_trial p m : nat) :
  p <= n_prac -> m <= n_trial -> (m <> 0 -> p = n_prac) ->
  firstn (p + m) (session_keys n_prac n_trial) = session_keys p m.
Proof.
  intros Hp Hm Hpm. unfold session_keys.
  rewrite firstn_app, length_map, length_seq.
  destruct (Nat.eq_dec m 0) as [-> | Hne].
  - rewrite Nat.add_0_r.
    replace (p - n_prac) with 0 by lia.
    rewrite firstn_O, firstn_map_seq by lia. reflexivity.
  - rewrite (Hpm Hne).
    replace (n_prac + m - n_prac) with m by lia.
    rewrite firstn_all2 by (rewrite length_map, length_seq; lia).
    now rewrite firstn_map_seq by lia.
Qed.

Lemma keys_all_block (b : bool) (l : list nat) (hist : list entry) :
  map entry_key hist = map (pair b) l ->
  Forall (fun e => entry_is_main e = b) hist.
Proof.
  revert l. induction hist as [| e hist IH]; intros [| t l] H;
    try discriminate; constructor.
  - cbn [map] in H. injection H as Hk _ _. exact Hk.
  - cbn [map] in H. injection H as _ _ Ht. apply (IH l Ht).
Qed.

(** A history of [p] practice trials and [m] main trials is [p] practice
    entries followed by [m] main entries. *)
Lemma history_split (p m : nat) (hist : list entry) :
  map entry_key hist = session_keys p m ->
  exists hp hm,
    hist = hp ++ hm /\ List.length hp = p /\ List.length hm = m /\
    Forall (fun e => entry_is_main e = false) hp /\
    Forall (fun e => entry_is_main e = true) hm.
Proof.
  intros H.
  assert (Hlen : List.length hist = p + m).
  { rewrite <- (length_map entry_key), H. apply session_keys_length. }
  exists (firstn p hist), (skipn p hist).
  split; [symmetry; apply firstn_skipn |].
  split; [rewrite firstn_length_le; lia |].
  split; [rewrite length_skipn; lia |].
  split.
  - apply (keys_all_block false (seq 0 p)).
    rewrite <- firstn_map, H. unfold session_keys.
    rewrite firstn_app, length_map, length_seq, Nat.sub_diag, firstn_O, app_nil_r.
    apply firstn_all2. rewrite length_map, length_seq. lia.
  - apply (keys_all_block true (seq 0 m)).
    rewrite <- skipn_map, H. unfold session_keys.
    rewrite skipn_app, length_map, length_seq, Nat.sub_diag, skipn_O.
    rewrite skipn_all2 by (rewrite length_map, length_seq; lia).
    reflexivity.
Qed.

Lemma Forall_firstn {A : Type} (P : A -> Prop) (n : nat) (l : list A) :
  Forall P l -> Forall P (firstn n l).
Proof.
  intros H. revert n. induction H as [| a l Ha _ IH]; intros [| n];
    cbn [firstn]; constructor; [exact Ha | apply IH].
Qed.

Lemma all_practice_no_main (h : list entry) :
  Forall (fun e => entry_is_main e = false) h -> existsb entry_is_main h = false.
Proof.
  induction 1 as [| e h He _ IH]; [reflexivity |].
  cbn [existsb]. now rewrite He, IH.
Qed.

(** Header of the file written after [n] trials of a history of [p]
    practice trials followed by main trials. *)
Lemma columns_of_prefix (hp hm : list entry) (n : nat) :
  Forall (fun e => entry_is_main e = false) hp ->
  Forall (fun e => entry_is_main e = true) hm ->
  n <= List.length hp + List.length hm ->
  columns_of (firstn n (hp ++ hm)) =
  if (n <=? List.length hp)%nat then columns else columns_full.
Proof.
  intros Hp Hm Hn. unfold columns_of. rewrite firstn_app, existsb_app.
  destruct (n <=? List.length hp)%nat eqn:E.
  - apply Nat.leb_le in E.
    replace (n - List.length hp) with 0 by lia.
    rewrite firstn_O. cbn [existsb]. rewrite orb_false_r.
    rewrite all_practice_no_main; [reflexivity |].
    apply Forall_firstn. exact Hp.
  - apply Nat.leb_gt in E.
    destruct hm as [| e hm]; [cbn [List.length] in Hn; lia |].
    destruct (n - List.length hp) as [| k] eqn:Ek; [lia |].
    cbn [firstn existsb]. inversion Hm as [| ? ? He _]; subst.
    rewrite He. cbn [orb]. now rewrite orb_true_r.
Qed.

Lemma flushes_of_headers (hp hm : list entry) :
  Forall (fun e => entry_is_main e = false) hp ->
  Forall (fun e => entry_is_main e = true) hm ->
  map csv_header (flushes_of (hp ++ hm)) =
  repeat columns (List.length hp) ++ repeat columns_full (List.length hm).
Proof.
  intros Hp Hm. unfold flushes_of.
  rewrite map_map, length_app, seq_app, map_app.
  apply f_equal2.
  - transitivity (map (fun _ : nat => columns) (seq 1 (List.length hp)));
      [| now rewrite map_const, length_seq].
    apply map_ext_in. intros n Hn. apply in_seq in Hn.
    rewrite to_csv_frame. cbn [csv_header].
    rewrite columns_of_prefix by (assumption || lia).
    destruct (n <=? List.length hp)%nat eqn:E; [reflexivity |].
    apply Nat.leb_gt in E. lia.
  - transitivity (map (fun _ : nat => columns_full)
                    (seq (1 + List.length hp) (List.length hm)));
      [| now rewrite map_const, length_seq].
    apply map_ext_in. intros n Hn. apply in_seq in Hn.
    rewrite to_csv_frame. cbn [csv_header].
    rewrite columns_of_prefix by (assumption || lia).
    destruct (n <=? List.length hp)%nat eqn:E; [| reflexivity].
    apply Nat.leb_le in E. lia.
Qed.

Lemma frame_posterior (hist : list entry) :
  Forall (fun line => posterior_matches_block line = true)
    (csv_lines (to_csv (frame_of hist))).
Proof.
  rewrite to_csv_frame. cbn [csv_lines].
  apply Forall_forall. intros line Hin. apply in_map_iff in Hin.
  destruct Hin as (e & <- & _). unfold file_line.
  destruct (existsb entry_is_main hist);
    [apply posterior_full | apply posterior_short].
Qed.


Lemma saved_forall (P : list (option pyval) -> Prop) (hist : list entry) :
  Forall P (csv_lines (to_csv (frame_of hist))) ->
  Forall P (persisted_lines (saved hist)).
Proof. destruct hist; [constructor | exact (fun H => H)]. Qed.

Lemma flushes_of_forall (P : Csv -> Prop) (hist : list entry) :
  (forall h, P (to_csv (frame_of h))) -> Forall P (flushes_of hist).
Proof.
  intros H. unfold flushes_of. apply Forall_forall. intros f Hin.
  apply in_map_iff in Hin. destruct Hin as (n & <- & _). apply H.
Qed.

(** ** Arithmetic of the staircase *)

Lemma succ_in_block (j : nat) :
  S j mod 6 <> 0 -> S j / 6 = j / 6 /\ S j mod 6 = S (j mod 6).
Proof.
  intros H.
  pose proof (Nat.div_mod_eq j 6) as Ej.
  pose proof (Nat.mod_upper_bound j 6 ltac:(lia)) as Bj.
  pose proof (Nat.div_mod_eq (S j) 6) as Es.
  pose proof (Nat.mod_upper_bound (S j) 6 ltac:(lia)) as Bs.
  assert (S j / 6 = j / 6) by nia.
  split; lia.
Qed.

Lemma delta_at_block_start (j : nat) : j mod 6 = 0 -> delta_at j = 200%Q.
Proof. intros H. unfold delta_at. now rewrite H. Qed.

Lemma delta_at_succ (j : nat) :
  S j mod 6 <> 0 -> delta_at (S j) = (delta_at j / 2)%Q.
Proof.
  intros H. destruct (succ_in_block j H) as [_ E].
  unfold delta_at. rewrite E. reflexivity.
Qed.

(** The step is one of 200, 100, 50, 25, 12.5 and 6.25. *)
Lemma delta_at_bounds (j : nat) : (6.25 <= delta_at j <= 200)%Q.
Proof.
  unfold delta_at.
  pose proof (Nat.mod_upper_bound j 6 ltac:(lia)) as B.
  destruct (j mod 6) as [| [| [| [| [| [| k]]]]]]; [.. | lia];
    cbn [Nat.iter]; split; unfold Qle; cbn; lia.
Qed.

Lemma delays_lookup (j : nat) :
  j < 42 -> nth_error delays (j / 6) = Some (nth (j / 6) delays 0%Q).
Proof.
  intros H. assert (B : j / 6 < 7) by (apply Nat.Div0.div_lt_upper_bound; lia).
  destruct (j / 6) as [| [| [| [| [| [| [| k]]]]]]]; [reflexivity .. | lia].
Qed.

Lemma stair_design_block_start (j : nat) :
  j mod 6 = 0 ->
  stair_design j
    {| t_ss := 0; t_ll := nth (j / 6) delays 0%Q; r_ss := 400; r_ll := 800 |}.
Proof.
  intros H. unfold stair_design. cbn [t_ss t_ll r_ss r_ll].
  rewrite (delta_at_block_start j H).
  repeat split; lra.
Qed.

Lemma stair_design_within (j : nat) (d : Design) (r : Z) :
  S j mod 6 <> 0 ->
  stair_design j d ->
  stair_design (S j)
    (set_r_ss d (if (r =? 1)%Z then r_ss d + delta_at j
                 else r_ss d - delta_at j)%Q).
Proof.
  intros H (Hss & Hll & Hrl & Hlo & Hhi).
  destruct (succ_in_block j H) as [Ediv _].
  unfold stair_design, set_r_ss. cbn [t_ss t_ll r_ss r_ll].
  rewrite (delta_at_succ j H), Ediv.
  pose proof (delta_at_bounds j) as [B1 B2].
  split; [exact Hss |]. split; [exact Hll |]. split; [exact Hrl |].
  set (h := (delta_at j / 2)%Q).
  assert (Hh : (h == delta_at j * (1 # 2))%Q) by (unfold h; field).
  destruct (r =? 1)%Z; split; lra.
Qed.

(** Every design of the staircase has its smaller reward between 12.5 and
    787.5, below the larger reward of 800. *)
Lemma stair_design_range (j : nat) (d : Design) :
  stair_design j d ->
  (12.5 <= r_ss d <= 787.5)%Q /\ r_ll d = 800%Q /\ (r_ss d < r_ll d)%Q.
Proof.
  intros (_ & _ & Hrl & Hlo & Hhi).
  pose proof (delta_at_bounds j) as [B1 B2].
  rewrite Hrl. repeat split; lra.
Qed.

Lemma designs_presented_app (l1 l2 : list call) :
  designs_presented (l1 ++ l2) = designs_presented l1 ++ designs_presented l2.
Proof. apply filter_map_app. Qed.

Lemma Forall2_snoc {A B : Type} (R : A -> B -> Prop) (l : list A) (l' : list B)
  (a : A) (b : B) :
  Forall2 R l l' -> R a b -> Forall2 R (l ++ [a]) (l' ++ [b]).
Proof.
  intros H Hab. apply Forall2_app; [exact H | now constructor].
Qed.

Lemma stair_designs_t_ll (l : list nat) (ds : list Design) :
  Forall2 stair_design l ds ->
  map t_ll ds = map (fun i => nth (i / 6) delays 0%Q) l.
Proof.
  induction 1 as [| i d l ds (_ & Hll & _) _ IH]; [reflexivity |].
  cbn [map]. now rewrite Hll, IH.
Qed.

Lemma stair_designs_range (l : list nat) (ds : list Design) :
  Forall2 stair_design l ds ->
  Forall (fun d => (12.5 <= r_ss d <= 787.5)%Q /\ r_ll d = 800%Q /\
                   (r_ss d < r_ll d)%Q) ds.
Proof.
  induction 1 as [| i d l ds Hd _ IH]; constructor; [| exact IH].
  exact (stair_design_range i d Hd).
Qed.

(** The step of trial [j] is 200 halved once per trial since the block
    started. *)
Lemma delta_at_closed_form (j : nat) :
  (delta_at j == 200 / inject_Z (2 ^ Z.of_nat (j mod 6)))%Q.
Proof.
  unfold delta_at.
  pose proof (Nat.mod_upper_bound j 6 ltac:(lia)) as B.
  destruct (j mod 6) as [| [| [| [| [| [| k]]]]]]; [reflexivity .. | lia].
Qed.

Lemma block_offset (b j : nat) :
  j < 6 -> (6 * b + j) mod 6 = j /\ (6 * b + j) / 6 = b.
Proof.
  intros H.
  pose proof (Nat.div_mod_eq (6 * b + j) 6) as E.
  pose proof (Nat.mod_upper_bound (6 * b + j) 6 ltac:(lia)) as B.
  assert ((6 * b + j) / 6 = b) by nia.
  split; lia.
Qed.

(** ** The labels of the table *)

(** The table has one label per value and one value per label. *)
Lemma tbl_conv_one_to_one :
  forall v s v' s',
    In (v, s) tbl_conv -> In (v', s') tbl_conv ->
    (v == v')%Q <-> s = s'.
Proof.
  assert (C : forallb (fun p => forallb (fun p' =>
                Bool.eqb (Qeq_bool (fst p) (fst p'))
                         (String.eqb (snd p) (snd p'))) tbl_conv) tbl_conv
              = true) by (vm_compute; reflexivity).
  intros v s v' s' H H'.
  rewrite forallb_forall in C. specialize (C _ H).
  rewrite forallb_forall in C. specialize (C _ H').
  cbn [fst snd] in C. apply Bool.eqb_prop in C.
  rewrite <- Qeq_bool_iff, C. apply String.eqb_eq.
Qed.

(** The float of a rational does not depend on how the rational is
    written. *)
Lemma Q2float_comp (q q' : Q) : (q == q')%Q -> Q2float q = Q2float q'.
Proof. intros H. unfold Q2float. now rewrite (Qred_complete q q' H). Qed.

(** A delay equal to a value of the table gets the label of the value. *)
Lemma convert_delay_to_str_exact (delay v : Q) (s : string) :
  In (v, s) tbl_conv -> (delay == v)%Q ->
  convert_delay_to_str delay = Some s.
Proof.
  intros Hin Hd. unfold convert_delay_to_str.
  rewrite (Q2float_comp delay v Hd).
  assert (C : forallb (fun vs => label_is (fst vs) (snd vs)) tbl_conv = true)
    by (vm_compute; reflexivity).
  rewrite forallb_forall in C. specialize (C _ Hin).
  unfold label_is, convert_delay_to_str in C. cbn [fst snd] in C.
  destruct (float_convert_delay_to_str (Q2float v)) as [s' |];
    [| discriminate].
  apply String.eqb_eq in C. now subst.
Qed.

Lemma all_from_spec (lo n : Z) (p : Z -> bool) :
  all_from lo n p = true ->
  forall k, (lo <= k < lo + n)%Z -> p k = true.
Proof.
  unfold all_from. intros H k Hk.
  destruct n as [| n | n]; [lia | | lia].
  cbn [Z.iter] in H. rewrite Pos2Nat.inj_iter in H.
  assert (G : forall m,
             let st := nat_rect (fun _ => (Z * bool)%type) (lo, true)
                         (fun _ st => (fst st + 1, snd st && p (fst st))%Z) m in
             fst st = (lo + Z.of_nat m)%Z /\
             (snd st = true ->
              forall i, (lo <= i < lo + Z.of_nat m)%Z -> p i = true)).
  { induction m as [| m [IH1 IH2]]; cbv zeta.
    - cbn [nat_rect fst snd]. split; [lia |]. intros _ i Hi. lia.
    - cbn [nat_rect fst snd]. split; [lia |].
      intros Hs. apply andb_prop in Hs. destruct Hs as [Hs Hp].
      intros i Hi. destruct (Z.eq_dec i (lo + Z.of_nat m)) as [-> | Hne].
      + now rewrite <- IH1.
      + apply (IH2 Hs). lia. }
  destruct (G (Pos.to_nat n)) as [_ G2]. apply (G2 H).
  rewrite positive_nat_Z. exact Hk.
Qed.

(** The values of the table are whole numbers of thousandths. *)
Lemma thousandths_exact (v : Q) (s : string) :
  In (v, s) tbl_conv -> (v == inject_Z (Qfloor (v * 1000)) / 1000)%Q.
Proof.
  intros Hin.
  assert (C : forallb (fun vs => Qeq_bool (fst vs)
                         (inject_Z (Qfloor (fst vs * 1000)) / 1000)) tbl_conv
              = true) by (vm_compute; reflexivity).
  rewrite forallb_forall in C. apply Qeq_bool_iff. exact (C _ Hin).
Qed.

Lemma Qabs_thousandths (k z : Z) (v : Q) :
  (v == inject_Z z / 1000)%Q ->
  (Qabs (inject_Z k / 1000 - v) == inject_Z (Z.abs (k - z)) / 1000)%Q.
Proof.
  intros Hv.
  assert (E : (inject_Z k / 1000 - v == inject_Z (k - z) * (1 # 1000))%Q).
  { rewrite Hv. unfold Z.sub. rewrite inject_Z_plus, inject_Z_opp. field. }
  rewrite E, Qabs_Qmult. change (Qabs (inject_Z (k - z))) with (inject_Z (Z.abs (k - z))).
  change (Qabs (1 # 1000)) with (1 # 1000)%Q. field.
Qed.

(** What the check [nearest_ok] says. *)
Lemma nearest_ok_spec (k : Z) :
  nearest_ok k = true ->
  exists s,
    convert_delay_to_str (inject_Z k / 1000) = Some s /\
    nearest_label (inject_Z k / 1000) s.
Proof.
  unfold nearest_ok.
  destruct (convert_delay_to_str (inject_Z k / 1000)) as [s |];
    [| discriminate].
  destruct (find _ thousandths) as [[z s0] |] eqn:Ef; [| discriminate].
  intros Hall. exists s. split; [reflexivity |].
  apply find_some in Ef. destruct Ef as [Hin Hs].
  cbn [snd] in Hs. apply String.eqb_eq in Hs. subst s0.
  unfold thousandths in Hin. apply in_map_iff in Hin.
  destruct Hin as ([v s'] & E & Hin). cbn [fst snd] in E.
  injection E as Ez Es. subst s' z. exists v. split; [exact Hin |].
  intros v' s' Hin'.
  rewrite forallb_forall in Hall.
  assert (Hin2 : In (Qfloor (v' * 1000), s') thousandths).
  { unfold thousandths. apply in_map_iff. exists (v', s'). now split. }
  specialize (Hall _ Hin2). cbn [fst] in Hall. apply Z.leb_le in Hall.
  rewrite (Qabs_thousandths k _ v (thousandths_exact v s Hin)).
  rewrite (Qabs_thousandths k _ v' (thousandths_exact v' s' Hin')).
  apply Qmult_le_compat_r; [| discriminate].
  now rewrite <- Zle_Qle.
Qed.

(** X1.  For every delay from 0 to 600 weeks written with two decimals,
    [convert_delay_to_str], computed in binary64 as Python computes it,
    returns the label of a value of the table nearest to the delay. *)
Theorem convert_delay_to_str_nearest (k : Z) :
  (0 <= k <= 60000)%Z ->
  exists s,
    convert_delay_to_str (inject_Z k / 100) = Some s /\
    nearest_label (inject_Z k / 100) s.
Proof.
  intros Hk.
  assert (C : all_from 0 60001 (fun k => nearest_ok (10 * k)) = true)
    by (vm_compute; reflexivity).
  pose proof (all_from_spec _ _ _ C k ltac:(lia)) as H.
  apply nearest_ok_spec in H. destruct H as (s & Hs & v & Hin & Hn).
  assert (E : (inject_Z (10 * k) / 1000 == inject_Z k / 100)%Q).
  { rewrite inject_Z_mult. change (inject_Z 10) with 10%Q. field. }
  exists s. split.
  - unfold convert_delay_to_str in *. now rewrite <- (Q2float_comp _ _ E).
  - exists v. split; [exact Hin |]. intros v' s' Hin'.
    rewrite <- E. now apply (Hn v' s').
Qed.

(** X2.  A delay equal to a value of the table gets the label of that
    value, and no other value of the table has this label. *)
Theorem convert_delay_to_str_of_table_value (delay v : Q) (s : string) :
  In (v, s) tbl_conv -> (delay == v)%Q ->
  convert_delay_to_str delay = Some s /\
  (forall v', In (v', s) tbl_conv -> (v' == v)%Q).
Proof.
  intros Hin Hd. split.
  - now apply (convert_delay_to_str_exact delay v s).
  - intros v' Hin'.
    now apply (tbl_conv_one_to_one v' s v s Hin' Hin).
Qed.

(** X3.  Far from the table the label does not stay at the last entry.
    A power of two from 2^9 to 2^61 is labelled [In 10 years]; from 2^64 on,
    where subtracting a value of the table changes nothing and, higher, the
    squares overflow, no comparison of the loop holds and the label is that
    of the first entry, [Now]; so it is for every negative power of two. *)
Theorem convert_delay_to_str_ends (k : Z) :
  ((9 <= k <= 61)%Z ->
   convert_delay_to_str (inject_Z (2 ^ k)) = Some "In 10 years") /\
  ((64 <= k <= 1100)%Z ->
   convert_delay_to_str (inject_Z (2 ^ k)) = Some "Now") /\
  ((0 <= k <= 1100)%Z ->
   convert_delay_to_str (- inject_Z (2 ^ k)) = Some "Now").
Proof.
  assert (L : forall q s, label_is q s = true ->
                          convert_delay_to_str q = Some s).
  { intros q s. unfold label_is.
    destruct (convert_delay_to_str q) as [s' |]; [| discriminate].
    intros H. apply String.eqb_eq in H. now subst. }
  split; [| split]; intros Hk; apply L.
  - assert (C : all_from 9 53
                  (fun k => label_is (inject_Z (2 ^ k)) "In 10 years") = true)
      by (vm_compute; reflexivity).
    apply (all_from_spec _ _ _ C k). lia.
  - assert (C : all_from 64 1037
                  (fun k => label_is (inject_Z (2 ^ k)) "Now") = true)
      by (vm_compute; reflexivity).
    apply (all_from_spec _ _ _ C k). lia.
  - assert (C : all_from 0 1101
                  (fun k => label_is (- inject_Z (2 ^ k)) "Now") = true)
      by (vm_compute; reflexivity).
    apply (all_from_spec _ _ _ C k). lia.
Qed.

(** X4.  Computed in binary64 as Python does, every value of the table
    gets its own label. *)
Theorem binary64_labels_of_table_values :
  forallb (fun vs => match float_convert_delay_to_str (fst vs) with
                     | Some s => String.eqb s (snd vs)
                     | None => false
                     end) float_tbl_conv = true /\
  map snd float_tbl_conv = map snd tbl_conv.
Proof. vm_compute. split; reflexivity. Qed.

(** ** The screens of a trial *)

Lemma left_box_right_box (delay reward delay' reward' : Q) (chosen chosen' : bool) :
  left_of (draw_option delay reward (-1) chosen)
          (draw_option delay' reward' 1 chosen').
Proof.
  intros p p' Hp Hp'. cbn [draw_option box_vertices In] in Hp, Hp'.
  destruct Hp as [<- | [<- | [<- | [<- | []]]]];
    destruct Hp' as [<- | [<- | [<- | [<- | []]]]]; reflexivity.
Qed.

(** X5.  The box of an option is six units wide on each side of its
    centre at [8 * direction] and three units high above and below the
    middle line, with the reward one unit above and the delay one unit below
    its centre; so the box drawn with direction -1 ends at -2, the one drawn
    with direction 1 starts at 2, and the two never touch. *)
Theorem draw_option_geometry (delay reward : Q) (direction : Z) (chosen : bool) :
  let b := draw_option delay reward direction chosen in
  let c := (inject_Z direction * 8)%Q in
  Forall2 (fun p q => (fst p == fst q)%Q /\ (snd p == snd q)%Q)
    (box_vertices b)
    [(c - 6, 3); (c + 6, 3); (c + 6, -3); (c - 6, -3)]%Q /\
  reward_pos b = (inject_Z direction * 8, 1)%Q /\
  delay_pos b = (inject_Z direction * 8, -1)%Q /\
  (forall delay' reward' chosen',
     left_of (draw_option delay reward (-1) chosen)
             (draw_option delay' reward' 1 chosen') /\
     Forall (fun p => (fst p <= -2)%Q)
       (box_vertices (draw_option delay reward (-1) chosen)) /\
     Forall (fun p => (2 <= fst p)%Q)
       (box_vertices (draw_option delay' reward' 1 chosen'))).
Proof.
  cbv zeta. split; [| split; [| split]].
  - cbn [draw_option box_vertices]. unfold BOX_W, BOX_H, DIST_BTWN.
    repeat constructor; cbn [fst snd]; try reflexivity.
  - reflexivity.
  - reflexivity.
  - intros delay' reward' chosen'. split; [apply left_box_right_box |].
    split; cbn [draw_option box_vertices]; repeat constructor; discriminate.
Qed.

(** X6.  With the draw of [randint(0, 2)] being 0 or 1, the first screen
    of a trial shows the smaller-sooner and the larger-later option in two
    unfilled boxes on opposite sides, with the rewards and delay labels of
    the design, and the larger-later option is the left one exactly when
    [is_ll_on_left] is 1. *)
Theorem run_trial_sides (design : Design) (inp : TrialInput) :
  (in_randint inp = 0 \/ in_randint inp = 1)%Z ->
  exists ss ll rest,
    run_trial_screen design inp =
      ScreenDraw ss :: ScreenDraw ll :: ScreenFlip :: ScreenWaitKeys :: rest /\
    box_fill ss = None /\ box_fill ll = None /\
    reward_shown ss = format_reward (r_ss design) /\
    reward_shown ll = format_reward (r_ll design) /\
    delay_shown ss = convert_delay_to_str (t_ss design) /\
    delay_shown ll = convert_delay_to_str (t_ll design) /\
    (is_ll_on_left (trial_outcome inp) = 1%Z -> left_of ll ss) /\
    (is_ll_on_left (trial_outcome inp) <> 1%Z ->
     is_ll_on_left (trial_outcome inp) = 0%Z /\ left_of ss ll).
Proof.
  intros Hr. unfold run_trial_screen. do 3 eexists.
  split; [reflexivity |]. do 6 (split; [reflexivity |]).
  unfold trial_outcome. cbn [is_ll_on_left].
  destruct Hr as [-> | ->]; cbn [Z.mul Z.sub Z.add Z.opp Z.eqb Z.b2z Z.pos_sub
                                 Pos.mul Pos.pred_double];
    split; intros H; try discriminate; try (now destruct H);
    try split; try reflexivity; apply left_box_right_box.
Qed.

(** X7.  After the key, the second screen shows the same two boxes with
    exactly one filled: that of the option chosen, which is the box on the
    side of the key pressed (left for a key of [KEYS_LEFT], right for a key of
    [KEYS_RIGHT]).  The trial then waits one second, clears the window and
    waits one more second. *)
Theorem run_trial_feedback (design : Design) (inp : TrialInput) :
  (in_randint inp = 0 \/ in_randint inp = 1)%Z ->
  In (in_key inp) (KEYS_LEFT ++ KEYS_RIGHT) ->
  exists ss ll ss' ll',
    run_trial_screen design inp =
      [ScreenDraw ss; ScreenDraw ll; ScreenFlip; ScreenWaitKeys;
       ScreenDraw ss'; ScreenDraw ll'; ScreenFlip; ScreenWait 1;
       ScreenFlip; ScreenWait 1] /\
    box_vertices ss' = box_vertices ss /\
    box_vertices ll' = box_vertices ll /\
    (out_response (trial_outcome inp) = 1%Z ->
     box_fill ll' = Some "darkgreen" /\ box_fill ss' = None) /\
    (out_response (trial_outcome inp) <> 1%Z ->
     out_response (trial_outcome inp) = 0%Z /\
     box_fill ss' = Some "darkgreen" /\ box_fill ll' = None) /\
    (In (in_key inp) KEYS_LEFT ->
     exists chosen other,
       (chosen = ss' /\ other = ll' \/ chosen = ll' /\ other = ss') /\
       box_fill chosen = Some "darkgreen" /\ left_of chosen other) /\
    (In (in_key inp) KEYS_RIGHT ->
     exists chosen other,
       (chosen = ss' /\ other = ll' \/ chosen = ll' /\ other = ss') /\
       box_fill chosen = Some "darkgreen" /\ left_of other chosen).
Proof.
  intros Hr Hk. unfold run_trial_screen. do 4 eexists.
  split; [reflexivity |]. do 2 (split; [reflexivity |]).
  cbn [In KEYS_LEFT KEYS_RIGHT app] in Hk.
  destruct inp as [r k t]. cbn [in_randint in_key] in *.
  destruct Hr as [-> | ->];
    destruct Hk as [<- | [<- | [<- | [<- | [<- | [<- | []]]]]]];
    (split; [intros H1 | split; [intros H2 | split; [intros H3 | intros H4]]]).
  all: try (vm_compute in H1; discriminate H1).
  all: try (exfalso; apply H2; vm_compute; reflexivity).
  all: try (exfalso; cbn [In KEYS_LEFT] in H3; intuition discriminate).
  all: try (exfalso; cbn [In KEYS_RIGHT] in H4; intuition discriminate).
  all: try (repeat split; reflexivity).
  all: first
    [ solve [ do 2 eexists;
              split; [left; split; reflexivity |];
              split; [reflexivity | apply left_box_right_box] ]
    | solve [ do 2 eexists;
              split; [right; split; reflexivity |];
              split; [reflexivity | apply left_box_right_box] ] ].
Qed.

Lemma updates_app (l1 l2 : list call) :
  updates (l1 ++ l2) = updates l1 ++ updates l2.
Proof. apply filter_map_app. Qed.

Lemma updates_of_app (h1 h2 : list entry) :
  updates_of (h1 ++ h2) = updates_of h1 ++ updates_of h2.
Proof. apply filter_map_app. Qed.

Lemma posteriors_of_app (h1 h2 : list entry) :
  posteriors_of (h1 ++ h2) = posteriors_of h1 ++ posteriors_of h2.
Proof. apply filter_map_app. Qed.

(** ** Rows against calls *)

Lemma file_line_design (hist : list entry) (e : entry) :
  line_design (file_line hist e) = design_cells (entry_design e).
Proof. unfold file_line. destruct (existsb _ _); destruct e; reflexivity. Qed.

Lemma file_line_outcome (hist : list entry) (e : entry) :
  line_outcome (file_line hist e) = outcome_cells (entry_outcome e).
Proof. unfold file_line. destruct (existsb _ _); destruct e; reflexivity. Qed.

Lemma file_line_response (hist : list entry) (e : entry) :
  line_response (file_line hist e) =
  Some (VInt (out_response (entry_outcome e))).
Proof. unfold file_line. destruct (existsb _ _); destruct e; reflexivity. Qed.

Lemma keys_length (b : bool) (n : nat) (h : list entry) :
  map entry_key h = map (pair b) (seq 0 n) -> List.length h = n.
Proof.
  intros H. apply (f_equal (@List.length _)) in H.
  now rewrite !List.length_map, length_seq in H.
Qed.

Lemma updates_of_practice (h : list entry) :
  Forall (fun e => entry_is_main e = false) h -> updates_of h = [].
Proof.
  induction 1 as [| e h He _ IH]; [reflexivity |].
  destruct e; [exact IH | discriminate].
Qed.

Lemma updates_of_main (h : list entry) :
  Forall (fun e => entry_is_main e = true) h ->
  updates_of h = map (fun e => (entry_design e, out_response (entry_outcome e))) h.
Proof.
  induction 1 as [| e h He _ IH]; [reflexivity |].
  destruct e; [discriminate |]. cbn [updates_of filter_map entry_update map].
  f_equal. exact IH.
Qed.

Lemma posteriors_of_practice (h : list entry) :
  Forall (fun e => entry_is_main e = false) h -> posteriors_of h = [].
Proof.
  induction 1 as [| e h He _ IH]; [reflexivity |].
  destruct e; [exact IH | discriminate].
Qed.

Lemma posteriors_of_main (h : list entry) :
  Forall (fun e => entry_is_main e = true) h ->
  posteriors_of h = map (fun e => posterior_fields (line_of e)) h.
Proof.
  induction 1 as [| e h He _ IH]; [reflexivity |].
  destruct e; [discriminate |].
  cbn [posteriors_of filter_map entry_posterior map]. f_equal. exact IH.
Qed.

(** The lines of the main trials in the file of a history. *)
Lemma main_lines (hp hm : list entry) :
  Forall (fun e => entry_is_main e = true) hm ->
  skipn (List.length hp) (persisted_lines (saved (hp ++ hm))) = map line_of hm.
Proof.
  intros Hm. rewrite saved_lines, map_app, skipn_app, List.length_map, Nat.sub_diag.
  rewrite skipn_all2 by (rewrite List.length_map; lia). cbn [app skipn].
  destruct hm as [| e hm]; [reflexivity |].
  unfold file_line. rewrite existsb_app. cbn [existsb].
  inversion Hm as [| ? ? He _]; subst. rewrite He.
  now rewrite orb_true_r.
Qed.

Lemma Forall2_map_right {A B C : Type} (P : A -> C -> Prop) (f : B -> C)
  (l : list A) (h : list B) :
  Forall2 (fun a b => P a (f b)) l h -> Forall2 P l (map f h).
Proof. induction 1; constructor; assumption. Qed.

(** ** The grid *)

Lemma grid_r_ss_multiple (q : Q) (m : Z) :
  (1 <= m <= 63)%Z -> (q == 12.5 * inject_Z m)%Q -> on_axis q grid_r_ss = true.
Proof.
  intros Hm Hq. unfold on_axis. apply existsb_exists.
  exists (12.5 + inject_Z (Z.of_nat (Z.to_nat (m - 1))) * 12.5)%Q. split.
  - unfold grid_r_ss, arange. apply in_map_iff.
    exists (Z.to_nat (m - 1)). split; [reflexivity |].
    apply in_seq.
    replace (Z.to_nat (Qceiling ((800 - 12.5) / 12.5))) with 63%nat
      by (vm_compute; reflexivity).
    lia.
  - apply Qeq_bool_iff. rewrite Z2Nat.id by lia. rewrite Hq.
    unfold Z.sub. rewrite inject_Z_plus, inject_Z_opp.
    change (inject_Z 1) with 1%Q. lra.
Qed.

(** Twice the step of a trial is 12.5 in the last trial of a block, and
    a whole multiple of 25 in the others. *)
Lemma two_delta_at (i : nat) :
  (i mod 6 = 5 /\ (2 * delta_at i == 12.5)%Q) \/
  (i mod 6 <> 5 /\
   exists c : Z, (1 <= c)%Z /\ (2 * delta_at i == 25 * inject_Z c)%Q).
Proof.
  unfold delta_at.
  pose proof (Nat.mod_upper_bound i 6 ltac:(lia)) as B.
  destruct (i mod 6) as [| [| [| [| [| [| n]]]]]]; [.. | lia]; cbn [Nat.iter].
  - right. split; [lia |]. exists 16%Z. split; [lia | vm_compute; reflexivity].
  - right. split; [lia |]. exists 8%Z. split; [lia | vm_compute; reflexivity].
  - right. split; [lia |]. exists 4%Z. split; [lia | vm_compute; reflexivity].
  - right. split; [lia |]. exists 2%Z. split; [lia | vm_compute; reflexivity].
  - right. split; [lia |]. exists 1%Z. split; [lia | vm_compute; reflexivity].
  - left. split; [reflexivity | vm_compute; reflexivity].
Qed.

Lemma lattice_r_ss_on_grid (i : nat) (q : Q) (k : Z) :
  (2 * delta_at i <= q <= 800 - 2 * delta_at i)%Q ->
  (q == inject_Z k * (2 * delta_at i))%Q ->
  on_axis q grid_r_ss = true.
Proof.
  intros [Hlo Hhi] Hk.
  assert (T : exists c : Z,
             (1 <= c)%Z /\ (2 * delta_at i == 12.5 * inject_Z c)%Q).
  { destruct (two_delta_at i) as [[_ E] | (_ & c & Hc & E)].
    - exists 1%Z. split; [lia |]. rewrite E. reflexivity.
    - exists (2 * c)%Z. split; [lia |]. rewrite E, inject_Z_mult.
      change (inject_Z 2) with 2%Q. field. }
  destruct T as (c & Hc & E).
  rewrite E in Hlo, Hhi, Hk.
  assert (C1 : (1 <= inject_Z c)%Q)
    by (change 1%Q with (inject_Z 1); now rewrite <- Zle_Qle).
  assert (Hm : (q == 12.5 * inject_Z (k * c))%Q)
    by (rewrite Hk, inject_Z_mult; field).
  apply (grid_r_ss_multiple q (k * c)); [| exact Hm].
  rewrite Hm in Hlo, Hhi.
  split; rewrite Zle_Qle.
  - change (inject_Z 1) with 1%Q. lra.
  - change (inject_Z 63) with 63%Q. lra.
Qed.

Lemma staircase_point_on_grid (i : nat) (d : Design) :
  staircase_point i d -> on_grid d = true.
Proof.
  intros (Hi & (Hss & Hll & Hrl & Hb) & (k & Hk)).
  unfold on_grid. rewrite Hss, Hll, Hrl.
  rewrite (lattice_r_ss_on_grid i (r_ss d) (2 * k + 1) Hb Hk).
  assert (B : i / 6 < 7) by (apply Nat.Div0.div_lt_upper_bound; lia).
  destruct (i / 6) as [| [| [| [| [| [| [| n]]]]]]];
    [vm_compute; reflexivity .. | lia].
Qed.

Lemma lattice_block_start (j : nat) (t : Q) :
  j mod 6 = 0 ->
  lattice_design j {| t_ss := 0; t_ll := t; r_ss := 400; r_ll := 800 |}.
Proof.
  intros H. exists 0%Z. rewrite (delta_at_block_start j H). reflexivity.
Qed.

Lemma lattice_within (j : nat) (d : Design) (r : Z) :
  S j mod 6 <> 0 ->
  lattice_design j d ->
  lattice_design (S j)
    (set_r_ss d (if (r =? 1)%Z then r_ss d + delta_at j
                 else r_ss d - delta_at j)%Q).
Proof.
  intros H (k & Hk). unfold lattice_design, set_r_ss. cbn [r_ss].
  rewrite (delta_at_succ j H).
  destruct (r =? 1)%Z.
  - exists (2 * k + 1)%Z. rewrite Hk. repeat rewrite ?inject_Z_plus, ?inject_Z_mult.
    change (inject_Z 1) with 1%Q. change (inject_Z 2) with 2%Q. field.
  - exists (2 * k)%Z. rewrite Hk. repeat rewrite ?inject_Z_plus, ?inject_Z_mult.
    change (inject_Z 1) with 1%Q. change (inject_Z 2) with 2%Q. field.
Qed.

Lemma calls_on_staircase_snoc (new rest : list call) (j : nat) (d : Design) :
  List.length (designs_presented new) = j ->
  calls_on_staircase new ->
  designs_presented rest = [d] ->
  Forall (fun u => fst u = d) (updates rest) ->
  staircase_point j d ->
  List.length (designs_presented (new ++ rest)) = S j /\
  calls_on_staircase (new ++ rest).
Proof.
  intros Hlen [Hd Hu] Hrest Hur Hp.
  assert (L : List.length (designs_presented (new ++ rest)) = S j).
  { rewrite designs_presented_app, Hrest, (List.length_app _ [d]), Hlen.
    cbn [List.length]. lia. }
  split; [exact L |]. unfold calls_on_staircase. rewrite L. split.
  - rewrite designs_presented_app, Hrest, seq_S. cbn [plus].
    apply Forall2_snoc; [| exact Hp]. now rewrite Hlen in Hd.
  - rewrite updates_app, designs_presented_app, Hrest. apply Forall_app. split.
    + eapply Forall_impl; [| exact Hu]. intros u Hin.
      apply in_or_app. now left.
    + eapply Forall_impl; [| exact Hur]. intros u ->.
      apply in_or_app. right. now left.
Qed.

Lemma Forall2_right {A B : Type} (R : A -> B -> Prop) (P : B -> Prop) :
  (forall a b, R a b -> P b) ->
  forall l l', Forall2 R l l' -> Forall P l'.
Proof.
  intros H l l' H2. induction H2 as [| a b l l' Hab _ IH]; constructor.
  - exact (H a b Hab).
  - exact IH.
Qed.

(** ** Rewards as texts *)

Lemma round_half_even_comp (q q' : Q) :
  (q == q')%Q -> round_half_even q = round_half_even q'.
Proof.
  intros H. unfold round_half_even.
  rewrite (Qfloor_comp q q' H).
  assert (E : (q - inject_Z (Qfloor q') == q' - inject_Z (Qfloor q'))%Q)
    by (rewrite H; reflexivity).
  now rewrite (Qcompare_comp _ _ E (1 # 2)%Q (1 # 2)%Q (Qeq_refl _)).
Qed.

Lemma format_reward_comp (q q' : Q) :
  (q == q')%Q -> format_reward q = format_reward q'.
Proof.
  intros H. unfold format_reward.
  rewrite (round_half_even_comp q q' H).
  now rewrite (Qcompare_comp q q' H 0%Q 0%Q (Qeq_refl _)).
Qed.

Lemma round_half_even_whole (m : Z) : round_half_even (inject_Z m) = m.
Proof.
  unfold round_half_even. rewrite Qfloor_Z.
  assert (Hz : (inject_Z m - inject_Z m == 0)%Q) by ring.
  now rewrite (Qcompare_comp _ _ Hz (1 # 2)%Q (1 # 2)%Q (Qeq_refl _)).
Qed.

Lemma Qfloor_half (m : Z) : Qfloor (inject_Z m + (1 # 2)) = m.
Proof.
  pose proof (Qfloor_le (inject_Z m + (1 # 2))) as Hlo.
  pose proof (Qlt_floor (inject_Z m + (1 # 2))) as Hhi.
  set (f := Qfloor (inject_Z m + (1 # 2))) in *.
  rewrite inject_Z_plus in Hhi. change (inject_Z 1) with 1%Q in Hhi.
  assert (H1 : (f <= m)%Z).
  { apply Z.lt_succ_r. unfold Z.succ. rewrite Zlt_Qlt, inject_Z_plus.
    change (inject_Z 1) with 1%Q. lra. }
  assert (H2 : (m <= f)%Z).
  { apply Z.lt_succ_r. unfold Z.succ. rewrite Zlt_Qlt, inject_Z_plus.
    change (inject_Z 1) with 1%Q. lra. }
  lia.
Qed.

Lemma round_half_even_half (m : Z) :
  round_half_even (inject_Z m + (1 # 2)) = if Z.even m then m else (m + 1)%Z.
Proof.
  unfold round_half_even. rewrite Qfloor_half.
  assert (E : (inject_Z m + (1 # 2) - inject_Z m ?= 1 # 2)%Q = Eq).
  { apply Qeq_alt. ring. }
  now rewrite E.
Qed.

(** Up to three digits get no comma. *)
Lemma group_thousands_small (z : Z) :
  (0 <= z < 1000)%Z -> group_thousands (digits z) = digits z.
Proof.
  intros Hz.
  assert (C : forallb (fun n => String.eqb
                         (group_thousands (digits (Z.of_nat n)))
                         (digits (Z.of_nat n))) (seq 0 1000) = true)
    by (vm_compute; reflexivity).
  rewrite forallb_forall in C.
  specialize (C (Z.to_nat z)). rewrite Z2Nat.id in C by lia.
  apply String.eqb_eq, C, in_seq. lia.
Qed.

Lemma format_reward_whole (q : Q) (m : Z) :
  (0 <= m < 1000)%Z -> (q == inject_Z m)%Q ->
  format_reward q = ("$" ++ digits m)%string.
Proof.
  intros Hm Hq. rewrite (format_reward_comp q _ Hq). unfold format_reward.
  rewrite round_half_even_whole, Z.abs_eq by lia.
  rewrite group_thousands_small by lia.
  assert (E : (inject_Z m ?= 0)%Q <> Lt).
  { intros E. apply Qlt_alt in E. change 0%Q with (inject_Z 0) in E.
    rewrite <- Zlt_Qlt in E. lia. }
  destruct (inject_Z m ?= 0)%Q; [reflexivity | now destruct E | reflexivity].
Qed.

Lemma format_reward_half (q : Q) (m : Z) :
  (0 <= m < 999)%Z -> (q == inject_Z m + (1 # 2))%Q ->
  format_reward q = ("$" ++ digits (if Z.even m then m else (m + 1)%Z))%string.
Proof.
  intros Hm Hq. rewrite (format_reward_comp q _ Hq). unfold format_reward.
  rewrite round_half_even_half.
  assert (Hr : (0 <= (if Z.even m then m else m + 1) < 1000)%Z)
    by (destruct (Z.even m); lia).
  rewrite Z.abs_eq, group_thousands_small by lia.
  assert (E : (inject_Z m + (1 # 2) ?= 0)%Q <> Lt).
  { intros E. apply Qlt_alt in E.
    assert (H0 : (0 <= inject_Z m)%Q)
      by (change 0%Q with (inject_Z 0); rewrite <- Zle_Qle; lia).
    lra. }
  destruct (inject_Z m + (1 # 2) ?= 0)%Q;
    [reflexivity | now destruct E | reflexivity].
Qed.

(** What the screen shows of the rewards of a design of the staircase. *)
Lemma staircase_point_rewards (i : nat) (d : Design) :
  staircase_point i d ->
  format_reward (r_ll d) = "$800" /\
  exists m : Z,
    if (i mod 6 =? 5)%nat
    then (r_ss d == inject_Z m + (1 # 2))%Q /\
         format_reward (r_ss d) =
           ("$" ++ digits (if Z.even m then m else (m + 1)%Z))%string
    else (r_ss d == inject_Z m)%Q /\
         format_reward (r_ss d) = ("$" ++ digits m)%string.
Proof.
  intros (Hi & (Hss & Hll & Hrl & Hlo & Hhi) & (k & Hk)).
  split; [rewrite Hrl; vm_compute; reflexivity |].
  destruct (two_delta_at i) as [[Hm E] | (Hm & c & Hc & E)];
    rewrite E in Hlo, Hhi, Hk.
  - rewrite Hm. change (5 =? 5)%nat with true. cbv iota.
    assert (Hq : (r_ss d == inject_Z (25 * k + 12) + (1 # 2))%Q).
    { rewrite Hk. repeat rewrite ?inject_Z_plus, ?inject_Z_mult.
      change (inject_Z 1) with 1%Q. change (inject_Z 2) with 2%Q.
      change (inject_Z 25) with 25%Q. change (inject_Z 12) with 12%Q. field. }
    exists (25 * k + 12)%Z. split; [exact Hq |].
    apply format_reward_half; [| exact Hq].
    rewrite Hq in Hlo, Hhi.
    split; [rewrite Zle_Qle | rewrite Zlt_Qlt].
    + change (inject_Z 0) with 0%Q. lra.
    + change (inject_Z 999) with 999%Q. lra.
  - apply Nat.eqb_neq in Hm. rewrite Hm.
    assert (Hq : (r_ss d == inject_Z ((2 * k + 1) * (25 * c)))%Q).
    { rewrite Hk, !inject_Z_mult. change (inject_Z 25) with 25%Q.
      reflexivity. }
    exists ((2 * k + 1) * (25 * c))%Z. split; [exact Hq |].
    apply format_reward_whole; [| exact Hq].
    assert (C1 : (1 <= inject_Z c)%Q)
      by (change 1%Q with (inject_Z 1); now rewrite <- Zle_Qle).
    rewrite Hq in Hlo, Hhi.
    split; [rewrite Zle_Qle | rewrite Zlt_Qlt].
    + change (inject_Z 0) with 0%Q. lra.
    + change (inject_Z 1000) with 1000%Q. lra.
Qed.

(** Every delay of the grid is a value of the table. *)
Lemma grid_delay_in_table (q : Q) (axis : list Q) :
  forallb (fun x => existsb (fun vs => Qeq_bool x (fst vs)) tbl_conv) axis
    = true ->
  on_axis q axis = true ->
  exists v s, In (v, s) tbl_conv /\ (q == v)%Q.
Proof.
  intros C H. unfold on_axis in H. apply existsb_exists in H.
  destruct H as (x & Hx & Hq). apply Qeq_bool_iff in Hq.
  rewrite forallb_forall in C. specialize (C x Hx).
  apply existsb_exists in C. destruct C as ([v s] & Hin & Hv).
  apply Qeq_bool_iff in Hv. cbn [fst] in Hv.
  exists v, s. split; [exact Hin |]. now rewrite Hq.
Qed.

(** X13.  For a design of the grid the labels on the screen are exact:
    the sooner delay is shown as [Now], and the later delay with the label
    of a table value equal to it, not of a neighbour. *)
Theorem grid_delays_have_own_labels (d : Design) :
  on_grid d = true ->
  convert_delay_to_str (t_ss d) = Some "Now" /\
  exists v s,
    In (v, s) tbl_conv /\ (t_ll d == v)%Q /\
    convert_delay_to_str (t_ll d) = Some s.
Proof.
  unfold on_grid. intros H.
  apply andb_prop in H. destruct H as [H _].
  apply andb_prop in H. destruct H as [H _].
  apply andb_prop in H. destruct H as [Hss Hll].
  split.
  - destruct (grid_delay_in_table (t_ss d) grid_t_ss) as (v & s & Hin & Hv);
      [vm_compute; reflexivity | exact Hss |].
    unfold on_axis, grid_t_ss in Hss. cbn [existsb] in Hss.
    rewrite orb_false_r in Hss. apply Qeq_bool_iff in Hss.
    apply (convert_delay_to_str_exact (t_ss d) 0%Q "Now");
      [cbn; tauto | exact Hss].
  - destruct (grid_delay_in_table (t_ll d) grid_t_ll) as (v & s & Hin & Hv);
      [vm_compute; reflexivity | exact Hll |].
    exists v, s. split; [exact Hin |]. split; [exact Hv |].
    now apply (convert_delay_to_str_exact (t_ll d) v s).
Qed.

(** ** Replaying the staircase *)

Lemma stair_run_snoc (rs : list Z) (r : Z) :
  forall trial prev dl,
    stair_run trial prev dl (rs ++ [r]) =
    stair_run trial prev dl rs ++
    match stair_final trial prev dl rs with
    | Some (t', p', dl') =>
        match stair_next t' p' dl' with
        | Some (d, _) => [d]
        | None => []
        end
    | None => []
    end.
Proof.
  induction rs as [| r0 rs IH]; intros trial prev dl; cbn [app stair_run stair_final].
  - destruct (stair_next trial prev dl) as [[d dl'] |]; reflexivity.
  - destruct (stair_next trial prev dl) as [[d dl'] |]; [| reflexivity].
    cbn [app]. now rewrite IH.
Qed.

Lemma stair_final_snoc (rs : list Z) (r : Z) :
  forall trial prev dl,
    stair_final trial prev dl (rs ++ [r]) =
    match stair_final trial prev dl rs with
    | Some (t', p', dl') =>
        match stair_next t' p' dl' with
        | Some (d, dl'') => Some (S t', Some (d, r), dl'')
        | None => None
        end
    | None => None
    end.
Proof.
  induction rs as [| r0 rs IH]; intros trial prev dl; cbn [app stair_final].
  - destruct (stair_next trial prev dl) as [[d dl'] |]; reflexivity.
  - destruct (stair_next trial prev dl) as [[d dl'] |]; [| reflexivity].
    now rewrite IH.
Qed.

Lemma stair_run_length (rs : list Z) :
  forall trial prev dl,
    List.length (stair_run trial prev dl rs) <= List.length rs.
Proof.
  induction rs as [| r rs IH]; intros trial prev dl; cbn [stair_run List.length].
  - lia.
  - destruct (stair_next trial prev dl) as [[d dl'] |]; cbn [List.length];
      [specialize (IH (S trial) (Some (d, r)) dl') |]; lia.
Qed.

(** The designs of the first responses do not depend on the later ones. *)
Lemma stair_run_app (rs rs' : list Z) :
  forall trial prev dl,
    exists tl,
      stair_run trial prev dl (rs ++ rs') = stair_run trial prev dl rs ++ tl /\
      List.length tl <= List.length rs'.
Proof.
  induction rs as [| r rs IH]; intros trial prev dl; cbn [app stair_run].
  - eexists. split; [reflexivity | apply stair_run_length].
  - destruct (stair_next trial prev dl) as [[d dl'] |].
    + destruct (IH (S trial) (Some (d, r)) dl') as (tl & E & L).
      exists tl. split; [| exact L]. cbn [app]. now rewrite E.
    + exists []. split; [reflexivity | cbn; lia].
Qed.

Lemma stair_run_prefix (us rest : list (Design * Z)) :
  map fst (us ++ rest) = stair_run 0 None 200 (map snd (us ++ rest)) ->
  map fst us = stair_run 0 None 200 (map snd us).
Proof.
  rewrite !map_app. intros H.
  destruct (stair_run_app (map snd us) (map snd rest) 0 None 200%Q)
    as (tl & E & L).
  rewrite E in H.
  pose proof (stair_run_length (map snd us) 0 None 200%Q) as L1.
  pose proof (f_equal (@List.length _) H) as HL.
  rewrite (List.length_app (map fst us)), (List.length_app _ tl) in HL.
  rewrite (List.length_map fst us), (List.length_map fst rest) in HL.
  rewrite (List.length_map snd us) in L1.
  rewrite (List.length_map snd rest) in L.
  apply (f_equal (firstn (List.length us))) in H.
  rewrite firstn_app, (List.length_map fst us), Nat.sub_diag, firstn_O,
    app_nil_r in H.
  rewrite firstn_all2 in H by (rewrite (List.length_map fst us); lia).
  rewrite firstn_app in H.
  replace (List.length us - List.length (stair_run 0 None 200%Q (map snd us)))
    with 0 in H by lia.
  rewrite firstn_O, app_nil_r, firstn_all2 in H by lia.
  exact H.
Qed.

Lemma updates_no_update (l : list call) :
  filter is_update l = [] -> updates l = [].
Proof.
  induction l as [| c l IH]; [reflexivity |].
  destruct c; cbn [filter is_update updates filter_map updated];
    try exact IH; discriminate.
Qed.

Lemma line_of_design (e : entry) :
  line_design (line_of e) = design_cells (entry_design e).
Proof. destruct e; reflexivity. Qed.

Lemma line_of_response (e : entry) :
  line_response_int (line_of e) = out_response (entry_outcome e).
Proof. destruct e; reflexivity. Qed.

Section Properties.

Context {estimator : Estimator} {presenter : Presenter}.

(** ** The loop rule *)

(** An invariant [I] kept by every iteration that returns, and a
    condition [F] established by an iteration that raises, give the state
    in which the loop stops. *)
Lemma for_range_inv (body : nat -> M unit)
  (I : nat -> State -> Prop) (F : nat -> error -> State -> Prop) :
  forall n i s,
    (forall j s0, i <= j < i + n -> I j s0 ->
       match body j s0 with
       | (s', inr _) => I (S j) s'
       | (s', inl e) => F j e s'
       end) ->
    I i s ->
    match for_range body i n s with
    | (s', Done) => I (i + n) s'
    | (s', Failed j e) => i <= j < i + n /\ F j e s'
    end.
Proof.
  induction n as [| n IH]; intros i s Hstep Hi; simpl.
  - now rewrite Nat.add_0_r.
  - pose proof (Hstep i s ltac:(lia) Hi) as Hb.
    destruct (body i s) as [s' [e | u]].
    + split; [lia | exact Hb].
    + specialize (IH (S i) s').
      assert (Hstep' : forall j s0, S i <= j < S i + n -> I j s0 ->
                match body j s0 with
                | (s'0, inr _) => I (S j) s'0
                | (s'0, inl e) => F j e s'0
                end)
        by (intros j s0 Hj; apply Hstep; lia).
      specialize (IH Hstep' Hb).
      destruct (for_range body (S i) n s') as [s'' [| j e]].
      * now replace (i + S n) with (S i + n) by lia.
      * destruct IH as [Hj HF]. split; [lia | exact HF].
Qed.

(** A loop over a longer range runs the shorter range first. *)
Lemma for_range_app (body : nat -> M unit) :
  forall n m i s,
    for_range body i (n + m) s =
    match for_range body i n s with
    | (s', Done) => for_range body (i + n) m s'
    | (s', Failed j e) => (s', Failed j e)
    end.
Proof.
  induction n as [| n IH]; intros m i s; simpl.
  - now rewrite Nat.add_0_r.
  - destruct (body i s) as [s' [e | u]]; [reflexivity |].
    rewrite IH. now replace (S i + n) with (i + S n) by lia.
Qed.

(** ** The staircase step *)

Lemma next_design_block_start (trial : nat) (s : State) (t : Q) :
  trial mod 6 = 0 ->
  nth_error delays (trial / 6) = Some t ->
  next_design trial s = (block_start_state t s, inr tt).
Proof.
  intros Hm Ht. unfold next_design.
  rewrite Hm. change (0 =? 0)%nat with true. cbv iota.
  unfold bind, lift_opt. rewrite Ht. reflexivity.
Qed.

Lemma next_design_exhausted (trial : nat) (s : State) :
  trial mod 6 = 0 ->
  nth_error delays (trial / 6) = None ->
  next_design trial s = (s, inl IndexError).
Proof.
  intros Hm Ht. unfold next_design.
  rewrite Hm. change (0 =? 0)%nat with true. cbv iota.
  unfold bind, lift_opt. rewrite Ht. reflexivity.
Qed.

Lemma next_design_within (trial : nat) (s : State) (d : Design) (r : Z) :
  trial mod 6 <> 0 ->
  design s = Some d ->
  response s = Some r ->
  next_design trial s = (within_block_state d r s, inr tt).
Proof.
  intros Hm Hd Hr. unfold next_design.
  destruct (trial mod 6 =? 0)%nat eqn:E; [apply Nat.eqb_eq in E; contradiction |].
  unfold var, bind, gets, lift_opt. rewrite Hr. cbn. rewrite Hd. cbn.
  unfold within_block_state.
  destruct (r =? 1)%Z; reflexivity.
Qed.

(** The staircase touches only [design] and [delta]. *)
Lemma next_design_shape (trial : nat) (s s' : State) (r : error + unit) :
  next_design trial s = (s', r) ->
  exists d q, s' = set_delta q (set_design d s).
Proof.
  destruct s as [e d q r0 df f c n].
  unfold next_design.
  destruct (trial mod 6 =? 0)%nat.
  - unfold bind, lift_opt.
    destruct (nth_error delays (trial / 6)); cbn; intros H;
      inversion H; subst; do 2 eexists; reflexivity.
  - unfold var, bind, gets, lift_opt. cbn.
    destruct r0 as [r0 |]; cbn;
      [| intros H; inversion H; subst; do 2 eexists; reflexivity].
    destruct d as [d |]; cbn;
      [| intros H; inversion H; subst; do 2 eexists; reflexivity].
    destruct (r0 =? 1)%Z; cbn; intros H; inversion H; subst;
      do 2 eexists; reflexivity.
Qed.

Lemma next_design_frame (trial : nat) (s s' : State) (r : error + unit) :
  next_design trial s = (s', r) ->
  engine s' = engine s /\ response s' = response s /\
  df_data s' = df_data s /\ file s' = file s /\
  calls s' = calls s /\ shown s' = shown s.
Proof.
  intros H. apply next_design_shape in H. destruct H as (d & q & ->).
  cbn. repeat split; reflexivity.
Qed.

(** ** One trial, case by case *)

Ltac run_monad :=
  cbv beta iota zeta delta
    [practice_trial main_trial get_design_random run_trial update
     read_post_mean read_post_sd append_row save log_call var
     bind modify gets lift_opt ret raise].

Lemma practice_trial_unfold (trial : nat) (s : State) :
  practice_trial trial s =
  match engine_get_design trial with
  | None => (set_calls (calls s ++ [CallGetDesign]) s, inl EstimatorError)
  | Some d =>
      match participant (shown s) with
      | None =>
          (set_calls (calls s ++ [CallGetDesign; CallRunTrial d])
             (set_design (Some d) s), inl PresenterError)
      | Some inp => (practice_done trial d (trial_outcome inp) s, inr tt)
      end
  end.
Proof.
  destruct s as [e d0 q r df f c n].
  run_monad.
  destruct (engine_get_design trial) as [d |]; [| reflexivity].
  cbv beta iota zeta delta [set_calls set_design set_shown shown calls].
  destruct (participant n) as [inp |].
  - cbv beta iota zeta delta
      [practice_done set_calls set_file set_df_data set_response set_shown
       set_design engine design delta response df_data file calls shown].
    rewrite <- !app_assoc. reflexivity.
  - cbv beta iota zeta delta
      [engine design delta response df_data file calls shown].
    rewrite <- !app_assoc. reflexivity.
Qed.

Lemma main_trial_unfold (trial : nat) (s : State) :
  main_trial trial s =
  match next_design trial s with
  | (s1, inl e) => (s1, inl e)
  | (s1, inr _) =>
      match design s1 with
      | None => (s1, inl (NameError "design"))
      | Some d =>
          match participant (shown s1) with
          | None =>
              (set_calls (calls s1 ++ [CallRunTrial d]) s1, inl PresenterError)
          | Some inp =>
              let o := trial_outcome inp in
              match engine_update (engine s1) d (out_response o) with
              | None => (update_failed d o s1, inl EstimatorError)
              | Some e' => (main_done trial d o e' s1, inr tt)
              end
          end
      end
  end.
Proof.
  cbv beta iota zeta delta [main_trial bind].
  destruct (next_design trial s) as [s1 [e | u]]; [reflexivity |].
  destruct s1 as [e d0 q r df f c n].
  run_monad.
  cbv beta iota zeta delta
    [set_calls set_file set_df_data set_response set_shown set_engine
     set_design engine design delta response df_data file calls shown].
  destruct d0 as [d |]; [| reflexivity].
  destruct (participant n) as [inp |]; [| reflexivity].
  destruct (engine_update _ _ _) as [e' |].
  - cbv beta iota zeta delta
      [main_done set_calls set_file set_df_data set_response set_shown
       set_engine engine design delta response df_data file calls shown].
    rewrite <- !app_assoc. reflexivity.
  - cbv beta iota zeta delta
      [update_failed set_calls set_response set_shown
       engine design delta response df_data file calls shown].
    rewrite <- !app_assoc. reflexivity.
Qed.

(** ** Histories of the loops *)

Lemma recorded_snoc (hist : list entry) (e : entry) (s s' : State) (new : list call) :
  Recorded hist s ->
  df_data s' = df_append (df_data s) (record_of e) ->
  file s' = Some (to_csv (df_data s')) ->
  calls s' = calls s ++ new ->
  flushes new = [to_csv (df_data s')] ->
  Recorded (hist ++ [e]) s'.
Proof.
  intros (Hdf & Hfile & Hfl) Hdf' Hfile' Hcalls Hnew.
  assert (E : df_data s' = frame_of (hist ++ [e]))
    by (rewrite frame_of_snoc, <- Hdf; exact Hdf').
  repeat split.
  - exact E.
  - rewrite saved_snoc, <- E. exact Hfile'.
  - rewrite Hcalls. unfold flushes in *. rewrite filter_map_app, Hfl, Hnew.
    now rewrite flushes_of_snoc, E.
Qed.

Lemma recorded_same (hist : list entry) (s s' : State) (new : list call) :
  Recorded hist s ->
  df_data s' = df_data s ->
  file s' = file s ->
  calls s' = calls s ++ new ->
  flushes new = [] ->
  Recorded hist s'.
Proof.
  intros (Hdf & Hfile & Hfl) Hdf' Hfile' Hcalls Hnew.
  repeat split; try congruence.
  rewrite Hcalls. unfold flushes in *.
  now rewrite filter_map_app, Hfl, Hnew, app_nil_r.
Qed.

(** A practice trial that ends adds its entry to the history; one that
    raises leaves the history as it was. *)
Lemma practice_trial_recorded (hist : list entry) (t : nat) (s : State) :
  Recorded hist s ->
  match practice_trial t s with
  | (s', inr _) =>
      exists e, entry_key e = (false, t) /\ observed e /\
                Recorded (hist ++ [e]) s'
  | (s', inl _) => Recorded hist s'
  end.
Proof.
  intros H. rewrite practice_trial_unfold.
  destruct (engine_get_design t) as [d |].
  - destruct (participant (shown s)) as [inp |].
    + exists (EPrac t d (trial_outcome inp)).
      split; [reflexivity |]. split; [exists inp; reflexivity |].
      eapply recorded_snoc; [exact H | reflexivity | reflexivity | reflexivity | reflexivity].
    + eapply recorded_same; [exact H | reflexivity | reflexivity | reflexivity | reflexivity].
  - eapply recorded_same; [exact H | reflexivity | reflexivity | reflexivity | reflexivity].
Qed.

Lemma main_trial_recorded (hist : list entry) (t : nat) (s : State) :
  Recorded hist s ->
  match main_trial t s with
  | (s', inr _) =>
      exists e, entry_key e = (true, t) /\ observed e /\
                Recorded (hist ++ [e]) s'
  | (s', inl _) => Recorded hist s'
  end.
Proof.
  intros H. rewrite main_trial_unfold.
  destruct (next_design t s) as [s1 r] eqn:E.
  destruct (next_design_frame _ _ _ _ E) as (He & Hr & Hdf & Hf & Hc & Hs).
  assert (H1 : Recorded hist s1).
  { apply (recorded_same hist s s1 [] H Hdf Hf); [| reflexivity].
    now rewrite app_nil_r. }
  destruct r as [e | u]; [exact H1 |].
  destruct (design s1) as [d |]; [| exact H1].
  destruct (participant (shown s1)) as [inp |].
  - cbv zeta.
    destruct (engine_update _ _ _) as [e' |].
    + exists (EMain t d (trial_outcome inp)
                (fst (post_mean e')) (snd (post_mean e'))
                (fst (post_sd e')) (snd (post_sd e'))).
      split; [reflexivity |]. split; [exists inp; reflexivity |].
      eapply recorded_snoc; [exact H1 | reflexivity | reflexivity | reflexivity | reflexivity].
    + eapply recorded_same; [exact H1 | reflexivity | reflexivity | reflexivity | reflexivity].
  - eapply recorded_same; [exact H1 | reflexivity | reflexivity | reflexivity | reflexivity].
Qed.

(** A loop whose body adds one entry of block [main] per iteration extends
    a history by the iterations it completes. *)
Lemma loop_history (body : nat -> M unit) (main : bool) :
  (forall hist t s, Recorded hist s ->
     match body t s with
     | (s', inr _) =>
         exists e, entry_key e = (main, t) /\ observed e /\
                   Recorded (hist ++ [e]) s'
     | (s', inl _) => Recorded hist s'
     end) ->
  forall n s hist0,
    Recorded hist0 s -> Forall observed hist0 ->
    match for_range body 0 n s with
    | (s', Done) =>
        exists hist, Recorded (hist0 ++ hist) s' /\
                     map entry_key hist = map (pair main) (seq 0 n) /\
                     Forall observed (hist0 ++ hist)
    | (s', Failed j _) =>
        j < n /\
        exists hist, Recorded (hist0 ++ hist) s' /\
                     map entry_key hist = map (pair main) (seq 0 j) /\
                     Forall observed (hist0 ++ hist)
    end.
Proof.
  intros Hbody n s hist0 H0 Hobs.
  pose (I := fun (j : nat) (s' : State) =>
               exists hist, Recorded (hist0 ++ hist) s' /\
                            map entry_key hist = map (pair main) (seq 0 j) /\
                            Forall observed (hist0 ++ hist)).
  pose proof (for_range_inv body I (fun j _ s' => I j s') n 0 s) as L.
  assert (Hstep : forall j s0, 0 <= j < 0 + n -> I j s0 ->
            match body j s0 with
            | (s', inr _) => I (S j) s'
            | (s', inl _) => I j s'
            end).
  { intros j s0 _ (hist & HR & Hk & Ho).
    pose proof (Hbody (hist0 ++ hist) j s0 HR) as P.
    destruct (body j s0) as [s' [e | u]].
    - exists hist. split; [exact P | split; assumption].
    - destruct P as (e & Hkey & Hoe & P). exists (hist ++ [e]).
      rewrite app_assoc. split; [exact P |]. split.
      + rewrite map_app, Hk, seq_S, map_app. cbn [map]. now rewrite Hkey.
      + apply Forall_app. split; [exact Ho | now constructor]. }
  assert (HI0 : I 0 s).
  { exists []. rewrite app_nil_r.
    split; [exact H0 | split; [reflexivity | exact Hobs]]. }
  specialize (L Hstep HI0).
  destruct (for_range body 0 n s) as [s' [| j e]].
  - exact L.
  - destruct L as [Hj HI]. split; [lia | exact HI].
Qed.

(** The session keeps the history of the trials it completed. *)
Lemma session_history (n_prac n_trial : nat) (e0 : Engine) (st : State)
  (out : session_outcome) :
  session n_prac n_trial (initial e0) = (st, out) ->
  practice_completed n_prac out <= n_prac /\
  main_completed n_trial out <= n_trial /\
  (main_completed n_trial out <> 0 -> practice_completed n_prac out = n_prac) /\
  exists hist,
    History (practice_completed n_prac out) (main_completed n_trial out) hist st.
Proof.
  unfold session, practice_block, main_block.
  pose proof (loop_history practice_trial false practice_trial_recorded
                n_prac (initial e0) []) as P.
  cbn [app] in P.
  specialize (P ltac:(repeat split) ltac:(constructor)).
  destruct (for_range practice_trial 0 n_prac (initial e0)) as [s1 [| j e]].
  - destruct P as (hp & HRp & Hkp & Hop).
    pose proof (loop_history main_trial true main_trial_recorded
                  n_trial s1 hp HRp Hop) as Q.
    destruct (for_range main_trial 0 n_trial s1) as [s2 [| j e]];
      intros E; inversion E; subst; cbn [practice_completed main_completed].
    + destruct Q as (hm & HRm & Hkm & Hom).
      split; [lia |]. split; [lia |]. split; [lia |].
      exists (hp ++ hm). split; [exact HRm |]. split; [| exact Hom].
      rewrite map_app, Hkp, Hkm. reflexivity.
    + destruct Q as (Hj & hm & HRm & Hkm & Hom).
      split; [lia |]. split; [lia |]. split; [lia |].
      exists (hp ++ hm). split; [exact HRm |]. split; [| exact Hom].
      rewrite map_app, Hkp, Hkm. reflexivity.
  - destruct P as (Hj & hp & HRp & Hkp & Hop).
    intros E; inversion E; subst; cbn [practice_completed main_completed].
    split; [lia |]. split; [lia |]. split; [lia |].
    exists hp. split; [exact HRp |]. split; [| exact Hop].
    rewrite Hkp. unfold session_keys. cbn [seq map]. now rewrite app_nil_r.
Qed.

(** ** Records and persistence *)

(** The labels of the trials completed are those of the rows of the
    history. *)
Lemma history_labels (n_prac n_trial : nat) (out : session_outcome)
  (hist : list entry) :
  practice_completed n_prac out <= n_prac ->
  main_completed n_trial out <= n_trial ->
  (main_completed n_trial out <> 0 -> practice_completed n_prac out = n_prac) ->
  map entry_key hist =
    session_keys (practice_completed n_prac out) (main_completed n_trial out) ->
  firstn (completed_trials n_prac n_trial out) (session_labels n_prac n_trial) =
    map key_label (map entry_key hist).
Proof.
  intros Hp Hm Hpm Hkeys. unfold completed_trials, session_labels.
  now rewrite firstn_map, session_keys_prefix, Hkeys by assumption.
Qed.

(** C2.  A trial that ends, in the practice or in the main block, has as
    its last call the writing of the whole frame, its own row included, to
    the output file.  So whatever way a session ends, with [k] trials
    completed (practice and main together) the output file holds exactly the
    rows of these [k] trials, in order: it does not exist when [k = 0], and
    is otherwise the frame in memory written in full.  One file was written
    per completed trial, and the [j]-th of them holds the rows of the first
    [j] trials.  A collaborator that raises in trial [k + 1] leaves the rows
    of the [k] trials before it in the file. *)
Theorem flush_after_every_trial :
  (forall trial s s',
     practice_trial trial s = (s', inr tt) \/
     main_trial trial s = (s', inr tt) ->
     file s' = Some (to_csv (df_data s')) /\
     exists before,
       calls s' = calls s ++ before ++ [CallToCsv (to_csv (df_data s'))]) /\
  (forall n_prac n_trial e0 st out,
     session n_prac n_trial (initial e0) = (st, out) ->
     let k := completed_trials n_prac n_trial out in
     let done := firstn k (session_labels n_prac n_trial) in
     List.length done = k /\
     file st = (if (k =? 0)%nat then None else Some (to_csv (df_data st))) /\
     map line_label (persisted_lines (file st)) = done /\
     map (fun f => map line_label (csv_lines f)) (flushes (calls st)) =
     map (fun j => firstn j done) (seq 1 k)).
Proof.
  split.
  - intros trial s s' [H | H].
    + rewrite practice_trial_unfold in H.
      destruct (engine_get_design trial) as [d |]; [| discriminate].
      destruct (participant (shown s)) as [inp |]; [| discriminate].
      inversion H. split; [reflexivity |].
      exists [CallGetDesign; CallRunTrial d]. reflexivity.
    + rewrite main_trial_unfold in H.
      destruct (next_design trial s) as [s1 [e | u]] eqn:E; [discriminate |].
      destruct (next_design_frame _ _ _ _ E) as (_ & _ & _ & _ & Hc & _).
      destruct (design s1) as [d |]; [| discriminate].
      destruct (participant (shown s1)) as [inp |]; [| discriminate].
      cbv zeta in H.
      destruct (engine_update _ _ _) as [e' |]; [| discriminate].
      inversion H. split; [reflexivity |].
      exists [CallRunTrial d; CallUpdate d (out_response (trial_outcome inp));
              CallPostMean; CallPostMean; CallPostSd; CallPostSd].
      cbn [calls df_data main_done]. now rewrite Hc.
  - intros n_prac n_trial e0 st out E. apply session_history in E.
    destruct E as (Hp & Hm & Hpm & hist & (Hdf & Hfile & Hfl) & Hkeys & _).
    cbv zeta. rewrite (history_labels n_prac n_trial out hist Hp Hm Hpm Hkeys).
    assert (Hlen : List.length hist = completed_trials n_prac n_trial out).
    { rewrite <- (length_map entry_key), Hkeys. apply session_keys_length. }
    split; [now rewrite !length_map |].
    split; [| split].
    + rewrite Hfile, Hdf, <- Hlen. destruct hist as [| e hist]; reflexivity.
    + rewrite Hfile. destruct hist as [| e hist]; [reflexivity |].
      apply frame_labels.
    + rewrite Hfl. unfold flushes_of. rewrite map_map, Hlen.
      apply map_ext. intros n.
      now rewrite frame_labels, !firstn_map.
Qed.

(** C10.  The files written are, in order, one per completed practice
    trial under the twelve declared columns, among which [sd_k] and
    [sd_tau] do not occur, then one per completed main trial under the
    fourteen columns, the declared ones followed by [sd_k] and [sd_tau]. *)
Theorem practice_files_lack_sd_columns (n_prac n_trial : nat) (e0 : Engine)
  (st : State) (out : session_outcome) :
  session n_prac n_trial (initial e0) = (st, out) ->
  map csv_header (flushes (calls st)) =
    repeat columns (practice_completed n_prac out) ++
    repeat columns_full (main_completed n_trial out) /\
  List.length columns = 12 /\
  nth 11 columns "" = "mean_tau" /\
  mem "sd_k" columns = false /\
  mem "sd_tau" columns = false /\
  columns_full = columns ++ ["sd_k"; "sd_tau"].
Proof.
  intros E. apply session_history in E.
  destruct E as (_ & _ & _ & hist & (_ & _ & Hfl) & Hkeys & _).
  split; [| repeat split].
  rewrite Hfl.
  destruct (history_split _ _ _ Hkeys) as (hp & hm & -> & <- & <- & Hhp & Hhm).
  now apply flushes_of_headers.
Qed.

(** C7, amended.  Once a main trial is completed, the output file has
    exactly the fourteen columns [block] ... [sd_tau] in this order and one
    line per completed trial, in order, each of fourteen fields; the four
    posterior fields are numbers in the lines of main trials and empty in
    the lines of practice trials. *)
Theorem output_format_after_first_main_trial (n_prac n_trial : nat)
  (e0 : Engine) (st : State) (out : session_outcome) :
  session n_prac n_trial (initial e0) = (st, out) ->
  main_completed n_trial out <> 0 ->
  exists f,
    file st = Some f /\
    csv_header f =
      ["block"; "trial"; "t_ss"; "t_ll"; "r_ss"; "r_ll"; "is_ll_on_left";
       "key_left"; "response"; "rt"; "mean_k"; "mean_tau"; "sd_k"; "sd_tau"] /\
    map line_label (csv_lines f) =
      firstn (completed_trials n_prac n_trial out)
        (session_labels n_prac n_trial) /\
    Forall (fun line => List.length line = 14 /\
                        posterior_matches_block line = true) (csv_lines f).
Proof.
  intros E Hmain.
  apply session_history in E.
  destruct E as (Hp & Hm & Hpm & hist & (Hdf & Hfile & Hfl) & Hkeys & _).
  pose proof (history_labels n_prac n_trial out hist Hp Hm Hpm Hkeys) as L.
  destruct (history_split _ _ _ Hkeys) as (hp & hm & -> & Hlp & Hlm & Hhp & Hhm).
  assert (Hex : existsb entry_is_main (hp ++ hm) = true).
  { destruct hm as [| e hm]; [cbn [List.length] in Hlm; congruence |].
    rewrite existsb_app. cbn [existsb]. inversion Hhm as [| ? ? He _]; subst.
    rewrite He. now rewrite orb_true_r. }
  exists (to_csv (frame_of (hp ++ hm))).
  split.
  { rewrite Hfile. destruct (hp ++ hm) eqn:Eh; [discriminate | reflexivity]. }
  split; [now rewrite to_csv_frame_full |].
  split; [now rewrite frame_labels, L |].
  rewrite to_csv_frame_full by exact Hex. cbn [csv_lines].
  apply Forall_forall. intros line Hin. apply in_map_iff in Hin.
  destruct Hin as (e & <- & _). split; [destruct e; reflexivity |].
  apply posterior_full.
Qed.

(** The practice block leaves the engine alone. *)
Lemma practice_trial_no_update (trial : nat) (s s' : State) (r : error + unit) :
  practice_trial trial s = (s', r) ->
  engine s' = engine s /\
  filter is_update (calls s') = filter is_update (calls s).
Proof.
  rewrite practice_trial_unfold.
  destruct (engine_get_design trial) as [d |];
    [destruct (participant (shown s)) as [inp |] |];
    intros E; inversion E; subst; cbn [engine calls practice_done set_calls set_design];
    rewrite filter_app; cbn [filter is_update]; now rewrite app_nil_r.
Qed.

Lemma practice_block_no_update (n : nat) (s s' : State) (o : outcome) :
  practice_block n s = (s', o) ->
  engine s' = engine s /\
  filter is_update (calls s') = filter is_update (calls s).
Proof.
  unfold practice_block. intros E.
  pose (I := fun (_ : nat) (s1 : State) =>
               engine s1 = engine s /\
               filter is_update (calls s1) = filter is_update (calls s)).
  pose proof (for_range_inv practice_trial I (fun j _ s1 => I j s1) n 0 s) as L.
  assert (Hstep : forall j s0, 0 <= j < 0 + n -> I j s0 ->
            match practice_trial j s0 with
            | (s1, inr _) => I (S j) s1
            | (s1, inl _) => I j s1
            end).
  { intros j s0 _ [He Hc].
    destruct (practice_trial j s0) as [s1 r] eqn:E1.
    apply practice_trial_no_update in E1. destruct E1 as [He1 Hc1].
    destruct r; split; congruence. }
  specialize (L Hstep (conj eq_refl eq_refl)).
  rewrite E in L. destruct o; [exact L | exact (proj2 L)].
Qed.


(** ** The staircase along the main loop *)

(** Before the delays are used up, the staircase step of iteration [j]
    yields a design of the staircase and the step size of [j]. *)
Lemma next_design_stair (j : nat) (s : State) :
  j < 42 -> stair_state j s ->
  exists s1 d,
    next_design j s = (s1, inr tt) /\
    design s1 = Some d /\ stair_design j d /\ delta s1 = delta_at j.
Proof.
  intros Hj Hst.
  destruct (Nat.eq_dec (j mod 6) 0) as [Hm | Hm].
  - eexists. eexists. split; [| split; [| split]].
    + apply next_design_block_start; [exact Hm | apply delays_lookup, Hj].
    + reflexivity.
    + apply stair_design_block_start, Hm.
    + cbn. symmetry. apply delta_at_block_start, Hm.
  - destruct j as [| j]; [now destruct Hm |].
    destruct (Hst ltac:(lia)) as (d & r & Hd & Hr & Hsd & Hdl).
    replace (S j - 1) with j in * by lia.
    eexists. eexists. split; [| split; [| split]].
    + apply next_design_within; eassumption.
    + reflexivity.
    + rewrite Hdl. apply stair_design_within; assumption.
    + cbn. rewrite Hdl. symmetry. apply delta_at_succ, Hm.
Qed.

(** One iteration of the main loop keeps the staircase. *)
Lemma main_trial_stair (s0 : State) (j : nat) (s : State) :
  Stair s0 j s ->
  match main_trial j s with
  | (s', inr _) => Stair s0 (S j) s'
  | (s', inl e) => StairFailed s0 j e s'
  end.
Proof.
  intros (Hj & new & Hcalls & Hds & Hst).
  rewrite main_trial_unfold.
  destruct (Nat.eq_dec j 42) as [-> | Hne].
  - rewrite next_design_exhausted by reflexivity.
    exists new. split; [exact Hcalls |]. split; [reflexivity | exact Hds].
  - assert (Hlt : j < 42) by lia.
    destruct (next_design_stair j s Hlt Hst) as (s1 & d & E & Hd & Hsd & Hdl).
    rewrite E, Hd.
    destruct (next_design_frame _ _ _ _ E) as (_ & _ & _ & _ & Hc & _).
    assert (Hds' : forall rest,
              designs_presented rest = [] ->
              Forall2 stair_design (seq 0 (S j))
                (designs_presented (new ++ CallRunTrial d :: rest))).
    { intros rest Hrest. rewrite designs_presented_app.
      cbn [designs_presented filter_map presented].
      fold (designs_presented rest). rewrite Hrest, seq_S.
      now apply Forall2_snoc. }
    destruct (participant (shown s1)) as [inp |] eqn:Ep.
    + cbv zeta.
      destruct (engine_update _ _ _) as [e' |] eqn:Eu.
      * split; [lia |].
        eexists. split; [| split].
        -- cbn [calls main_done]. rewrite Hc, Hcalls, <- app_assoc. reflexivity.
        -- apply Hds'. reflexivity.
        -- intros _. exists d, (out_response (trial_outcome inp)).
           replace (S j - 1) with j by lia.
           cbn [design response delta main_done].
           split; [reflexivity | split; [reflexivity | split; [exact Hsd | exact Hdl]]].
      * eexists. split.
        -- cbn [calls update_failed set_calls]. rewrite Hc, Hcalls, <- app_assoc.
           reflexivity.
        -- split; [exact Hlt |]. split; [apply Hds'; reflexivity |].
           do 3 eexists. exact Eu.
    + eexists. split.
      * cbn [calls set_calls]. rewrite Hc, Hcalls, <- app_assoc. reflexivity.
      * split; [exact Hlt |]. split; [apply Hds'; reflexivity |].
        eexists. exact Ep.
Qed.

(** The main loop keeps the staircase from its first iteration on,
    whatever the globals were before. *)
Lemma main_block_stair (n : nat) (s0 : State) :
  match main_block n s0 with
  | (s, Done) => Stair s0 n s
  | (s, Failed j e) => j < n /\ StairFailed s0 j e s
  end.
Proof.
  unfold main_block.
  pose proof (for_range_inv main_trial (Stair s0) (StairFailed s0) n 0 s0) as L.
  assert (H0 : Stair s0 0 s0).
  { split; [lia |]. exists []. split; [now rewrite app_nil_r |].
    split; [constructor |]. intros H. now destruct H. }
  specialize (L (fun j s _ => main_trial_stair s0 j s) H0).
  destruct (for_range main_trial 0 n s0) as [s [| j e]].
  - exact L.
  - destruct L as [Hj HF]. split; [lia | exact HF].
Qed.

(** What the main loop does when no collaborator raises. *)
Lemma main_block_total (n : nat) (s0 : State) :
  (forall k, participant k <> None) ->
  (forall en d r, engine_update en d r <> None) ->
  exists s new,
    main_block n s0 =
      (s, if (n <=? 42)%nat then Done else Failed 42 IndexError) /\
    calls s = calls s0 ++ new /\
    Forall2 stair_design (seq 0 (Nat.min n 42)) (designs_presented new).
Proof.
  intros Hp Hu. pose proof (main_block_stair n s0) as L.
  destruct (main_block n s0) as [s [| j e]].
  - destruct L as (Hn & new & Hc & Hds & _).
    exists s, new. apply Nat.leb_le in Hn as Hb. rewrite Hb.
    rewrite Nat.min_l by exact Hn. now repeat split.
  - destruct L as (Hj & new & Hc & HF).
    destruct e as [| name | |]; cbn [stair_failure] in HF.
    + destruct HF as [-> Hds].
      exists s, new. assert (Hb : (n <=? 42)%nat = false) by (apply Nat.leb_gt; lia).
      rewrite Hb, Nat.min_r by lia. now repeat split.
    + destruct HF.
    + destruct HF as (_ & _ & k & Hk). now destruct (Hp k).
    + destruct HF as (_ & _ & en & d & r & Hk). now destruct (Hu en d r).
Qed.

(** The designs shown in the main loop stay in the range of the
    staircase, however the loop ends. *)
Lemma main_block_designs_range (n : nat) (s0 : State) :
  exists new,
    calls (fst (main_block n s0)) = calls s0 ++ new /\
    Forall (fun d => (12.5 <= r_ss d <= 787.5)%Q /\ r_ll d = 800%Q /\
                     (r_ss d < r_ll d)%Q)
      (designs_presented new).
Proof.
  pose proof (main_block_stair n s0) as L.
  destruct (main_block n s0) as [s [| j e]]; cbn [fst].
  - destruct L as (_ & new & Hc & Hds & _).
    exists new. split; [exact Hc |]. exact (stair_designs_range _ _ Hds).
  - destruct L as (_ & new & Hc & HF). exists new. split; [exact Hc |].
    destruct e as [| name | |]; cbn [stair_failure] in HF.
    + destruct HF as [_ Hds]. exact (stair_designs_range _ _ Hds).
    + destruct HF.
    + destruct HF as (_ & Hds & _). exact (stair_designs_range _ _ Hds).
    + destruct HF as (_ & Hds & _). exact (stair_designs_range _ _ Hds).
Qed.

(** C1.  The staircase step of a trial whose index is a multiple of 6
    takes the delay at position [trial / 6] of the delay sequence, sets
    [r_ss] to 400 and the step to 200; the step of any other trial adds the
    step to [r_ss] after a response 1 and subtracts it otherwise, then
    halves the step.  A main trial runs this step once and shows its design.
    So after [n] trials of the main loop the step is 200 halved
    [(n - 1) mod 6] times. *)
Theorem staircase_transition :
  (forall trial s t,
     trial mod 6 = 0 -> nth_error delays (trial / 6) = Some t ->
     exists s',
       next_design trial s = (s', inr tt) /\
       design s' = Some {| t_ss := 0; t_ll := t; r_ss := 400; r_ll := 800 |} /\
       delta s' = 200%Q) /\
  (forall trial s d r,
     trial mod 6 <> 0 -> design s = Some d -> response s = Some r ->
     exists s',
       next_design trial s = (s', inr tt) /\
       design s' =
         Some (set_r_ss d (if (r =? 1)%Z then r_ss d + delta s
                           else r_ss d - delta s)%Q) /\
       delta s' = (delta s / 2)%Q) /\
  (forall trial s s',
     main_trial trial s = (s', inr tt) ->
     exists s1,
       next_design trial s = (s1, inr tt) /\
       design s' = design s1 /\ delta s' = delta s1) /\
  (forall n s0 s,
     main_block n s0 = (s, Done) -> n <> 0 ->
     delta s = delta_at (n - 1) /\
     (delta s == 200 / inject_Z (2 ^ Z.of_nat ((n - 1) mod 6)))%Q).
Proof.
  split; [| split; [| split]].
  - intros trial s t Hm Ht. eexists. split; [| split].
    + apply next_design_block_start; eassumption.
    + reflexivity.
    + reflexivity.
  - intros trial s d r Hm Hd Hr. eexists. split; [| split].
    + apply next_design_within; eassumption.
    + reflexivity.
    + reflexivity.
  - intros trial s s'. rewrite main_trial_unfold.
    destruct (next_design trial s) as [s1 [e | u]]; [discriminate |].
    destruct (design s1) as [d |] eqn:Hd; [| discriminate].
    destruct (participant (shown s1)) as [inp |]; [| discriminate].
    cbv zeta. destruct (engine_update _ _ _) as [e' |]; [| discriminate].
    intros H. inversion H. exists s1. destruct u.
    split; [reflexivity |]. cbn [design delta main_done]. now rewrite Hd.
  - intros n s0 s E Hn. pose proof (main_block_stair n s0) as L.
    rewrite E in L. destruct L as (_ & new & _ & _ & Hst).
    destruct (Hst Hn) as (d & r & _ & _ & _ & Hdl).
    split; [exact Hdl |]. rewrite Hdl. apply delta_at_closed_form.
Qed.

(** C3, amended.  The script makes no check of the trial count.  When no
    collaborator raises, a main loop of [n <= 42] trials runs all of them,
    whether [n] is a multiple of 6 or not; a main loop of more than 42
    trials runs 42 trials and raises [IndexError] in the trial of index
    42, where the seven delays are used up. *)
Theorem trial_count_is_not_checked (n : nat) (s0 : State) :
  (forall k, participant k <> None) ->
  (forall en d r, engine_update en d r <> None) ->
  exists s new,
    main_block n s0 =
      (s, if (n <=? 42)%nat then Done else Failed 42 IndexError) /\
    calls s = calls s0 ++ new /\
    List.length (designs_presented new) = Nat.min n 42.
Proof.
  intros Hp Hu.
  destruct (main_block_total n s0 Hp Hu) as (s & new & E & Hc & Hds).
  exists s, new. split; [exact E |]. split; [exact Hc |].
  apply Forall2_length in Hds. now rewrite <- Hds, length_seq.
Qed.

(** C4.  When no collaborator raises, a main loop of 42 trials runs to
    its end, and the larger-later delays of the designs it shows are the
    seven delays in order, each six times in a row. *)
Theorem delays_consumed_in_order (s0 : State) :
  (forall k, participant k <> None) ->
  (forall en d r, engine_update en d r <> None) ->
  exists s new,
    main_block (6 * List.length delays) s0 = (s, Done) /\
    calls s = calls s0 ++ new /\
    map t_ll (designs_presented new) =
      flat_map (fun t => repeat t 6) [1; 2; 4.3; 26; 52; 156; 520]%Q.
Proof.
  intros Hp Hu.
  destruct (main_block_total 42 s0 Hp Hu) as (s & new & E & Hc & Hds).
  exists s, new. split; [exact E |]. split; [exact Hc |].
  rewrite (stair_designs_t_ll _ _ Hds). reflexivity.
Qed.

(** C8, amended.  The staircase step adds or subtracts the step without
    any bound on the result.  Yet [r_ss] starts every block at 400 and is
    moved by 200, 100, 50, 25 and 12.5 at most, so every design shown in the
    main loop has [12.5 <= r_ss <= 787.5] and [r_ss < r_ll = 800], whatever
    the responses are and however the loop ends. *)
Theorem staircase_stays_in_range :
  (forall trial s d r,
     trial mod 6 <> 0 -> design s = Some d -> response s = Some r ->
     exists s',
       next_design trial s = (s', inr tt) /\
       design s' =
         Some (set_r_ss d (if (r =? 1)%Z then r_ss d + delta s
                           else r_ss d - delta s)%Q)) /\
  (forall n s0,
     exists new,
       calls (fst (main_block n s0)) = calls s0 ++ new /\
       Forall (fun d => (12.5 <= r_ss d <= 787.5)%Q /\ r_ll d = 800%Q /\
                        (r_ss d < r_ll d)%Q)
         (designs_presented new)).
Proof.
  split.
  - intros trial s d r Hm Hd Hr. eexists. split.
    + apply next_design_within; eassumption.
    + reflexivity.
  - exact main_block_designs_range.
Qed.

(** ** One block, trial by trial *)

(** A main trial in which no collaborator raises, after its staircase
    step. *)
Lemma main_trial_runs (trial : nat) (s s1 : State) (d : Design) (inp : TrialInput) :
  (forall en d0 r, engine_update en d0 r <> None) ->
  next_design trial s = (s1, inr tt) ->
  design s1 = Some d ->
  participant (shown s) = Some inp ->
  exists s' rest,
    main_trial trial s = (s', inr tt) /\
    design s' = Some d /\
    delta s' = delta s1 /\
    response s' = Some (out_response (trial_outcome inp)) /\
    shown s' = S (shown s) /\
    calls s' = calls s ++ rest /\
    designs_presented rest = [d].
Proof.
  intros Hu E Hd Hp. rewrite main_trial_unfold, E, Hd.
  destruct (next_design_frame _ _ _ _ E) as (_ & _ & _ & _ & Hc & Hs).
  rewrite Hs, Hp. cbv zeta.
  destruct (engine_update (engine s1) d (out_response (trial_outcome inp)))
    as [e' |] eqn:Eu; [| now destruct (Hu _ _ _ Eu)].
  eexists. eexists. split; [reflexivity |].
  cbn [design delta response shown calls main_done].
  rewrite Hs, Hc. repeat split.
Qed.

(** The first trial of a block. *)
Lemma block_first_trial (trial : nat) (s : State) (t : Q) (inp : TrialInput) :
  (forall en d0 r, engine_update en d0 r <> None) ->
  trial mod 6 = 0 ->
  nth_error delays (trial / 6) = Some t ->
  participant (shown s) = Some inp ->
  exists s' rest,
    main_trial trial s = (s', inr tt) /\
    design s' = Some {| t_ss := 0; t_ll := t; r_ss := 400; r_ll := 800 |} /\
    delta s' = 200%Q /\
    response s' = Some (out_response (trial_outcome inp)) /\
    shown s' = S (shown s) /\
    calls s' = calls s ++ rest /\
    designs_presented rest =
      [{| t_ss := 0; t_ll := t; r_ss := 400; r_ll := 800 |}].
Proof.
  intros Hu Hm Ht Hp.
  exact (main_trial_runs trial s _ _ inp Hu
           (next_design_block_start trial s t Hm Ht) eq_refl Hp).
Qed.

(** A later trial of a block. *)
Lemma block_next_trial (trial : nat) (s : State) (d : Design) (r : Z) (q : Q)
  (inp : TrialInput) :
  (forall en d0 r0, engine_update en d0 r0 <> None) ->
  trial mod 6 <> 0 ->
  design s = Some d -> response s = Some r -> delta s = q ->
  participant (shown s) = Some inp ->
  exists s' rest,
    main_trial trial s = (s', inr tt) /\
    design s' =
      Some (set_r_ss d (if (r =? 1)%Z then r_ss d + q else r_ss d - q)%Q) /\
    delta s' = (q / 2)%Q /\
    response s' = Some (out_response (trial_outcome inp)) /\
    shown s' = S (shown s) /\
    calls s' = calls s ++ rest /\
    designs_presented rest =
      [set_r_ss d (if (r =? 1)%Z then r_ss d + q else r_ss d - q)%Q].
Proof.
  intros Hu Hm Hd Hr <- Hp.
  exact (main_trial_runs trial s _ _ inp Hu
           (next_design_within trial s d r Hm Hd Hr) eq_refl Hp).
Qed.

(** C9.  In a block of the main loop in which the responses are
    1, 1, 1, 1, 1, 0 and no collaborator raises, the smaller rewards of the
    six designs shown are 400, 600, 700, 750, 775 and 787.5, as rationals. *)
Theorem block_r_ss_sequence (b : nat) (s0 : State) :
  b < 7 ->
  (forall en d r, engine_update en d r <> None) ->
  (forall j, j < 6 ->
     exists inp,
       participant (shown s0 + j) = Some inp /\
       out_response (trial_outcome inp) = nth j [1; 1; 1; 1; 1; 0]%Z 0%Z) ->
  exists s new,
    for_range main_trial (6 * b) 6 s0 = (s, Done) /\
    calls s = calls s0 ++ new /\
    Forall2 Qeq (map r_ss (designs_presented new))
      [400; 600; 700; 750; 775; 787.5]%Q.
Proof.
  intros Hb Hu Hresp.
  assert (Ht : exists t, nth_error delays (6 * b / 6) = Some t).
  { destruct (block_offset b 0 ltac:(lia)) as [_ E].
    rewrite Nat.add_0_r in E. rewrite E.
    destruct b as [| [| [| [| [| [| [| b]]]]]]]; [eexists; reflexivity .. | lia]. }
  destruct Ht as [t Ht].
  assert (Hmod : forall j, j < 6 -> (6 * b + j) mod 6 = j)
    by (intros j Hj; apply block_offset, Hj).
  destruct (Hresp 0 ltac:(lia)) as (i0 & Hp0 & Hr0).
  destruct (Hresp 1 ltac:(lia)) as (i1 & Hp1 & Hr1).
  destruct (Hresp 2 ltac:(lia)) as (i2 & Hp2 & Hr2).
  destruct (Hresp 3 ltac:(lia)) as (i3 & Hp3 & Hr3).
  destruct (Hresp 4 ltac:(lia)) as (i4 & Hp4 & Hr4).
  destruct (Hresp 5 ltac:(lia)) as (i5 & Hp5 & Hr5).
  cbn [nth] in *.
  rewrite Nat.add_0_r in Hp0.
  destruct (block_first_trial (6 * b) s0 t i0 Hu)
    as (s1 & c1 & E1 & Hd1 & Hq1 & Hs1 & Hn1 & Hc1 & Hv1);
    [specialize (Hmod 0 ltac:(lia)); now rewrite Nat.add_0_r in Hmod
    | exact Ht | exact Hp0 |].
  rewrite Hr0 in Hs1.
  assert (Step : forall j s d r q inp,
            0 < j < 6 ->
            design s = Some d -> response s = Some r -> delta s = q ->
            shown s = shown s0 + j ->
            participant (shown s0 + j) = Some inp ->
            exists s' rest,
              main_trial (6 * b + j) s = (s', inr tt) /\
              design s' =
                Some (set_r_ss d (if (r =? 1)%Z then r_ss d + q
                                  else r_ss d - q)%Q) /\
              delta s' = (q / 2)%Q /\
              response s' = Some (out_response (trial_outcome inp)) /\
              shown s' = shown s0 + S j /\
              calls s' = calls s ++ rest /\
              designs_presented rest =
                [set_r_ss d (if (r =? 1)%Z then r_ss d + q else r_ss d - q)%Q]).
  { intros j s d r q inp Hj Hd Hr Hq Hn Hp.
    destruct (block_next_trial (6 * b + j) s d r q inp Hu)
      as (s' & rest & H); try assumption.
    - rewrite Hmod by lia. lia.
    - now rewrite Hn.
    - exists s', rest. rewrite Hn in H.
      replace (shown s0 + S j) with (S (shown s0 + j)) by lia. exact H. }
  replace (S (shown s0)) with (shown s0 + 1) in Hn1 by lia.
  destruct (Step 1 s1 _ _ _ i1 ltac:(lia) Hd1 Hs1 Hq1 Hn1 Hp1)
    as (s2 & c2 & E2 & Hd2 & Hq2 & Hs2 & Hn2 & Hc2 & Hv2).
  rewrite Hr1 in Hs2.
  destruct (Step 2 s2 _ _ _ i2 ltac:(lia) Hd2 Hs2 Hq2 Hn2 Hp2)
    as (s3 & c3 & E3 & Hd3 & Hq3 & Hs3 & Hn3 & Hc3 & Hv3).
  rewrite Hr2 in Hs3.
  destruct (Step 3 s3 _ _ _ i3 ltac:(lia) Hd3 Hs3 Hq3 Hn3 Hp3)
    as (s4 & c4 & E4 & Hd4 & Hq4 & Hs4 & Hn4 & Hc4 & Hv4).
  rewrite Hr3 in Hs4.
  destruct (Step 4 s4 _ _ _ i4 ltac:(lia) Hd4 Hs4 Hq4 Hn4 Hp4)
    as (s5 & c5 & E5 & Hd5 & Hq5 & Hs5 & Hn5 & Hc5 & Hv5).
  rewrite Hr4 in Hs5.
  destruct (Step 5 s5 _ _ _ i5 ltac:(lia) Hd5 Hs5 Hq5 Hn5 Hp5)
    as (s6 & c6 & E6 & Hd6 & Hq6 & Hs6 & Hn6 & Hc6 & Hv6).
  exists s6, (c1 ++ c2 ++ c3 ++ c4 ++ c5 ++ c6).
  split; [| split].
  - cbn [for_range]. rewrite E1.
    replace (S (6 * b)) with (6 * b + 1) by lia. rewrite E2.
    replace (S (6 * b + 1)) with (6 * b + 2) by lia. rewrite E3.
    replace (S (6 * b + 2)) with (6 * b + 3) by lia. rewrite E4.
    replace (S (6 * b + 3)) with (6 * b + 4) by lia. rewrite E5.
    replace (S (6 * b + 4)) with (6 * b + 5) by lia. rewrite E6.
    reflexivity.
  - rewrite Hc6, Hc5, Hc4, Hc3, Hc2, Hc1, <- !app_assoc. reflexivity.
  - rewrite !designs_presented_app, Hv1, Hv2, Hv3, Hv4, Hv5, Hv6.
    cbn [app map r_ss set_r_ss Z.eqb Pos.eqb].
    repeat constructor; reflexivity.
Qed.

(** ** Calls, engine and rows of a session *)

Lemma replay_snoc (e e' e'' : Engine) (ups : list (Design * Z)) (d : Design) (r : Z) :
  replay e ups = Some e' -> engine_update e' d r = Some e'' ->
  replay e (ups ++ [(d, r)]) = Some e''.
Proof.
  revert e. induction ups as [| [d0 r0] ups IH]; intros e H Hu; cbn [replay app] in *.
  - inversion H; subst. now rewrite Hu.
  - destruct (engine_update e d0 r0) as [e1 |]; [| discriminate]. now apply IH.
Qed.

Lemma posterior_rows_snoc (e e' e'' : Engine) (ups : list (Design * Z))
  (d : Design) (r : Z) :
  replay e ups = Some e' -> engine_update e' d r = Some e'' ->
  posterior_rows e (ups ++ [(d, r)]) =
  posterior_rows e ups ++
  [[Some (VNum (fst (post_mean e''))); Some (VNum (snd (post_mean e'')));
    Some (VNum (fst (post_sd e''))); Some (VNum (snd (post_sd e'')))]].
Proof.
  revert e. induction ups as [| [d0 r0] ups IH]; intros e H Hu;
    cbn [replay posterior_rows app] in *.
  - inversion H; subst. now rewrite Hu.
  - destruct (engine_update e d0 r0) as [e1 |]; [| discriminate].
    cbn [app]. f_equal. now apply IH.
Qed.

Lemma answered_snoc (hist : list entry) (e : entry) (inp : TrialInput) :
  answered hist ->
  participant (List.length hist) = Some inp ->
  entry_outcome e = trial_outcome inp ->
  answered (hist ++ [e]).
Proof.
  intros H Hp Ho. unfold answered in *.
  rewrite length_app, Nat.add_1_r, seq_S. cbn [List.length plus].
  apply Forall2_app; [exact H |]. constructor; [| constructor].
  exists inp. split; assumption.
Qed.

Lemma traced_weaken (e0 : Engine) (hist : list entry) (s : State) :
  Traced e0 hist s -> TracedFailed e0 hist s.
Proof.
  intros (HR & Hd & Hu & He & Hp & Ha & _).
  split; [exact HR |].
  split; [exists []; split; [now rewrite app_nil_r | cbn; lia] |].
  split; [exists []; split; [now rewrite app_nil_r | cbn; lia] |].
  split; [exact He | split; [exact Hp | exact Ha]].
Qed.

(** A trial that raises adds calls, but no written file, to the calls. *)
Lemma traced_failed (e0 : Engine) (hist : list entry) (s s' : State)
  (new : list call) :
  Traced e0 hist s ->
  df_data s' = df_data s -> file s' = file s -> engine s' = engine s ->
  calls s' = calls s ++ new ->
  flushes new = [] ->
  List.length (designs_presented new) <= 1 ->
  List.length (updates new) <= 1 ->
  TracedFailed e0 hist s'.
Proof.
  intros (HR & Hd & Hu & He & Hp & Ha & _) Hdf Hf Hen Hc Hfl Hnd Hnu.
  split; [now apply (recorded_same hist s s' new) |].
  split; [exists (designs_presented new);
          split; [now rewrite Hc, designs_presented_app, Hd | exact Hnd] |].
  split; [exists (updates new);
          split; [now rewrite Hc, updates_app, Hu | exact Hnu] |].
  rewrite Hen. split; [exact He | split; [exact Hp | exact Ha]].
Qed.

Lemma practice_trial_traced (e0 : Engine) (hist : list entry) (t : nat) (s : State) :
  Traced e0 hist s ->
  match practice_trial t s with
  | (s', inr _) =>
      exists e, entry_key e = (false, t) /\ Traced e0 (hist ++ [e]) s'
  | (s', inl _) => TracedFailed e0 hist s'
  end.
Proof.
  intros T. pose proof T as (HR & Hd & Hu & He & Hp & Ha & Hs).
  rewrite practice_trial_unfold.
  destruct (engine_get_design t) as [d |].
  - destruct (participant (shown s)) as [inp |] eqn:Ep.
    + exists (EPrac t d (trial_outcome inp)). split; [reflexivity |].
      split; [eapply recorded_snoc;
              [exact HR | reflexivity | reflexivity | reflexivity | reflexivity] |].
      cbn [calls engine shown practice_done].
      rewrite designs_presented_app, updates_app, updates_of_app,
        posteriors_of_app, map_app, length_app, Hd, Hu, Hs.
      cbn [updates_of posteriors_of filter_map entry_update entry_posterior
           map entry_design List.length].
      rewrite !app_nil_r, Nat.add_1_r.
      repeat split; try assumption; try reflexivity.
      apply (answered_snoc hist _ inp Ha); [now rewrite <- Hs | reflexivity].
    + eapply traced_failed; [exact T | reflexivity .. | |]; cbn; lia.
  - eapply traced_failed; [exact T | reflexivity .. | |]; cbn; lia.
Qed.

Lemma main_trial_traced (e0 : Engine) (hist : list entry) (t : nat) (s : State) :
  Traced e0 hist s ->
  match main_trial t s with
  | (s', inr _) =>
      exists e, entry_key e = (true, t) /\ Traced e0 (hist ++ [e]) s'
  | (s', inl _) => TracedFailed e0 hist s'
  end.
Proof.
  intros T. pose proof T as (HR & Hd & Hu & He & Hp & Ha & Hs).
  rewrite main_trial_unfold.
  destruct (next_design t s) as [s1 r] eqn:E.
  destruct (next_design_frame _ _ _ _ E) as (Hen & _ & Hdf & Hf & Hc & Hsh).
  assert (T1 : forall s' new,
            df_data s' = df_data s1 -> file s' = file s1 ->
            engine s' = engine s1 -> calls s' = calls s1 ++ new ->
            flushes new = [] ->
            List.length (designs_presented new) <= 1 ->
            List.length (updates new) <= 1 ->
            TracedFailed e0 hist s').
  { intros s' new H1 H2 H3 H4. apply (traced_failed e0 hist s s' new T);
      congruence. }
  destruct r as [e | u].
  { apply (T1 s1 []); try reflexivity; [now rewrite app_nil_r | cbn; lia ..]. }
  destruct (design s1) as [d |].
  2: { apply (T1 s1 []); try reflexivity; [now rewrite app_nil_r | cbn; lia ..]. }
  destruct (participant (shown s1)) as [inp |] eqn:Ep.
  - cbv zeta.
    destruct (engine_update _ _ _) as [e' |] eqn:Eu.
    + exists (EMain t d (trial_outcome inp)
                (fst (post_mean e')) (snd (post_mean e'))
                (fst (post_sd e')) (snd (post_sd e'))).
      split; [reflexivity |].
      assert (HR1 : Recorded hist s1).
      { apply (recorded_same hist s s1 [] HR Hdf Hf); [| reflexivity].
        now rewrite app_nil_r. }
      split; [eapply recorded_snoc;
              [exact HR1 | reflexivity | reflexivity | reflexivity | reflexivity] |].
      cbn [calls engine shown main_done].
      rewrite designs_presented_app, updates_app, updates_of_app,
        posteriors_of_app, map_app, length_app, Hc, Hd, Hu, Hsh, Hs.
      cbn [updates_of posteriors_of filter_map entry_update entry_posterior
           map entry_design List.length].
      rewrite Nat.add_1_r. rewrite Hen in Eu.
      split; [reflexivity |]. split; [reflexivity |].
      split; [apply (replay_snoc _ _ _ _ _ _ He Eu) |].
      split; [rewrite (posterior_rows_snoc _ _ _ _ _ _ He Eu), Hp; reflexivity |].
      split; [| reflexivity].
      apply (answered_snoc hist _ inp Ha); [| reflexivity].
      now rewrite <- Hs, <- Hsh.
    + eapply T1; [reflexivity .. | |]; cbn; lia.
  - eapply T1; [reflexivity .. | |]; cbn; lia.
Qed.

(** A loop whose body adds one entry per iteration that ends, for any
    invariant [R] of the histories and what [RF] is left of it when the body
    raises. *)
Lemma loop_entries (body : nat -> M unit) (main : bool)
  (R RF : list entry -> State -> Prop) :
  (forall hist t s, R hist s ->
     match body t s with
     | (s', inr _) => exists e, entry_key e = (main, t) /\ R (hist ++ [e]) s'
     | (s', inl _) => RF hist s'
     end) ->
  forall n s hist0,
    R hist0 s ->
    match for_range body 0 n s with
    | (s', Done) =>
        exists hist, R (hist0 ++ hist) s' /\
                     map entry_key hist = map (pair main) (seq 0 n)
    | (s', Failed j _) =>
        j < n /\
        exists hist, RF (hist0 ++ hist) s' /\
                     map entry_key hist = map (pair main) (seq 0 j)
    end.
Proof.
  intros Hbody n s hist0 H0.
  pose (I := fun (j : nat) (s' : State) =>
               exists hist, R (hist0 ++ hist) s' /\
                            map entry_key hist = map (pair main) (seq 0 j)).
  pose (F := fun (j : nat) (_ : error) (s' : State) =>
               exists hist, RF (hist0 ++ hist) s' /\
                            map entry_key hist = map (pair main) (seq 0 j)).
  pose proof (for_range_inv body I F n 0 s) as L.
  assert (Hstep : forall j s0, 0 <= j < 0 + n -> I j s0 ->
            match body j s0 with
            | (s', inr _) => I (S j) s'
            | (s', inl e) => F j e s'
            end).
  { intros j s0 _ (hist & HR & Hk).
    pose proof (Hbody (hist0 ++ hist) j s0 HR) as P.
    destruct (body j s0) as [s' [e | u]].
    - exists hist. split; assumption.
    - destruct P as (e & Hkey & P). exists (hist ++ [e]).
      rewrite app_assoc. split; [exact P |].
      rewrite map_app, Hk, seq_S, map_app. cbn [map]. now rewrite Hkey. }
  assert (HI0 : I 0 s).
  { exists []. rewrite app_nil_r. split; [exact H0 | reflexivity]. }
  specialize (L Hstep HI0).
  destruct (for_range body 0 n s) as [s' [| j e]].
  - exact L.
  - destruct L as [Hj HI]. split; [lia | exact HI].
Qed.

Lemma traced_initial (e0 : Engine) : Traced e0 [] (initial e0).
Proof. repeat split. constructor. Qed.

(** The session keeps its calls, its engine and its rows in step. *)
Lemma session_traced (n_prac n_trial : nat) (e0 : Engine) (st : State)
  (out : session_outcome) :
  session n_prac n_trial (initial e0) = (st, out) ->
  exists hp hm,
    traced_end e0 out (hp ++ hm) st /\
    map entry_key hp = map (pair false) (seq 0 (practice_completed n_prac out)) /\
    map entry_key hm = map (pair true) (seq 0 (main_completed n_trial out)).
Proof.
  unfold session, practice_block, main_block.
  pose proof (loop_entries practice_trial false (Traced e0) (TracedFailed e0)
                (practice_trial_traced e0) n_prac (initial e0) []
                (traced_initial e0)) as P.
  cbn [app] in P.
  destruct (for_range practice_trial 0 n_prac (initial e0)) as [s1 [| j e]].
  - destruct P as (hp & HRp & Hkp).
    pose proof (loop_entries main_trial true (Traced e0) (TracedFailed e0)
                  (main_trial_traced e0) n_trial s1 hp HRp) as Q.
    destruct (for_range main_trial 0 n_trial s1) as [s2 [| j e]];
      intros E; inversion E; subst;
      cbn [practice_completed main_completed traced_end].
    + destruct Q as (hm & HRm & Hkm). exists hp, hm.
      split; [exact HRm | split; assumption].
    + destruct Q as (_ & hm & HRm & Hkm). exists hp, hm.
      split; [exact HRm | split; assumption].
  - destruct P as (_ & hp & HRp & Hkp).
    intros E; inversion E; subst;
      cbn [practice_completed main_completed traced_end].
    exists hp, []. rewrite app_nil_r.
    split; [exact HRp | split; [exact Hkp | reflexivity]].
Qed.

Lemma traced_end_failed (e0 : Engine) (out : session_outcome)
  (hist : list entry) (s : State) :
  traced_end e0 out hist s -> TracedFailed e0 hist s.
Proof.
  destruct out; cbn [traced_end]; [apply traced_weaken | exact (fun H => H) ..].
Qed.

(** X8.  The design fields of the rows in the file are the designs shown
    in the completed trials, in order; at most one more design was shown,
    that of a trial that raised. *)
Theorem rows_hold_designs_shown (n_prac n_trial : nat) (e0 : Engine)
  (st : State) (out : session_outcome) :
  session n_prac n_trial (initial e0) = (st, out) ->
  let k := completed_trials n_prac n_trial out in
  let shown_designs := designs_presented (calls st) in
  map line_design (persisted_lines (file st)) =
    map design_cells (firstn k shown_designs) /\
  k <= List.length shown_designs <= S k /\
  (out = Completed -> List.length shown_designs = k).
Proof.
  intros E. apply session_traced in E.
  destruct E as (hp & hm & T & Hkp & Hkm).
  apply keys_length in Hkp, Hkm. cbv zeta. unfold completed_trials.
  rewrite <- Hkp, <- Hkm, <- List.length_app.
  assert (Hc : out = Completed ->
               designs_presented (calls st) = map entry_design (hp ++ hm)).
  { intros ->. cbn [traced_end] in T. apply T. }
  apply traced_end_failed in T.
  destruct T as ((_ & Hfile & _) & (rest & Hd & Hrest) & _).
  rewrite Hfile, saved_lines, Hd.
  split; [| split].
  - rewrite firstn_app, (List.length_map entry_design (hp ++ hm)).
    rewrite Nat.sub_diag, firstn_O, app_nil_r.
    rewrite firstn_all2 by (rewrite (List.length_map entry_design); lia).
    rewrite !map_map. apply map_ext. intros e. apply file_line_design.
  - rewrite (List.length_app (map entry_design (hp ++ hm)) rest),
      (List.length_map entry_design). lia.
  - intros Ho. specialize (Hc Ho). rewrite Hd in Hc.
    apply (f_equal (@List.length _)) in Hc.
    rewrite (List.length_app (map entry_design (hp ++ hm)) rest) in *.
    rewrite (List.length_map entry_design) in *. lia.
Qed.

(** X9.  The row of the [i]-th completed trial holds what [run_trial] made
    of the [i]-th answer of the participant: side of the larger-later option,
    side of the key, response and response time. *)
Theorem rows_hold_answers (n_prac n_trial : nat) (e0 : Engine)
  (st : State) (out : session_outcome) :
  session n_prac n_trial (initial e0) = (st, out) ->
  Forall2 (fun i line =>
             exists inp,
               participant i = Some inp /\
               line_outcome line = outcome_cells (trial_outcome inp))
    (seq 0 (completed_trials n_prac n_trial out))
    (persisted_lines (file st)).
Proof.
  intros E. apply session_traced in E.
  destruct E as (hp & hm & T & Hkp & Hkm).
  apply keys_length in Hkp, Hkm. unfold completed_trials.
  rewrite <- Hkp, <- Hkm, <- List.length_app.
  apply traced_end_failed in T.
  destruct T as ((_ & Hfile & _) & _ & _ & _ & _ & Ha).
  rewrite Hfile, saved_lines. unfold answered in Ha.
  apply Forall2_map_right.
  eapply Forall2_impl; [| exact Ha].
  intros i e (inp & Hp & Ho). exists inp. split; [exact Hp |].
  now rewrite file_line_outcome, Ho.
Qed.

(** The updates of the completed trials, split off the calls of a session. *)
Lemma session_updates (n_prac n_trial : nat) (e0 : Engine)
  (st : State) (out : session_outcome) :
  session n_prac n_trial (initial e0) = (st, out) ->
  exists hm rest,
    List.length hm = main_completed n_trial out /\
    skipn (practice_completed n_prac out) (persisted_lines (file st)) =
      map line_of hm /\
    updates (calls st) =
      map (fun e => (entry_design e, out_response (entry_outcome e))) hm ++ rest /\
    List.length rest <= 1 /\
    replay e0 (map (fun e => (entry_design e, out_response (entry_outcome e))) hm)
      = Some (engine st) /\
    map (fun e => posterior_fields (line_of e)) hm =
      posterior_rows e0
        (map (fun e => (entry_design e, out_response (entry_outcome e))) hm).
Proof.
  intros E. apply session_traced in E.
  destruct E as (hp & hm & T & Hkp & Hkm).
  pose proof (keys_all_block _ _ _ Hkp) as Hp.
  pose proof (keys_all_block _ _ _ Hkm) as Hm.
  apply keys_length in Hkp, Hkm.
  apply traced_end_failed in T.
  destruct T as ((_ & Hfile & _) & _ & (rest & Hu & Hrest) & He & Hpo & _).
  rewrite updates_of_app, (updates_of_practice hp Hp), (updates_of_main hm Hm)
    in Hu, He, Hpo.
  rewrite posteriors_of_app, (posteriors_of_practice hp Hp),
    (posteriors_of_main hm Hm) in Hpo.
  cbn [app] in Hu, He, Hpo.
  exists hm, rest. split; [exact Hkm |].
  split; [rewrite Hfile, <- Hkp; now apply main_lines |].
  now repeat split.
Qed.

(** X11.  The four posterior fields of the row of a main trial are the
    mean and the standard deviation of the engine updated with the designs
    and responses of the main trials up to this one, and with nothing
    else. *)
Theorem rows_hold_posterior_of_replay (n_prac n_trial : nat) (e0 : Engine)
  (st : State) (out : session_outcome) :
  session n_prac n_trial (initial e0) = (st, out) ->
  map posterior_fields
    (skipn (practice_completed n_prac out) (persisted_lines (file st))) =
  posterior_rows e0
    (firstn (main_completed n_trial out) (updates (calls st))).
Proof.
  intros E. apply session_updates in E.
  destruct E as (hm & rest & Hlen & Hrows & Hu & Hrest & _ & Hpo).
  rewrite Hrows, Hu, <- Hlen, map_map.
  set (f := fun e => (entry_design e, out_response (entry_outcome e))) in *.
  rewrite firstn_app, (List.length_map f hm), Nat.sub_diag, firstn_O, app_nil_r.
  rewrite firstn_all2 by (rewrite (List.length_map f hm); lia).
  exact Hpo.
Qed.

(** ** The staircase never leaves the grid *)

Lemma next_design_lattice (j : nat) (s : State) :
  j < 42 -> stair_state j s -> lattice_state j s ->
  exists s1 d,
    next_design j s = (s1, inr tt) /\
    design s1 = Some d /\ staircase_point j d.
Proof.
  intros Hj Hst Hl.
  destruct (Nat.eq_dec (j mod 6) 0) as [Hm | Hm].
  - eexists. eexists. split; [| split; [| split; [| split]]].
    + apply next_design_block_start; [exact Hm | apply delays_lookup, Hj].
    + reflexivity.
    + exact Hj.
    + apply stair_design_block_start, Hm.
    + apply lattice_block_start, Hm.
  - destruct j as [| j]; [now destruct Hm |].
    destruct (Hst ltac:(lia)) as (d & r & Hd & Hr & Hsd & Hdl).
    destruct (Hl ltac:(lia)) as (d' & Hd' & Hld).
    replace (S j - 1) with j in * by lia.
    assert (d' = d) by congruence. subst d'.
    eexists. eexists. split; [| split; [| split; [| split]]].
    + apply next_design_within; eassumption.
    + reflexivity.
    + exact Hj.
    + rewrite Hdl. apply stair_design_within; assumption.
    + rewrite Hdl. apply lattice_within; assumption.
Qed.

Lemma main_trial_lattice (s0 : State) (j : nat) (s : State) :
  Lattice s0 j s ->
  match main_trial j s with
  | (s', inr _) => Lattice s0 (S j) s'
  | (s', inl e) => LatticeStopped s0 j e s'
  end.
Proof.
  intros (HS & (new & Hc & Hlen & Hg) & Hl).
  pose proof (main_trial_stair s0 j s HS) as HS'.
  destruct HS as (Hj & _ & _ & _ & Hst).
  revert HS'. rewrite main_trial_unfold.
  destruct (Nat.eq_dec j 42) as [-> | Hne].
  - rewrite next_design_exhausted by reflexivity.
    intros _. exists new. split; assumption.
  - assert (Hlt : j < 42) by lia.
    destruct (next_design_lattice j s Hlt Hst Hl) as (s1 & d & E & Hd & Hp).
    rewrite E, Hd.
    destruct (next_design_frame _ _ _ _ E) as (_ & _ & _ & _ & Hc1 & _).
    assert (Snoc : forall rest,
              designs_presented rest = [d] ->
              Forall (fun u => fst u = d) (updates rest) ->
              List.length (designs_presented (new ++ rest)) = S j /\
              calls_on_staircase (new ++ rest))
      by (intros rest H1 H2; now apply (calls_on_staircase_snoc new rest j d)).
    destruct (participant (shown s1)) as [inp |].
    + cbv zeta.
      destruct (engine_update _ _ _) as [e' |]; intros HS'.
      * split; [exact HS' |]. split.
        -- eexists. split.
           ++ cbn [calls main_done]. rewrite Hc1, Hc, <- app_assoc. reflexivity.
           ++ apply Snoc; [reflexivity | repeat constructor].
        -- intros _. exists d. replace (S j - 1) with j by lia.
           split; [reflexivity | apply Hp].
      * eexists. split.
        -- cbn [calls update_failed set_calls]. rewrite Hc1, Hc, <- app_assoc.
           reflexivity.
        -- apply Snoc; [reflexivity | repeat constructor].
    + intros _. eexists. split.
      * cbn [calls set_calls]. rewrite Hc1, Hc, <- app_assoc. reflexivity.
      * apply Snoc; [reflexivity | constructor].
Qed.

(** The designs the main loop shows are those of the staircase, however
    the loop ends and whatever the globals were before. *)
Lemma main_block_on_staircase (n : nat) (s0 : State) :
  exists new,
    calls (fst (main_block n s0)) = calls s0 ++ new /\
    calls_on_staircase new.
Proof.
  assert (H0 : Lattice s0 0 s0).
  { split; [| split].
    - split; [lia |]. exists []. split; [now rewrite app_nil_r |].
      split; [constructor |]. intros H. now destruct H.
    - exists []. split; [now rewrite app_nil_r |].
      split; [reflexivity |]. split; constructor.
    - intros H. now destruct H. }
  pose proof (for_range_inv main_trial (Lattice s0) (LatticeStopped s0) n 0 s0
                (fun j s _ => main_trial_lattice s0 j s) H0) as L.
  unfold main_block.
  destruct (for_range main_trial 0 n s0) as [s [| j e]]; cbn [fst].
  - destruct L as (_ & (new & Hc & _ & Hg) & _). now exists new.
  - destruct L as (_ & G). exact G.
Qed.

(** X12.  Every design the main loop shows, and every design it updates
    the engine with, is a point of [grid_design], the grid the engine was
    made with: whatever the responses, whatever the globals before the loop,
    and however the loop ends. *)
Theorem staircase_designs_on_grid (n : nat) (s0 : State) :
  exists new,
    calls (fst (main_block n s0)) = calls s0 ++ new /\
    forallb on_grid (designs_presented new) = true /\
    forallb (fun u => on_grid (fst u)) (updates new) = true.
Proof.
  destruct (main_block_on_staircase n s0) as (new & Hc & Hd & Hu).
  exists new. split; [exact Hc |].
  assert (G : forall d, In d (designs_presented new) -> on_grid d = true).
  { apply Forall_forall.
    exact (Forall2_right _ _ staircase_point_on_grid _ _ Hd). }
  split; apply forallb_forall.
  - exact G.
  - intros u Hin. apply G. rewrite Forall_forall in Hu. now apply Hu.
Qed.

(** X15.  On the screen the rewards of the main loop are whole dollars.
    The larger reward is always shown as $800.  The smaller reward is a whole
    number, shown as it is, in the first five trials of a block; in the sixth
    it is a whole number and a half, shown as the even one of its two
    neighbours: half a dollar off the value that the row of the trial
    holds. *)
Theorem staircase_rewards_on_screen (n : nat) (s0 : State) :
  exists new,
    calls (fst (main_block n s0)) = calls s0 ++ new /\
    Forall2
      (fun i d =>
         format_reward (r_ll d) = "$800" /\
         exists m : Z,
           if (i mod 6 =? 5)%nat
           then (r_ss d == inject_Z m + (1 # 2))%Q /\
                format_reward (r_ss d) =
                  ("$" ++ digits (if Z.even m then m else (m + 1)%Z))%string
           else (r_ss d == inject_Z m)%Q /\
                format_reward (r_ss d) = ("$" ++ digits m)%string)
      (seq 0 (List.length (designs_presented new))) (designs_presented new).
Proof.
  destruct (main_block_on_staircase n s0) as (new & Hc & Hd & _).
  exists new. split; [exact Hc |].
  eapply Forall2_impl; [| exact Hd]. exact staircase_point_rewards.
Qed.

(** ** A block as a bisection *)

(** X14.  A block of the main loop in which no collaborator raises is a
    bisection on the responses: the smaller rewards of its six designs are
    400 and the values reached by adding or subtracting 200, 100, 50, 25 and
    12.5 by the first five responses, and the last is 12.5 + 25 n for the
    number n whose binary digits are these five responses; the sixth
    response moves nothing. *)
Theorem block_bisects_on_responses (b : nat) (s0 : State)
  (inps : list TrialInput) :
  b < 7 ->
  (forall en d r, engine_update en d r <> None) ->
  List.length inps = 6 ->
  (forall j, j < 6 -> participant (shown s0 + j) = nth_error inps j) ->
  let rs := map (fun inp => out_response (trial_outcome inp)) inps in
  exists s new,
    for_range main_trial (6 * b) 6 s0 = (s, Done) /\
    calls s = calls s0 ++ new /\
    map r_ss (designs_presented new) = q_block (400, 200)%Q (firstn 5 rs) /\
    (last (map r_ss (designs_presented new)) 0 ==
       12.5 + 25 * inject_Z (binary (firstn 5 rs)))%Q.
Proof.
  intros Hb Hu Hlen Hresp rs.
  destruct inps as [| i0 [| i1 [| i2 [| i3 [| i4 [| i5 [| i6 inps]]]]]]];
    try discriminate Hlen.
  assert (Ht : exists t, nth_error delays (6 * b / 6) = Some t).
  { destruct (block_offset b 0 ltac:(lia)) as [_ E].
    rewrite Nat.add_0_r in E. rewrite E.
    destruct b as [| [| [| [| [| [| [| b]]]]]]]; [eexists; reflexivity .. | lia]. }
  destruct Ht as [t Ht].
  assert (Hmod : forall j, j < 6 -> (6 * b + j) mod 6 = j)
    by (intros j Hj; apply block_offset, Hj).
  pose proof (Hresp 0 ltac:(lia)) as Hp0.
  pose proof (Hresp 1 ltac:(lia)) as Hp1.
  pose proof (Hresp 2 ltac:(lia)) as Hp2.
  pose proof (Hresp 3 ltac:(lia)) as Hp3.
  pose proof (Hresp 4 ltac:(lia)) as Hp4.
  pose proof (Hresp 5 ltac:(lia)) as Hp5.
  cbn [nth_error] in Hp0, Hp1, Hp2, Hp3, Hp4, Hp5.
  rewrite Nat.add_0_r in Hp0.
  destruct (block_first_trial (6 * b) s0 t i0 Hu)
    as (s1 & c1 & E1 & Hd1 & Hq1 & Hs1 & Hn1 & Hc1 & Hv1);
    [specialize (Hmod 0 ltac:(lia)); now rewrite Nat.add_0_r in Hmod
    | exact Ht | exact Hp0 |].
  assert (Step : forall j s d r q inp,
            0 < j < 6 ->
            design s = Some d -> response s = Some r -> delta s = q ->
            shown s = shown s0 + j ->
            participant (shown s0 + j) = Some inp ->
            exists s' rest,
              main_trial (6 * b + j) s = (s', inr tt) /\
              design s' =
                Some (set_r_ss d (if (r =? 1)%Z then r_ss d + q
                                  else r_ss d - q)%Q) /\
              delta s' = (q / 2)%Q /\
              response s' = Some (out_response (trial_outcome inp)) /\
              shown s' = shown s0 + S j /\
              calls s' = calls s ++ rest /\
              designs_presented rest =
                [set_r_ss d (if (r =? 1)%Z then r_ss d + q else r_ss d - q)%Q]).
  { intros j s d r q inp Hj Hd Hr Hq Hn Hp.
    destruct (block_next_trial (6 * b + j) s d r q inp Hu)
      as (s' & rest & H); try assumption.
    - rewrite Hmod by lia. lia.
    - now rewrite Hn.
    - exists s', rest. rewrite Hn in H.
      replace (shown s0 + S j) with (S (shown s0 + j)) by lia. exact H. }
  replace (S (shown s0)) with (shown s0 + 1) in Hn1 by lia.
  destruct (Step 1 s1 _ _ _ i1 ltac:(lia) Hd1 Hs1 Hq1 Hn1 Hp1)
    as (s2 & c2 & E2 & Hd2 & Hq2 & Hs2 & Hn2 & Hc2 & Hv2).
  destruct (Step 2 s2 _ _ _ i2 ltac:(lia) Hd2 Hs2 Hq2 Hn2 Hp2)
    as (s3 & c3 & E3 & Hd3 & Hq3 & Hs3 & Hn3 & Hc3 & Hv3).
  destruct (Step 3 s3 _ _ _ i3 ltac:(lia) Hd3 Hs3 Hq3 Hn3 Hp3)
    as (s4 & c4 & E4 & Hd4 & Hq4 & Hs4 & Hn4 & Hc4 & Hv4).
  destruct (Step 4 s4 _ _ _ i4 ltac:(lia) Hd4 Hs4 Hq4 Hn4 Hp4)
    as (s5 & c5 & E5 & Hd5 & Hq5 & Hs5 & Hn5 & Hc5 & Hv5).
  destruct (Step 5 s5 _ _ _ i5 ltac:(lia) Hd5 Hs5 Hq5 Hn5 Hp5)
    as (s6 & c6 & E6 & Hd6 & Hq6 & Hs6 & Hn6 & Hc6 & Hv6).
  exists s6, (c1 ++ c2 ++ c3 ++ c4 ++ c5 ++ c6).
  assert (Hds : map r_ss (designs_presented (c1 ++ c2 ++ c3 ++ c4 ++ c5 ++ c6)) =
                q_block (400, 200)%Q (firstn 5 rs)).
  { rewrite !designs_presented_app, Hv1, Hv2, Hv3, Hv4, Hv5, Hv6.
    unfold rs.
    cbn [app map r_ss set_r_ss firstn q_block q_step fst snd]. reflexivity. }
  split; [| split; [| split]].
  - cbn [for_range]. rewrite E1.
    replace (S (6 * b)) with (6 * b + 1) by lia. rewrite E2.
    replace (S (6 * b + 1)) with (6 * b + 2) by lia. rewrite E3.
    replace (S (6 * b + 2)) with (6 * b + 3) by lia. rewrite E4.
    replace (S (6 * b + 3)) with (6 * b + 4) by lia. rewrite E5.
    replace (S (6 * b + 4)) with (6 * b + 5) by lia. rewrite E6.
    reflexivity.
  - rewrite Hc6, Hc5, Hc4, Hc3, Hc2, Hc1, <- !app_assoc. reflexivity.
  - exact Hds.
  - rewrite Hds. unfold rs. cbn [map firstn].
    rewrite !trial_outcome_response.
    destruct (key_left (trial_outcome i0) =? _)%Z;
      destruct (key_left (trial_outcome i1) =? _)%Z;
      destruct (key_left (trial_outcome i2) =? _)%Z;
      destruct (key_left (trial_outcome i3) =? _)%Z;
      destruct (key_left (trial_outcome i4) =? _)%Z;
      vm_compute; reflexivity.
Qed.

(** The staircase step of the main loop is [stair_next]. *)
Lemma next_design_is_stair_next (j : nat) (s : State)
  (prev : option (Design * Z)) (dl : Q) :
  j < 42 ->
  (j mod 6 <> 0 ->
   exists d r,
     prev = Some (d, r) /\ design s = Some d /\ response s = Some r /\
     dl = delta s) ->
  exists s1 d',
    next_design j s = (s1, inr tt) /\
    design s1 = Some d' /\
    stair_next j prev dl = Some (d', delta s1).
Proof.
  intros Hj Hprev. unfold stair_next.
  destruct (Nat.eq_dec (j mod 6) 0) as [Hm | Hm].
  - rewrite Hm. change (0 =? 0)%nat with true. cbv iota.
    rewrite (delays_lookup j Hj).
    eexists. eexists. split; [| split].
    + apply next_design_block_start; [exact Hm | apply delays_lookup, Hj].
    + reflexivity.
    + reflexivity.
  - destruct (Hprev Hm) as (d & r & -> & Hd & Hr & ->).
    apply Nat.eqb_neq in Hm as Hb. rewrite Hb.
    eexists. eexists. split; [| split].
    + apply next_design_within; eassumption.
    + reflexivity.
    + reflexivity.
Qed.

Lemma main_trial_replayed (s0 : State) (j : nat) (s : State) :
  Replayed s0 j s ->
  match main_trial j s with
  | (s', inr _) => Replayed s0 (S j) s'
  | (s', inl e) => ReplayStopped s0 j e s'
  end.
Proof.
  intros (Hj & new & Hc & Hlen & Hr & Hst).
  rewrite main_trial_unfold.
  destruct (Nat.eq_dec j 42) as [-> | Hne].
  - rewrite next_design_exhausted by reflexivity.
    exists new. split; assumption.
  - assert (Hlt : j < 42) by lia.
    assert (Hfin : exists prev dl,
               stair_final 0 None 200 (map snd (updates new)) =
                 Some (j, prev, dl) /\
               (j mod 6 <> 0 ->
                exists d r,
                  prev = Some (d, r) /\ design s = Some d /\
                  response s = Some r /\ dl = delta s)).
    { destruct (Nat.eq_dec j 0) as [-> | H0].
      - exists None, 200%Q. split; [| intros H; now destruct H].
        destruct (updates new); [reflexivity | discriminate].
      - destruct (Hst H0) as (d & r & Hd & Hrs & Hf).
        exists (Some (d, r)), (delta s). split; [exact Hf |].
        intros _. exists d, r. now repeat split. }
    destruct Hfin as (prev & dl & Hf & Hprev).
    destruct (next_design_is_stair_next j s prev dl Hlt Hprev)
      as (s1 & d' & E & Hd' & Hn).
    rewrite E, Hd'.
    destruct (next_design_frame _ _ _ _ E) as (_ & _ & _ & _ & Hc1 & _).
    assert (Snoc : forall rest r,
              updates rest = [(d', r)] ->
              List.length (updates (new ++ rest)) = S j /\
              replayed (new ++ rest) /\
              stair_final 0 None 200 (map snd (updates (new ++ rest))) =
                Some (S j, Some (d', r), delta s1)).
    { intros rest r Hrest. rewrite updates_app, Hrest.
      split; [| split].
      - rewrite (List.length_app (updates new)), Hlen. cbn [List.length]. lia.
      - unfold replayed in *. rewrite updates_app, Hrest, !map_app.
        cbn [map fst snd]. now rewrite stair_run_snoc, Hf, Hn, Hr.
      - rewrite map_app. cbn [map snd]. now rewrite stair_final_snoc, Hf, Hn. }
    destruct (participant (shown s1)) as [inp |].
    + cbv zeta.
      destruct (engine_update _ _ _) as [e' |].
      * split; [lia |]. eexists. split.
        -- cbn [calls main_done]. rewrite Hc1, Hc, <- app_assoc. reflexivity.
        -- match goal with
           | |- List.length (updates (new ++ ?rest)) = _ /\ _ =>
               destruct (Snoc rest (out_response (trial_outcome inp)) eq_refl)
                 as (L & R & F)
           end.
           split; [exact L | split; [exact R |]].
           intros _. exists d', (out_response (trial_outcome inp)).
           split; [reflexivity | split; [reflexivity | exact F]].
      * eexists. split.
        -- cbn [calls update_failed set_calls]. rewrite Hc1, Hc, <- app_assoc.
           reflexivity.
        -- match goal with
           | |- replayed (new ++ ?rest) =>
               destruct (Snoc rest (out_response (trial_outcome inp)) eq_refl)
                 as (_ & R & _)
           end.
           exact R.
    + exists (new ++ [CallRunTrial d']). split.
      * cbn [calls set_calls]. rewrite Hc1, Hc, <- app_assoc. reflexivity.
      * unfold replayed in *. rewrite updates_app. cbn [updates filter_map updated].
        now rewrite app_nil_r.
Qed.

(** The updates of the main loop replay, however the loop ends and
    whatever the globals were before. *)
Lemma main_block_replayed (n : nat) (s0 : State) :
  exists new,
    calls (fst (main_block n s0)) = calls s0 ++ new /\ replayed new.
Proof.
  assert (H0 : Replayed s0 0 s0).
  { split; [lia |]. exists []. split; [now rewrite app_nil_r |].
    split; [reflexivity |]. split; [reflexivity |].
    intros H. now destruct H. }
  pose proof (for_range_inv main_trial (Replayed s0) (ReplayStopped s0) n 0 s0
                (fun j s _ => main_trial_replayed s0 j s) H0) as L.
  unfold main_block.
  destruct (for_range main_trial 0 n s0) as [s [| j e]]; cbn [fst].
  - destruct L as (_ & new & Hc & _ & Hr & _). now exists new.
  - destruct L as (_ & G). exact G.
Qed.

(** The updates of a session are those of its main loop, and replay. *)
Lemma session_replayed (n_prac n_trial : nat) (e0 : Engine)
  (st : State) (out : session_outcome) :
  session n_prac n_trial (initial e0) = (st, out) ->
  replayed (calls st).
Proof.
  unfold session.
  destruct (practice_block n_prac (initial e0)) as [s1 o1] eqn:EP.
  destruct (practice_block_no_update _ _ _ _ EP) as [_ Hn].
  cbn [calls initial filter] in Hn. apply updates_no_update in Hn.
  destruct o1 as [| j e].
  - destruct (main_block_replayed n_trial s1) as (new & Hc & Hr).
    destruct (main_block n_trial s1) as [s2 o2]. cbn [fst] in Hc.
    intros E. assert (Hst : s2 = st) by (destruct o2; congruence).
    subst st. unfold replayed in *.
    now rewrite Hc, updates_app, Hn.
  - intros E. inversion E; subst. unfold replayed. now rewrite Hn.
Qed.

(** X16.  The designs in the rows of the main trials can be computed
    again from the responses in these rows alone: they are the designs the
    staircase gives, started at trial 0, for the responses of the rows in
    order.  So the design of a main row depends on nothing but its position
    and the responses of the rows before it in its block. *)
Theorem main_rows_replay_staircase (n_prac n_trial : nat) (e0 : Engine)
  (st : State) (out : session_outcome) :
  session n_prac n_trial (initial e0) = (st, out) ->
  let main_rows :=
    skipn (practice_completed n_prac out) (persisted_lines (file st)) in
  map line_design main_rows =
    map design_cells
      (stair_run 0 None 200 (map line_response_int main_rows)).
Proof.
  intros E. cbv zeta.
  pose proof (session_replayed _ _ _ _ _ E) as Hr.
  apply session_updates in E.
  destruct E as (hm & rest & _ & Hrows & Hu & _ & _ & _).
  unfold replayed in Hr. rewrite Hu in Hr.
  apply stair_run_prefix in Hr.
  rewrite Hrows, !map_map.
  rewrite (map_ext _ _ line_of_design), (map_ext _ _ line_of_response).
  rewrite map_map in Hr. cbn [fst snd] in Hr.
  rewrite map_map in Hr. cbn [fst snd] in Hr.
  rewrite <- Hr. now rewrite map_map.
Qed.

(** ** Updates and how a session ends *)

(** The staircase step raises no error of the engine and makes no call. *)
Lemma next_design_error (trial : nat) (s s' : State) (e : error) :
  next_design trial s = (s', inl e) ->
  e <> EstimatorError /\ e <> PresenterError.
Proof.
  unfold next_design.
  destruct (trial mod 6 =? 0)%nat.
  - unfold bind, lift_opt.
    destruct (nth_error delays (trial / 6)); cbn; intros H;
      inversion H; subst; split; discriminate.
  - unfold var, bind, gets, lift_opt. cbn.
    destruct (response s) as [r0 |]; cbn;
      [| intros H; inversion H; subst; split; discriminate].
    destruct (design s) as [d |]; cbn;
      [| intros H; inversion H; subst; split; discriminate].
    destruct (r0 =? 1)%Z; cbn; intros H; inversion H.
Qed.

Lemma main_trial_counted (j : nat) (s : State) :
  List.length (updates (calls s)) = j ->
  match main_trial j s with
  | (s', inr _) => List.length (updates (calls s')) = S j
  | (s', inl e) => UpdateRaised j e s'
  end.
Proof.
  intros Hj. rewrite main_trial_unfold.
  destruct (next_design j s) as [s1 r] eqn:E.
  destruct (next_design_frame _ _ _ _ E) as (He & _ & _ & _ & Hc & _).
  destruct r as [e | u].
  - destruct (next_design_error _ _ _ _ E) as [H1 H2].
    unfold UpdateRaised. rewrite Hc.
    destruct e; [exact Hj | exact Hj | exact Hj | now destruct H1].
  - destruct (design s1) as [d |]; [| cbn [UpdateRaised]; now rewrite Hc].
    destruct (participant (shown s1)) as [inp |].
    + cbv zeta.
      destruct (engine_update _ _ _) as [e' |] eqn:Eu.
      * cbn [calls main_done]. rewrite updates_app, Hc.
        cbn [updates filter_map updated].
        rewrite (List.length_app (updates (calls s))). cbn [List.length]. lia.
      * cbn [UpdateRaised].
        exists (updates (calls s)), d, (out_response (trial_outcome inp)).
        cbn [calls engine update_failed set_calls set_response set_shown].
        rewrite updates_app, Hc. cbn [updates filter_map updated].
        split; [reflexivity | split; [exact Hj | exact Eu]].
    + cbn [UpdateRaised calls set_calls]. rewrite updates_app, Hc.
      cbn [updates filter_map updated]. now rewrite app_nil_r.
Qed.

(** The practice block makes no update. *)
Lemma practice_block_updates (n : nat) (e0 : Engine) (s1 : State) (o1 : outcome) :
  practice_block n (initial e0) = (s1, o1) -> updates (calls s1) = [].
Proof.
  intros EP. destruct (practice_block_no_update _ _ _ _ EP) as [_ Hn].
  cbn [calls initial filter] in Hn. now apply updates_no_update.
Qed.

(** How many updates a session made, and which one raised. *)
Lemma session_counted (n_prac n_trial : nat) (e0 : Engine)
  (st : State) (out : session_outcome) :
  session n_prac n_trial (initial e0) = (st, out) ->
  List.length (updates (calls st)) =
    main_completed n_trial out + raised_update out /\
  (forall j, out = FailedMain j EstimatorError ->
     exists d r,
       updates (calls st) =
         firstn (main_completed n_trial out) (updates (calls st)) ++ [(d, r)] /\
       engine_update (engine st) d r = None).
Proof.
  unfold session.
  destruct (practice_block n_prac (initial e0)) as [s1 o1] eqn:EP.
  pose proof (practice_block_updates _ _ _ _ EP) as Hn.
  destruct o1 as [| j e].
  - pose proof (for_range_inv main_trial
                  (fun j s => List.length (updates (calls s)) = j)
                  UpdateRaised n_trial 0 s1
                  (fun j s _ => main_trial_counted j s)) as L.
    specialize (L ltac:(cbv beta; now rewrite Hn)).
    unfold main_block.
    destruct (for_range main_trial 0 n_trial s1) as [s2 [| j e]];
      intros E; inversion E; subst; cbn [main_completed raised_update].
    + split; [cbn in L; lia | discriminate].
    + destruct L as [_ L]. destruct e; cbn [UpdateRaised] in L;
        try (split; [lia | discriminate]).
      destruct L as (ups & d & r & Hu & Hl & Hr). split.
      * rewrite Hu, (List.length_app ups). cbn [List.length]. lia.
      * intros j' _. exists d, r. split; [| exact Hr].
        rewrite Hu at 1. f_equal.
        rewrite Hu, firstn_app, Hl, Nat.sub_diag, firstn_O, app_nil_r.
        symmetry. apply firstn_all2. lia.
  - intros E. inversion E; subst. cbn [main_completed raised_update].
    rewrite Hn. split; [reflexivity | discriminate].
Qed.

(** X10.  The engine is updated once for each completed main trial, in
    order, with the design and the response that the row of the trial holds,
    and its state at the end is the first engine after these updates.  The
    practice block makes no update.  There is one more update in the calls
    exactly when the session stopped in a main trial because
    [engine.update] raised, and it is the update that raised.  (The
    posterior reads, [append] and [to_csv] are calls that return here.) *)
Theorem engine_updated_with_main_rows (n_prac n_trial : nat) (e0 : Engine)
  (st : State) (out : session_outcome) :
  session n_prac n_trial (initial e0) = (st, out) ->
  let m := main_completed n_trial out in
  let main_rows :=
    skipn (practice_completed n_prac out) (persisted_lines (file st)) in
  map (fun line => (line_design line, line_response line)) main_rows =
    map (fun u => (design_cells (fst u), Some (VInt (snd u))))
      (firstn m (updates (calls st))) /\
  replay e0 (firstn m (updates (calls st))) = Some (engine st) /\
  m <= List.length (updates (calls st)) <= S m /\
  List.length (updates (calls st)) = m + raised_update out /\
  (forall j, out = FailedMain j EstimatorError ->
     exists d r,
       updates (calls st) = firstn m (updates (calls st)) ++ [(d, r)] /\
       engine_update (engine st) d r = None) /\
  (forall s1 o1,
     practice_block n_prac (initial e0) = (s1, o1) ->
     updates (calls s1) = []).
Proof.
  intros E. pose proof (session_counted _ _ _ _ _ E) as [Hcount Hraised].
  apply session_updates in E.
  destruct E as (hm & rest & Hlen & Hrows & Hu & Hrest & He & _).
  cbv zeta.
  split; [| split; [| split; [| split; [exact Hcount | split;
    [exact Hraised | exact (fun s1 o1 => practice_block_updates _ _ s1 o1)]]]]].
  - rewrite Hrows, Hu, <- Hlen.
    rewrite firstn_app, (List.length_map _ hm), Nat.sub_diag, firstn_O, app_nil_r.
    rewrite firstn_all2 by (rewrite (List.length_map _ hm); lia).
    rewrite !map_map. apply map_ext. intros e. destruct e; reflexivity.
  - rewrite Hu, <- Hlen.
    rewrite firstn_app, (List.length_map _ hm), Nat.sub_diag, firstn_O, app_nil_r.
    rewrite firstn_all2 by (rewrite (List.length_map _ hm); lia).
    exact He.
  - rewrite Hcount. destruct out as [| ? ? | ? []]; cbn [raised_update]; lia.
Qed.

(** C5.  A main trial that ends has called [engine.update] with the design
    it showed and the response it got, then read the posterior mean and
    standard deviation, and then appended its row, in which [mean_k],
    [mean_tau], [sd_k] and [sd_tau] are the two means and the two standard
    deviations of the engine after this update.  A practice trial, and so
    the practice block, leaves the engine as it was and calls no update.  In
    every file written the posterior fields are numbers in the lines of main
    trials and empty in the lines of practice trials; and in the file of a
    session, however it ends, the posterior fields of the [j]-th main line
    are the posterior of the engine after the first [j] updates. *)
Theorem update_precedes_posterior_read :
  (forall trial s s',
     main_trial trial s = (s', inr tt) ->
     exists d inp e',
       let o := trial_outcome inp in
       design s' = Some d /\
       participant (shown s) = Some inp /\
       engine_update (engine s) d (out_response o) = Some e' /\
       engine s' = e' /\
       calls s' =
         calls s ++
         [CallRunTrial d; CallUpdate d (out_response o);
          CallPostMean; CallPostMean; CallPostSd; CallPostSd;
          CallToCsv (to_csv (df_data s'))] /\
       df_data s' =
         df_append (df_data s)
           [("block", VStr "main");
            ("trial", VInt (Z.of_nat trial + 1));
            ("t_ss", VNum (t_ss d));
            ("t_ll", VNum (t_ll d));
            ("r_ss", VNum (r_ss d));
            ("r_ll", VNum (r_ll d));
            ("is_ll_on_left", VInt (is_ll_on_left o));
            ("key_left", VInt (key_left o));
            ("response", VInt (out_response o));
            ("rt", VNum (rt o));
            ("mean_k", VNum (fst (post_mean e')));
            ("mean_tau", VNum (snd (post_mean e')));
            ("sd_k", VNum (fst (post_sd e')));
            ("sd_tau", VNum (snd (post_sd e')))]) /\
  (forall trial s s' r,
     practice_trial trial s = (s', r) ->
     engine s' = engine s /\
     filter is_update (calls s') = filter is_update (calls s)) /\
  (forall n s s' o,
     practice_block n s = (s', o) ->
     engine s' = engine s /\
     filter is_update (calls s') = filter is_update (calls s)) /\
  (forall n_prac n_trial e0 st out,
     session n_prac n_trial (initial e0) = (st, out) ->
     Forall (fun line => posterior_matches_block line = true)
       (persisted_lines (file st)) /\
     Forall (fun f => Forall (fun line => posterior_matches_block line = true)
                        (csv_lines f))
       (flushes (calls st))) /\
  (forall n_prac n_trial e0 st out,
     session n_prac n_trial (initial e0) = (st, out) ->
     map posterior_fields
       (skipn (practice_completed n_prac out) (persisted_lines (file st))) =
     posterior_rows e0
       (firstn (main_completed n_trial out) (updates (calls st)))).
Proof.
  split; [| split; [| split; [| split]]].
  - intros trial s s'. rewrite main_trial_unfold.
    destruct (next_design trial s) as [s1 r] eqn:E.
    destruct (next_design_frame _ _ _ _ E) as (He & Hr & Hdf & Hf & Hc & Hs).
    destruct r as [e | u]; [discriminate |].
    destruct (design s1) as [d |]; [| discriminate].
    destruct (participant (shown s1)) as [inp |] eqn:Ep; [| discriminate].
    cbv zeta.
    destruct (engine_update _ _ _) as [e' |] eqn:Eu; [| discriminate].
    intros H. inversion H; subst s'. exists d, inp, e'. cbv zeta.
    cbn [design engine calls df_data main_done].
    rewrite <- Hs, <- He, <- Hc, <- Hdf. repeat split; assumption.
  - exact practice_trial_no_update.
  - exact practice_block_no_update.
  - intros n_prac n_trial e0 st out E. apply session_history in E.
    destruct E as (_ & _ & _ & hist & (_ & Hfile & Hfl) & _).
    rewrite Hfile, Hfl. split.
    + apply saved_forall, frame_posterior.
    + apply flushes_of_forall. intros h. apply frame_posterior.
  - intros n_prac n_trial e0 st out E. apply session_updates in E.
    destruct E as (hm & rest & Hlen & Hrows & Hu & Hrest & _ & Hpo).
    rewrite Hrows, Hu, <- Hlen, map_map.
    rewrite firstn_app, (List.length_map _ hm), Nat.sub_diag, firstn_O, app_nil_r.
    rewrite firstn_all2 by (rewrite (List.length_map _ hm); lia).
    exact Hpo.
Qed.

End Properties.

(** * Instances *)

(** In binary64 the block of C9 gives the same six values. *)
Lemma binary64_block_values :
  float_block (400, 200)%float [1; 1; 1; 1; 1]%Z =
  [400; 600; 700; 750; 775; 787.5]%float.
Proof. vm_compute. reflexivity. Qed.

(** Whatever the five responses that move [r_ss] within a block, the
    floats Python computes are the rationals of the embedding: nothing is
    rounded. *)
Lemma binary64_staircase_exact :
  forallb (fun rs => same_values (float_block (400, 200)%float rs)
                       (q_block (400, 200)%Q rs))
    (all_responses 5) = true.
Proof. vm_compute. reflexivity. Qed.

(** The within-block branch of [next_design] is [q_step]. *)
Lemma within_block_is_q_step :
  forall (E : Estimator) (d : Design) (r : Z) (s : @State E),
    design (within_block_state d r s) =
      Some (set_r_ss d (fst (q_step (r_ss d, delta s) r))) /\
    delta (within_block_state d r s) = snd (q_step (r_ss d, delta s) r).
Proof. intros E d r s. split; reflexivity. Qed.

(** The block-start step in trial 6 and the within-block step in trial 7
    after a response 1. *)
Lemma staircase_transition_witness :
  (exists s',
     @next_design counting_estimator 6 (@initial counting_estimator 0%nat) = (s', inr tt) /\
     design s' = Some {| t_ss := 0; t_ll := 2; r_ss := 400; r_ll := 800 |} /\
     delta s' = 200%Q) /\
  (exists s',
     @next_design counting_estimator 7 answered_state = (s', inr tt) /\
     design s' =
       Some {| t_ss := 0; t_ll := 2; r_ss := 700 + 200; r_ll := 800 |} /\
     delta s' = (200 / 2)%Q).
Proof.
  split.
  - apply (proj1 (@staircase_transition counting_estimator
                    (scripted_presenter [])) 6 (@initial counting_estimator 0%nat) 2%Q);
      reflexivity.
  - apply (proj1 (proj2 (@staircase_transition counting_estimator
                           (scripted_presenter [])))
             7 answered_state
             {| t_ss := 0; t_ll := 2; r_ss := 700; r_ll := 800 |} 1%Z);
      [discriminate | reflexivity | reflexivity].
Defined.

(** Two practice trials, one main trial, then PsychoPy raises in the
    second main trial: three rows are in the file. *)
Lemma flush_after_every_trial_witness :
  let r := @session counting_estimator (failing_presenter [1; 0; 1]%Z 3)
             2 6 (@initial counting_estimator 0%nat) in
  snd r = FailedMain 1 PresenterError /\
  file (fst r) = Some (to_csv (df_data (fst r))) /\
  map line_label (persisted_lines (file (fst r))) =
    [(Some (VStr "prac"), Some (VInt 1)); (Some (VStr "prac"), Some (VInt 2));
     (Some (VStr "main"), Some (VInt 1))].
Proof.
  cbv zeta.
  pose proof (proj2 (@flush_after_every_trial counting_estimator
                       (failing_presenter [1; 0; 1]%Z 3)) 2 6 0%nat _ _
                (surjective_pairing _)) as H.
  cbv zeta in H. destruct H as (_ & Hfile & Hlines & _).
  split; [vm_compute; reflexivity |].
  split; [exact Hfile | exact Hlines].
Defined.

(** The default settings of the script, 5 practice trials and 20 main
    trials, with collaborators that do not raise: 20 is not a multiple of
    6, and the main loop shows 20 designs and ends. *)
Lemma trial_count_is_not_checked_witness :
  exists s new,
    @main_block counting_estimator (scripted_presenter []) 20
      (@initial counting_estimator 0%nat) = (s, Done) /\
    calls s = calls (@initial counting_estimator 0%nat) ++ new /\
    List.length (designs_presented new) = 20.
Proof.
  apply (@trial_count_is_not_checked counting_estimator (scripted_presenter [])
           20 (@initial counting_estimator 0%nat)).
  - intros k. cbn. discriminate.
  - intros en d r. cbn. discriminate.
Defined.

(** The session starts the main block with a trial count that is not a
    multiple of 6 (the default 20: the fourth block has two trials) and
    with one that needs an eighth delay (48: the loop raises in the trial of
    index 42, with 42 main rows in the file). *)
Lemma misaligned_trial_count_counterexample :
  20 mod 6 <> 0 /\
  (let r := @session counting_estimator (scripted_presenter []) 5 20
              (@initial counting_estimator 0%nat) in
   snd r = Completed /\
   List.length (designs_presented (calls (fst r))) = 25 /\
   map line_label (skipn 23 (persisted_lines (file (fst r)))) =
     [(Some (VStr "main"), Some (VInt 19)); (Some (VStr "main"), Some (VInt 20))]) /\
  6 * List.length delays < 48 /\
  (let r := @session counting_estimator (scripted_presenter []) 0 48
              (@initial counting_estimator 0%nat) in
   snd r = FailedMain 42 IndexError /\
   List.length (persisted_lines (file (fst r))) = 42).
Proof.
  split; [discriminate |].
  split; [vm_compute; repeat split |].
  split; [vm_compute; lia |].
  vm_compute. repeat split.
Defined.

Lemma delays_consumed_in_order_witness :
  exists s new,
    @main_block counting_estimator (scripted_presenter [1; 0; 0; 1]%Z)
      (6 * List.length delays) (@initial counting_estimator 0%nat) = (s, Done) /\
    calls s = calls (@initial counting_estimator 0%nat) ++ new /\
    map t_ll (designs_presented new) =
      flat_map (fun t => repeat t 6) [1; 2; 4.3; 26; 52; 156; 520]%Q.
Proof.
  apply (@delays_consumed_in_order counting_estimator
           (scripted_presenter [1; 0; 0; 1]%Z)
           (@initial counting_estimator 0%nat)).
  - intros k. cbn. discriminate.
  - intros en d r. cbn. discriminate.
Defined.

(** The first main trial of a session without practice: one update, then
    the reads, and the posterior mean of [k] in the row is that of the engine
    after the update. *)
Lemma update_precedes_posterior_read_witness :
  let s := @initial counting_estimator 0%nat in
  let s' := fst (@main_trial counting_estimator (scripted_presenter [1]%Z) 0 s) in
  exists d inp e',
    let o := trial_outcome inp in
    design s' = Some d /\
    @participant (scripted_presenter [1]%Z) (shown s) = Some inp /\
    @engine_update counting_estimator (engine s) d (out_response o) = Some e' /\
    engine s' = e' /\
    calls s' =
      calls s ++
      [CallRunTrial d; CallUpdate d (out_response o);
       CallPostMean; CallPostMean; CallPostSd; CallPostSd;
       CallToCsv (to_csv (df_data s'))] /\
    df_data s' =
      df_append (df_data s)
        [("block", VStr "main");
         ("trial", VInt (Z.of_nat 0 + 1));
         ("t_ss", VNum (t_ss d));
         ("t_ll", VNum (t_ll d));
         ("r_ss", VNum (r_ss d));
         ("r_ll", VNum (r_ll d));
         ("is_ll_on_left", VInt (is_ll_on_left o));
         ("key_left", VInt (key_left o));
         ("response", VInt (out_response o));
         ("rt", VNum (rt o));
         ("mean_k", VNum (fst (@post_mean counting_estimator e')));
         ("mean_tau", VNum (snd (@post_mean counting_estimator e')));
         ("sd_k", VNum (fst (@post_sd counting_estimator e')));
         ("sd_tau", VNum (snd (@post_sd counting_estimator e')))].
Proof.
  cbv zeta.
  apply (proj1 (@update_precedes_posterior_read counting_estimator
                  (scripted_presenter [1]%Z))).
  vm_compute. reflexivity.
Defined.


Lemma output_format_after_first_main_trial_witness :
  let r := @session counting_estimator (scripted_presenter [1; 0; 1]%Z) 1 3
             (@initial counting_estimator 0%nat) in
  exists f,
    file (fst r) = Some f /\
    csv_header f =
      ["block"; "trial"; "t_ss"; "t_ll"; "r_ss"; "r_ll"; "is_ll_on_left";
       "key_left"; "response"; "rt"; "mean_k"; "mean_tau"; "sd_k"; "sd_tau"] /\
    map line_label (csv_lines f) =
      firstn (completed_trials 1 3 (snd r)) (session_labels 1 3) /\
    Forall (fun line => List.length line = 14 /\
                        posterior_matches_block line = true) (csv_lines f).
Proof.
  cbv zeta.
  apply (@output_format_after_first_main_trial counting_estimator
           (scripted_presenter [1; 0; 1]%Z) 1 3 0%nat).
  - vm_compute. reflexivity.
  - vm_compute. discriminate.
Defined.

(** After practice trials only, the file has the twelve declared columns,
    not the fourteen of the format. *)
Lemma practice_only_file_counterexample :
  let r := @session counting_estimator (scripted_presenter []) 2 0
             (@initial counting_estimator 0%nat) in
  snd r = Completed /\
  option_map csv_header (file (fst r)) =
    Some ["block"; "trial"; "t_ss"; "t_ll"; "r_ss"; "r_ll"; "is_ll_on_left";
          "key_left"; "response"; "rt"; "mean_k"; "mean_tau"] /\
  option_map csv_header (file (fst r)) <>
    Some ["block"; "trial"; "t_ss"; "t_ll"; "r_ss"; "r_ll"; "is_ll_on_left";
          "key_left"; "response"; "rt"; "mean_k"; "mean_tau"; "sd_k"; "sd_tau"].
Proof.
  cbv zeta. split; [vm_compute; reflexivity |].
  split; [vm_compute; reflexivity |].
  vm_compute. discriminate.
Defined.

(** The step itself is not clamped: from 700 with step 200 it goes to
    900, above the larger reward. *)
Lemma staircase_stays_in_range_witness :
  exists s',
    @next_design counting_estimator 7 answered_state = (s', inr tt) /\
    design s' =
      Some {| t_ss := 0; t_ll := 2; r_ss := 700 + 200; r_ll := 800 |}.
Proof.
  apply (proj1 (@staircase_stays_in_range counting_estimator
                  (scripted_presenter []))
           7 answered_state
           {| t_ss := 0; t_ll := 2; r_ss := 700; r_ll := 800 |} 1%Z);
    [discriminate | reflexivity | reflexivity].
Defined.

(** No engine, participant, trial count and start state make the main
    loop show a design whose smaller reward is negative or above the larger
    one. *)
Lemma staircase_out_of_range_counterexample :
  ~ (exists (E : Estimator) (P : Presenter) (n : nat) (s0 : @State E)
            (new : list call) (d : Design),
        calls (fst (@main_block E P n s0)) = calls s0 ++ new /\
        In d (designs_presented new) /\
        (r_ss d < 0 \/ r_ll d < r_ss d)%Q).
Proof.
  intros (E & P & n & s0 & new & d & Hc & Hin & Hbad).
  destruct (@main_block_designs_range E P n s0) as (new' & Hc' & Hall).
  rewrite Hc in Hc'. apply app_inv_head in Hc'. subst new'.
  rewrite Forall_forall in Hall.
  destruct (Hall d Hin) as ((Hlo & Hhi) & Hrl & Hlt).
  destruct Hbad as [Hneg | Habove]; lra.
Defined.

Lemma block_r_ss_sequence_witness :
  exists s new,
    @for_range counting_estimator
      (@main_trial counting_estimator (scripted_presenter [1; 1; 1; 1; 1; 0]%Z))
      (6 * 0) 6 (@initial counting_estimator 0%nat) = (s, Done) /\
    calls s = calls (@initial counting_estimator 0%nat) ++ new /\
    Forall2 Qeq (map r_ss (designs_presented new))
      [400; 600; 700; 750; 775; 787.5]%Q.
Proof.
  apply (@block_r_ss_sequence counting_estimator
           (scripted_presenter [1; 1; 1; 1; 1; 0]%Z) 0
           (@initial counting_estimator 0%nat)).
  - lia.
  - intros en d r. cbn. discriminate.
  - intros j Hj.
    do 6 (destruct j as [| j]; [eexists; split; reflexivity |]). lia.
Defined.

Lemma practice_files_lack_sd_columns_witness :
  let r := @session counting_estimator (scripted_presenter [1; 0; 1]%Z) 2 3
             (@initial counting_estimator 0%nat) in
  map csv_header (flushes (calls (fst r))) =
    [columns; columns; columns_full; columns_full; columns_full].
Proof.
  cbv zeta.
  pose proof (@practice_files_lack_sd_columns counting_estimator
                (scripted_presenter [1; 0; 1]%Z) 2 3 0%nat _ _
                (surjective_pairing _)) as H.
  destruct H as (H & _). rewrite H. vm_compute. reflexivity.
Defined.

(** ** Instances of the further properties *)

(** A delay of 4.3 weeks is shown as one month, and only 4.3 is. *)
Lemma convert_delay_to_str_of_table_value_witness :
  convert_delay_to_str 4.3 = Some "In 1 month" /\
  (forall v', In (v', "In 1 month") tbl_conv -> (v' == 4.3)%Q).
Proof.
  apply (convert_delay_to_str_of_table_value 4.3 4.3 "In 1 month").
  - do 6 right. left. reflexivity.
  - reflexivity.
Defined.

(** A delay of 5.37 weeks, halfway between a month and six weeks as
    decimals. *)
Lemma convert_delay_to_str_nearest_witness :
  convert_delay_to_str (inject_Z 537 / 100) = Some "In 1 month" /\
  nearest_label (inject_Z 537 / 100) "In 1 month".
Proof.
  destruct (convert_delay_to_str_nearest 537 ltac:(lia)) as (s & Hs & Hn).
  assert (E : convert_delay_to_str (inject_Z 537 / 100) = Some "In 1 month")
    by (vm_compute; reflexivity).
  rewrite E in Hs. injection Hs as <-.
  split; [exact E | exact Hn].
Defined.

(** 1024 weeks, 2^200 weeks, and 8 weeks ago. *)
Lemma convert_delay_to_str_ends_witness :
  convert_delay_to_str (inject_Z (2 ^ 10)) = Some "In 10 years" /\
  convert_delay_to_str (inject_Z (2 ^ 200)) = Some "Now" /\
  convert_delay_to_str (- inject_Z (2 ^ 3)) = Some "Now".
Proof.
  split; [| split].
  - apply (proj1 (convert_delay_to_str_ends 10)). lia.
  - apply (proj1 (proj2 (convert_delay_to_str_ends 200))). lia.
  - apply (proj2 (proj2 (convert_delay_to_str_ends 3))). lia.
Defined.

(** The larger-later option drawn on the right, 787.5 against 800 in a
    month. *)
Lemma run_trial_sides_witness :
  let design := {| t_ss := 0; t_ll := 4.3; r_ss := 787.5; r_ll := 800 |} in
  let inp := {| in_randint := 1; in_key := "j"; in_rt := 1.5 |} in
  exists ss ll rest,
    run_trial_screen design inp =
      ScreenDraw ss :: ScreenDraw ll :: ScreenFlip :: ScreenWaitKeys :: rest /\
    box_fill ss = None /\ box_fill ll = None /\
    reward_shown ss = format_reward (r_ss design) /\
    reward_shown ll = format_reward (r_ll design) /\
    delay_shown ss = convert_delay_to_str (t_ss design) /\
    delay_shown ll = convert_delay_to_str (t_ll design) /\
    (is_ll_on_left (trial_outcome inp) = 1%Z -> left_of ll ss) /\
    (is_ll_on_left (trial_outcome inp) <> 1%Z ->
     is_ll_on_left (trial_outcome inp) = 0%Z /\ left_of ss ll).
Proof.
  cbv zeta.
  apply (run_trial_sides
           {| t_ss := 0; t_ll := 4.3; r_ss := 787.5; r_ll := 800 |}
           {| in_randint := 1; in_key := "j"; in_rt := 1.5 |}).
  right. reflexivity.
Defined.

(** The same trial answered with [j]: the right box, the larger-later
    option, is filled. *)
Lemma run_trial_feedback_witness :
  let design := {| t_ss := 0; t_ll := 4.3; r_ss := 787.5; r_ll := 800 |} in
  let inp := {| in_randint := 1; in_key := "j"; in_rt := 1.5 |} in
  out_response (trial_outcome inp) = 1%Z /\
  exists ss ll ss' ll',
    run_trial_screen design inp =
      [ScreenDraw ss; ScreenDraw ll; ScreenFlip; ScreenWaitKeys;
       ScreenDraw ss'; ScreenDraw ll'; ScreenFlip; ScreenWait 1;
       ScreenFlip; ScreenWait 1] /\
    box_vertices ss' = box_vertices ss /\
    box_vertices ll' = box_vertices ll /\
    (out_response (trial_outcome inp) = 1%Z ->
     box_fill ll' = Some "darkgreen" /\ box_fill ss' = None) /\
    (out_response (trial_outcome inp) <> 1%Z ->
     out_response (trial_outcome inp) = 0%Z /\
     box_fill ss' = Some "darkgreen" /\ box_fill ll' = None) /\
    (In (in_key inp) KEYS_LEFT ->
     exists chosen other,
       (chosen = ss' /\ other = ll' \/ chosen = ll' /\ other = ss') /\
       box_fill chosen = Some "darkgreen" /\ left_of chosen other) /\
    (In (in_key inp) KEYS_RIGHT ->
     exists chosen other,
       (chosen = ss' /\ other = ll' \/ chosen = ll' /\ other = ss') /\
       box_fill chosen = Some "darkgreen" /\ left_of other chosen).
Proof.
  cbv zeta. split; [reflexivity |].
  apply (run_trial_feedback
           {| t_ss := 0; t_ll := 4.3; r_ss := 787.5; r_ll := 800 |}
           {| in_randint := 1; in_key := "j"; in_rt := 1.5 |}).
  - right. reflexivity.
  - do 5 right. left. reflexivity.
Defined.

(** Two practice trials and three main trials that all end. *)
Lemma rows_hold_designs_shown_witness :
  let r := @session counting_estimator (scripted_presenter [1; 0; 1]%Z) 2 3
             (@initial counting_estimator 0%nat) in
  snd r = Completed /\
  let k := completed_trials 2 3 (snd r) in
  let shown_designs := designs_presented (calls (fst r)) in
  map line_design (persisted_lines (file (fst r))) =
    map design_cells (firstn k shown_designs) /\
  k <= List.length shown_designs <= S k /\
  (snd r = Completed -> List.length shown_designs = k).
Proof.
  cbv zeta. split; [vm_compute; reflexivity |].
  exact (@rows_hold_designs_shown counting_estimator
           (scripted_presenter [1; 0; 1]%Z) 2 3 0%nat _ _
           (surjective_pairing _)).
Defined.

(** Two practice trials, one main trial, then PsychoPy raises in the
    second main trial: three rows, for the first three answers. *)
Lemma rows_hold_answers_witness :
  let r := @session counting_estimator (failing_presenter [1; 0; 1]%Z 3) 2 3
             (@initial counting_estimator 0%nat) in
  snd r = FailedMain 1 PresenterError /\
  Forall2 (fun i line =>
             exists inp,
               @participant (failing_presenter [1; 0; 1]%Z 3) i = Some inp /\
               line_outcome line = outcome_cells (trial_outcome inp))
    (seq 0 (completed_trials 2 3 (snd r)))
    (persisted_lines (file (fst r))).
Proof.
  cbv zeta. split; [vm_compute; reflexivity |].
  exact (@rows_hold_answers counting_estimator
           (failing_presenter [1; 0; 1]%Z 3) 2 3 0%nat _ _
           (surjective_pairing _)).
Defined.

(** Two practice trials, one main trial, then [engine.update] raises in
    the second main trial: two updates are in the calls, one row of a main
    trial in the file. *)
Lemma engine_updated_with_main_rows_witness :
  let r := @session (refusing_estimator 1) (scripted_presenter [1; 0; 1]%Z) 2 3
             (@initial (refusing_estimator 1) 0%nat) in
  snd r = FailedMain 1 EstimatorError /\
  List.length (updates (calls (fst r))) = 2 /\
  let m := main_completed 3 (snd r) in
  let main_rows :=
    skipn (practice_completed 2 (snd r)) (persisted_lines (file (fst r))) in
  map (fun line => (line_design line, line_response line)) main_rows =
    map (fun u => (design_cells (fst u), Some (VInt (snd u))))
      (firstn m (updates (calls (fst r)))) /\
  @replay (refusing_estimator 1) 0%nat (firstn m (updates (calls (fst r)))) =
    Some (engine (fst r)) /\
  m <= List.length (updates (calls (fst r))) <= S m /\
  List.length (updates (calls (fst r))) = m + raised_update (snd r) /\
  (forall j, snd r = FailedMain j EstimatorError ->
     exists d r0,
       updates (calls (fst r)) =
         firstn m (updates (calls (fst r))) ++ [(d, r0)] /\
       @engine_update (refusing_estimator 1) (engine (fst r)) d r0 = None) /\
  (forall s1 o1,
     @practice_block (refusing_estimator 1) (scripted_presenter [1; 0; 1]%Z)
       2 (@initial (refusing_estimator 1) 0%nat) = (s1, o1) ->
     updates (calls s1) = []).
Proof.
  cbv zeta. split; [vm_compute; reflexivity |].
  split; [vm_compute; reflexivity |].
  exact (@engine_updated_with_main_rows (refusing_estimator 1)
           (scripted_presenter [1; 0; 1]%Z) 2 3 0%nat _ _
           (surjective_pairing _)).
Defined.

Lemma rows_hold_posterior_of_replay_witness :
  let r := @session counting_estimator (scripted_presenter [1; 0; 1]%Z) 2 3
             (@initial counting_estimator 0%nat) in
  List.length (persisted_lines (file (fst r))) = 5 /\
  map posterior_fields
    (skipn (practice_completed 2 (snd r)) (persisted_lines (file (fst r)))) =
  @posterior_rows counting_estimator 0%nat
    (firstn (main_completed 3 (snd r)) (updates (calls (fst r)))).
Proof.
  cbv zeta. split; [vm_compute; reflexivity |].
  exact (@rows_hold_posterior_of_replay counting_estimator
           (scripted_presenter [1; 0; 1]%Z) 2 3 0%nat _ _
           (surjective_pairing _)).
Defined.

(** The last design of a block after the responses 1, 1, 1, 1, 1. *)
Lemma grid_delays_have_own_labels_witness :
  let d := {| t_ss := 0; t_ll := 4.3; r_ss := 787.5; r_ll := 800 |} in
  on_grid d = true /\
  convert_delay_to_str (t_ss d) = Some "Now" /\
  exists v s,
    In (v, s) tbl_conv /\ (t_ll d == v)%Q /\
    convert_delay_to_str (t_ll d) = Some s.
Proof.
  cbv zeta. split; [vm_compute; reflexivity |].
  apply (grid_delays_have_own_labels
           {| t_ss := 0; t_ll := 4.3; r_ss := 787.5; r_ll := 800 |}).
  vm_compute. reflexivity.
Defined.

(** The first block with the responses 1, 0, 1, 1, 0, 1. *)
Lemma block_bisects_on_responses_witness :
  let inps :=
    map (fun r : Z => {| in_randint := 1;
                         in_key := if (r =? 1)%Z then "j" else "f";
                         in_rt := 1.5 |}) [1; 0; 1; 1; 0; 1]%Z in
  let rs := map (fun inp => out_response (trial_outcome inp)) inps in
  rs = [1; 0; 1; 1; 0; 1]%Z /\
  exists s new,
    @for_range counting_estimator
      (@main_trial counting_estimator (scripted_presenter [1; 0; 1; 1; 0; 1]%Z))
      (6 * 0) 6 (@initial counting_estimator 0%nat) = (s, Done) /\
    calls s = calls (@initial counting_estimator 0%nat) ++ new /\
    map r_ss (designs_presented new) = q_block (400, 200)%Q (firstn 5 rs) /\
    (last (map r_ss (designs_presented new)) 0 ==
       12.5 + 25 * inject_Z (binary (firstn 5 rs)))%Q.
Proof.
  cbv zeta. split; [vm_compute; reflexivity |].
  apply (@block_bisects_on_responses counting_estimator
           (scripted_presenter [1; 0; 1; 1; 0; 1]%Z) 0
           (@initial counting_estimator 0%nat)).
  - lia.
  - intros en d r. cbn. discriminate.
  - reflexivity.
  - intros j Hj.
    do 6 (destruct j as [| j]; [reflexivity |]). lia.
Defined.

(** Two practice trials, then three main trials answered 1, 1 and 0. *)
Lemma main_rows_replay_staircase_witness :
  let r := @session counting_estimator
             (scripted_presenter [1; 0; 1; 1; 0]%Z) 2 3
             (@initial counting_estimator 0%nat) in
  let main_rows :=
    skipn (practice_completed 2 (snd r)) (persisted_lines (file (fst r))) in
  map line_response_int main_rows = [1; 1; 0]%Z /\
  map line_design main_rows =
    map design_cells
      (stair_run 0 None 200 (map line_response_int main_rows)).
Proof.
  cbv zeta. split; [vm_compute; reflexivity |].
  exact (@main_rows_replay_staircase counting_estimator
           (scripted_presenter [1; 0; 1; 1; 0]%Z) 2 3 0%nat _ _
           (surjective_pairing _)).
Defined.
